(** * Smart-contract generator backend: contract service, response parser,
      lifecycle and gas estimation

    A shallow embedding of the decision logic of the Flask backend
    ([services/contract_service.py], [services/gemini_client.py],
    [routes/contracts.py], [routes/deploy.py], [models.py]) and the
    properties the specification states about it.

    Conventions of the embedding.
    - A Python [str] is a [string]: one [ascii] per byte of its UTF-8
      encoding.  [find], [in], slicing at found positions, [startswith]
      and the hexadecimal test act on bytes as they act on code points.
      [strip], [lower] and [upper] are modelled on ASCII characters;
      characters above 127 are neither whitespace nor cased here.
    - A Python [int] used as an index is a [Z]; [find] answers [-1] when
      there is no occurrence, and a slice normalises negative bounds the
      way Python does.
    - A value decoded from JSON is a [json]; a Python dict with string
      keys is an association list in insertion order with distinct keys.
    - A computation that may raise returns a [pyresult]. *)

From Stdlib Require Import ZArith NArith Ascii String List Bool Lia.
From stdpp Require Import base option list strings gmap sorting.

Local Open Scope Z_scope.
Set Warnings "-register-all".


(** ** Python text operations *)

Module PyStr.

Definition dquote : ascii := "034"%char.
Definition newline : ascii := "010"%char.
Definition q : string := String dquote "".
Definition nl : string := String newline "".

Definition len (s : string) : Z := Z.of_nat (String.length s).

(** [str.isspace] on one ASCII character: TAB, LF, VT, FF, CR, the four
    separators FS GS RS US, and the space. *)
Definition is_space (c : ascii) : bool :=
  let n := nat_of_ascii c in
  ((9 <=? n) && (n <=? 13) || (28 <=? n) && (n <=? 32))%nat.

Definition is_empty (s : string) : bool :=
  match s with "" => true | _ => false end.

Fixpoint lstrip (s : string) : string :=
  match s with
  | "" => ""
  | String c r => if is_space c then lstrip r else s
  end.

Fixpoint rstrip (s : string) : string :=
  match s with
  | "" => ""
  | String c r =>
      let r' := rstrip r in
      if is_space c && is_empty r' then "" else String c r'
  end.

(** [s.strip()] *)
Definition strip (s : string) : string := rstrip (lstrip s).

(** [s.startswith(p)] *)
Fixpoint startswith (p s : string) : bool :=
  match p, s with
  | "", _ => true
  | String a p', String b s' => Ascii.eqb a b && startswith p' s'
  | String _ _, "" => false
  end.

(** Position of the first occurrence of [sub] in [s], if any. *)
Fixpoint find_nat (sub s : string) : option nat :=
  if startswith sub s then Some 0%nat
  else match s with
       | "" => None
       | String _ r => S <$> find_nat sub r
       end.

(** Position of the last occurrence of [sub] in [s], if any. *)
Fixpoint rfind_nat (sub s : string) : option nat :=
  match s with
  | "" => if startswith sub "" then Some 0%nat else None
  | String _ r =>
      match rfind_nat sub r with
      | Some i => Some (S i)
      | None => if startswith sub s then Some 0%nat else None
      end
  end.

(** [sub in s] *)
Definition contains (sub s : string) : bool :=
  match find_nat sub s with Some _ => true | None => false end.

Definition index_or_minus1 (o : option nat) : Z :=
  match o with Some i => Z.of_nat i | None => -1 end.

Fixpoint drop (n : nat) (s : string) : string :=
  match n, s with
  | O, _ => s
  | S n', String _ r => drop n' r
  | S _, "" => ""
  end.

Fixpoint take (n : nat) (s : string) : string :=
  match n, s with
  | O, _ => ""
  | S n', String c r => String c (take n' r)
  | S _, "" => ""
  end.

(** A slice bound as Python normalises it: a negative bound counts from
    the end, and the result is clamped to [0 .. len]. *)
Definition norm_index (n i : Z) : Z :=
  if i <? 0 then Z.max 0 (i + n) else Z.min i n.

(** [s[a:b]] *)
Definition slice (s : string) (a b : Z) : string :=
  let a' := norm_index (len s) a in
  let b' := norm_index (len s) b in
  take (Z.to_nat (b' - a')) (drop (Z.to_nat a') s).

(** [s[a:]] *)
Definition slice_from (s : string) (a : Z) : string :=
  drop (Z.to_nat (norm_index (len s) a)) s.

(** [s.find(sub)] *)
Definition find (sub s : string) : Z := index_or_minus1 (find_nat sub s).

(** [s.find(sub, start)] *)
Definition find_from (sub s : string) (start : Z) : Z :=
  if len s <? start then -1
  else
    let st := norm_index (len s) start in
    match find_nat sub (drop (Z.to_nat st) s) with
    | Some i => st + Z.of_nat i
    | None => -1
    end.

(** [s.rfind(sub)] *)
Definition rfind (sub s : string) : Z := index_or_minus1 (rfind_nat sub s).

Definition map_chars (f : ascii -> ascii) : string -> string :=
  fix go (s : string) : string :=
    match s with
    | "" => ""
    | String c r => String (f c) (go r)
    end.

Definition lower_char (c : ascii) : ascii :=
  let n := nat_of_ascii c in
  if ((65 <=? n) && (n <=? 90))%nat then ascii_of_nat (n + 32) else c.

Definition upper_char (c : ascii) : ascii :=
  let n := nat_of_ascii c in
  if ((97 <=? n) && (n <=? 122))%nat then ascii_of_nat (n - 32) else c.

(** [s.lower()] and [s.upper()] *)
Definition lower : string -> string := map_chars lower_char.
Definition upper : string -> string := map_chars upper_char.

(** [sep.join(l)] *)
Fixpoint join (sep : string) (l : list string) : string :=
  match l with
  | [] => ""
  | [x] => x
  | x :: r => x +:+ sep +:+ join sep r
  end.

(** [all(c in chars for c in s)] *)
Fixpoint all_in (chars s : string) : bool :=
  match s with
  | "" => true
  | String c r => contains (String c "") chars && all_in chars r
  end.

End PyStr.

(** ** Exceptions *)

Inductive py_exn : Type :=
| JSONDecodeError
| ValueError (msg : string)
| TypeError
| AttributeError
| KeyError
| OtherError (name : string)
| PyException (msg : string) (cause : py_exn).

Inductive pyresult (A : Type) : Type :=
| Returns (a : A)
| Raises (e : py_exn).
Arguments Returns {A} a.
Arguments Raises {A} e.

#[global] Instance pyresult_ret : MRet pyresult := @Returns.

#[global] Instance pyresult_bind : MBind pyresult :=
  fun A B (k : A -> pyresult B) (m : pyresult A) =>
    match m with
    | Returns a => k a
    | Raises e => Raises e
    end.

(** [try: m except Exception as e: h e] *)
Definition try_except {A : Type} (m : pyresult A) (h : py_exn -> pyresult A) : pyresult A :=
  match m with
  | Returns a => Returns a
  | Raises e => h e
  end.

(** ** JSON values *)

(** A float as the decoder meets it: a signed decimal [mant * 10^exp10]
    still to be rounded to binary64, or one of the constants the Python
    decoder accepts. *)
Inductive pyfloat : Type :=
| FDec (neg : bool) (mant : N) (exp10 : Z)
| FNaN
| FInf (neg : bool).

Inductive json : Type :=
| JNull
| JBool (b : bool)
| JInt (n : Z)
| JFloat (f : pyfloat)
| JString (s : string)
| JArray (l : list json)
| JObject (d : list (string * json)).

Definition dict : Type := list (string * json).

(** A decimal rounds to the binary64 zero when it is zero or at most half
    the least subnormal, [2^-1075]. *)
Definition float_is_zero (f : pyfloat) : bool :=
  match f with
  | FDec _ m e =>
      (m =? 0)%N || ((e <? 0) && (Z.of_N m * 2 ^ 1075 <=? 10 ^ (- e)))
  | FNaN | FInf _ => false
  end.

(** [bool(v)] *)
Definition truthy (v : json) : bool :=
  match v with
  | JNull => false
  | JBool b => b
  | JInt n => negb (n =? 0)
  | JFloat f => negb (float_is_zero f)
  | JString s => negb (PyStr.is_empty s)
  | JArray l => match l with [] => false | _ => true end
  | JObject d => match d with [] => false | _ => true end
  end.

(** [bool(d.get(k))]: an absent key gives [None], which is false. *)
Definition truthy_opt (o : option json) : bool :=
  match o with Some v => truthy v | None => false end.

(** [d.get(k)], with [None] for Python's [None] default. *)
Fixpoint dict_get (k : string) (d : dict) : option json :=
  match d with
  | [] => None
  | (k', v) :: r => if String.eqb k k' then Some v else dict_get k r
  end.

(** [k in d] *)
Definition dict_has (k : string) (d : dict) : bool :=
  match dict_get k d with Some _ => true | None => false end.

(** [d[k] = v]: an existing key keeps its place, a new one goes last. *)
Fixpoint dict_set (k : string) (v : json) (d : dict) : dict :=
  match d with
  | [] => [(k, v)]
  | (k', v') :: r =>
      if String.eqb k k' then (k', v) :: r else (k', v') :: dict_set k v r
  end.

(** [v == s] for a string [s]: only a string compares equal to one. *)
Definition is_str (s : string) (v : json) : bool :=
  match v with JString t => String.eqb s t | _ => false end.

(** ** The JSON decoder

    [json.loads] belongs to Python's library.  The backend is embedded
    over an arbitrary decoder (a section variable of each module); the
    decoder below follows the grammar of CPython's scanner and
    instantiates it on concrete texts.  Of the limits of the interpreter
    it models the recursion depth, not the digit limit of [int].

    The three mutually recursive functions descend on a budget of calls.
    Of two nested calls at least one has consumed a character, so the
    budget [loads] grants, twice the length of the text and two more, is
    never used up. *)

Module Json.
Import PyStr.

Local Open Scope char_scope.

Definition is_ws (c : ascii) : bool :=
  match c with
  | " " | "009" | "010" | "013" => true
  | _ => false
  end.

Fixpoint skip_ws (s : string) : string :=
  match s with
  | String c r => if is_ws c then skip_ws r else s
  | EmptyString => EmptyString
  end.

Definition digit_val (c : ascii) : option N :=
  let n := N_of_ascii c in
  if ((48 <=? n) && (n <=? 57))%N then Some (n - 48)%N else None.

Definition hex_val (c : ascii) : option N :=
  let n := N_of_ascii c in
  if ((48 <=? n) && (n <=? 57))%N then Some (n - 48)%N
  else if ((97 <=? n) && (n <=? 102))%N then Some (n - 87)%N
  else if ((65 <=? n) && (n <=? 70))%N then Some (n - 55)%N
  else None.

Definition hex4 (a b c d : ascii) : option N :=
  x ← hex_val a; y ← hex_val b; z ← hex_val c; w ← hex_val d;
  Some (((x * 16 + y) * 16 + z) * 16 + w)%N.

Definition byte (n : N) : ascii := ascii_of_N n.

(** The UTF-8 bytes of a code point (a lone surrogate keeps its
    three-byte form). *)
Definition utf8 (cp : N) : string :=
  (if cp <? 128 then String (byte cp) EmptyString
   else if cp <? 2048 then
     String (byte (192 + cp / 64)) (String (byte (128 + cp mod 64)) EmptyString)
   else if cp <? 65536 then
     String (byte (224 + cp / 4096))
       (String (byte (128 + (cp / 64) mod 64))
          (String (byte (128 + cp mod 64)) EmptyString))
   else
     String (byte (240 + cp / 262144))
       (String (byte (128 + (cp / 4096) mod 64))
          (String (byte (128 + (cp / 64) mod 64))
             (String (byte (128 + cp mod 64)) EmptyString))))%N.

Definition simple_escape (c : ascii) : option ascii :=
  match c with
  | "034" => Some "034"
  | "\" => Some "\"
  | "/" => Some "/"
  | "b" => Some "008"
  | "f" => Some "012"
  | "n" => Some "010"
  | "r" => Some "013"
  | "t" => Some "009"
  | _ => None
  end.

Definition is_high_surrogate (cp : N) : bool := ((55296 <=? cp) && (cp <=? 56319))%N.
Definition is_low_surrogate (cp : N) : bool := ((56320 <=? cp) && (cp <=? 57343))%N.

Definition emit (pre : string) (o : option (string * string)) : option (string * string) :=
  '(body, rest) ← o; Some (pre +:+ body, rest).

(** The text after an opening quote: the decoded string and what
    follows its closing quote (strict mode). *)
Fixpoint scanstring (s : string) : option (string * string) :=
  match s with
  | EmptyString => None
  | String "034" r => Some (EmptyString, r)
  | String "\" (String "u" (String h1 (String h2 (String h3 (String h4 r))))) =>
      cp ← hex4 h1 h2 h3 h4;
      if is_high_surrogate cp then
        match r with
        | String "\" (String "u" (String l1 (String l2 (String l3 (String l4 r'))))) =>
            cp2 ← hex4 l1 l2 l3 l4;
            if is_low_surrogate cp2 then
              emit (utf8 (65536 + (cp - 55296) * 1024 + (cp2 - 56320))%N) (scanstring r')
            else emit (utf8 cp) (scanstring r)
        | _ => emit (utf8 cp) (scanstring r)
        end
      else emit (utf8 cp) (scanstring r)
  | String "\" (String e r) =>
      c ← simple_escape e; emit (String c EmptyString) (scanstring r)
  | String "\" EmptyString => None
  | String c r =>
      if (N_of_ascii c <? 32)%N then None
      else emit (String c EmptyString) (scanstring r)
  end.

(** The leading decimal digits of [s], their count, and the rest. *)
Fixpoint span_digits (acc : N) (cnt : Z) (s : string) : N * Z * string :=
  match s with
  | String c r =>
      match digit_val c with
      | Some d => span_digits (acc * 10 + d)%N (cnt + 1)%Z r
      | None => (acc, cnt, s)
      end
  | EmptyString => (acc, cnt, s)
  end.

(** The integer part: [0], or a non-zero digit and more digits. *)
Definition int_part (s : string) : option (N * string) :=
  match s with
  | String "0" r => Some (0%N, r)
  | String c r =>
      match digit_val c with
      | Some d => let '(n, _, r') := span_digits d 1%Z r in Some (n, r')
      | None => None
      end
  | EmptyString => None
  end.

(** An exponent [e], [e+] or [e-] followed by at least one digit. *)
Definition exp_part (s : string) : option (Z * string) :=
  match s with
  | String c r =>
      if Ascii.eqb c "e" || Ascii.eqb c "E" then
        let '(neg, r1) :=
          match r with
          | String "-" r1 => (true, r1)
          | String "+" r1 => (false, r1)
          | _ => (false, r)
          end in
        let '(n, cnt, r2) := span_digits 0%N 0%Z r1 in
        if (cnt =? 0)%Z then None
        else Some (if neg then (- Z.of_N n)%Z else Z.of_N n, r2)
      else None
  | EmptyString => None
  end.

Definition match_number (s : string) : option (json * string) :=
  let '(neg, s1) :=
    match s with
    | String "-" r => (true, r)
    | _ => (false, s)
    end in
  '(ip, s2) ← int_part s1;
  let '(mant, fdigits, s3, has_frac) :=
    match s2 with
    | String "." r =>
        let '(m, cnt, r') := span_digits ip 0%Z r in
        if (cnt =? 0)%Z then (ip, 0%Z, s2, false) else (m, cnt, r', true)
    | _ => (ip, 0%Z, s2, false)
    end in
  match exp_part s3 with
  | Some (e, s4) => Some (JFloat (FDec neg mant (e - fdigits)%Z), s4)
  | None =>
      if has_frac then Some (JFloat (FDec neg mant (- fdigits)%Z), s3)
      else Some (JInt (if neg then (- Z.of_N ip)%Z else Z.of_N ip), s3)
  end.

(** [dict(pairs)]: a repeated key keeps its first place and takes the
    last value. *)
Definition dict_of_pairs (pairs : list (string * json)) : dict :=
  fold_left (fun d kv => dict_set kv.1 kv.2 d) pairs [].

Definition literal (word : string) (v : json) (s : string) : option (json * string) :=
  if startswith word s then Some (v, drop (String.length word) s) else None.

(** What the scanner answers where the grammar gave nothing: the decode
    error. *)
Definition found {A : Type} (o : option A) : pyresult A :=
  match o with
  | Some a => Returns a
  | None => Raises JSONDecodeError
  end.

(** The error of the interpreter when calls nest deeper than its
    recursion limit; it is not a decode error. *)
Definition recursion_error : py_exn := OtherError "RecursionError".

(** [sys.getrecursionlimit()] as the interpreter starts. *)
Definition recursion_limit : nat := 1000.

(** [scan_once]: one value at the head of [s] and the text after it.
    [array_items] and [object_items] start at an element, with the
    elements read so far in reverse.  Every array and every object is
    one more call of the interpreter: [depth] counts the calls that are
    left, and a container met when none is left raises
    [RecursionError], before its content is looked at. *)
Fixpoint scan_once (fuel depth : nat) (s : string) {struct fuel}
    : pyresult (json * string) :=
  match fuel with
  | O => Raises JSONDecodeError
  | S f =>
      match s with
      | EmptyString => Raises JSONDecodeError
      | String "034" r => '(str, r') ← found (scanstring r); Returns (JString str, r')
      | String "{" r =>
          match depth with
          | O => Raises recursion_error
          | S d =>
              match skip_ws r with
              | String "}" r' => Returns (JObject [], r')
              | r' => object_items f d [] r'
              end
          end
      | String "[" r =>
          match depth with
          | O => Raises recursion_error
          | S d =>
              match skip_ws r with
              | String "]" r' => Returns (JArray [], r')
              | r' => array_items f d [] r'
              end
          end
      | String "n" _ => found (literal "null" JNull s)
      | String "t" _ => found (literal "true" (JBool true) s)
      | String "f" _ => found (literal "false" (JBool false) s)
      | String "N" _ => found (literal "NaN" (JFloat FNaN) s)
      | String "I" _ => found (literal "Infinity" (JFloat (FInf false)) s)
      | String "-" _ =>
          if startswith "-Infinity" s
          then found (literal "-Infinity" (JFloat (FInf true)) s)
          else found (match_number s)
      | _ => found (match_number s)
      end
  end
with array_items (fuel depth : nat) (acc : list json) (s : string) {struct fuel}
    : pyresult (json * string) :=
  match fuel with
  | O => Raises JSONDecodeError
  | S f =>
      '(v, r) ← scan_once f depth s;
      match skip_ws r with
      | String "]" r' => Returns (JArray (rev (v :: acc)), r')
      | String "," r' => array_items f depth (v :: acc) (skip_ws r')
      | _ => Raises JSONDecodeError
      end
  end
with object_items (fuel depth : nat) (acc : list (string * json)) (s : string)
    {struct fuel} : pyresult (json * string) :=
  match fuel with
  | O => Raises JSONDecodeError
  | S f =>
      match s with
      | String "034" r =>
          '(key, r1) ← found (scanstring r);
          match skip_ws r1 with
          | String ":" r2 =>
              '(v, r3) ← scan_once f depth (skip_ws r2);
              match skip_ws r3 with
              | String "}" r' =>
                  Returns (JObject (dict_of_pairs (rev ((key, v) :: acc))), r')
              | String "," r' => object_items f depth ((key, v) :: acc) (skip_ws r')
              | _ => Raises JSONDecodeError
              end
          | _ => Raises JSONDecodeError
          end
      | _ => Raises JSONDecodeError
      end
  end.

(** [json.loads(s)] with room for [depth] nested containers: one value,
    surrounded by whitespace only. *)
Definition loads_within (depth : nat) (s : string) : pyresult json :=
  '(v, r) ← scan_once (2 * String.length s + 2) depth (skip_ws s);
  match skip_ws r with
  | EmptyString => Returns v
  | _ => Raises JSONDecodeError
  end.

(** [json.loads(s)] with the whole recursion limit at its disposal; the
    calls that surround it in a running program leave it less. *)
Definition loads (s : string) : pyresult json := loads_within recursion_limit s.

End Json.


Import PyStr.

(** [field in v] for a decoded value [v]: key membership in a dict,
    element equality in a list, substring search in a string; the other
    values are not containers. *)
Definition py_in (field : string) (v : json) : pyresult bool :=
  match v with
  | JObject d => Returns (dict_has field d)
  | JArray l => Returns (existsb (is_str field) l)
  | JString s => Returns (contains field s)
  | JNull | JBool _ | JInt _ | JFloat _ => Raises TypeError
  end.

(** [v[k]] for a string key [k]. *)
Definition getitem (v : json) (k : string) : pyresult json :=
  match v with
  | JObject d =>
      match dict_get k d with
      | Some x => Returns x
      | None => Raises KeyError
      end
  | _ => Raises TypeError
  end.

(** [isinstance(v, dict)] *)
Definition is_dict (v : json) : bool :=
  match v with JObject _ => true | _ => false end.

(** ** services/gemini_client.py *)

Module GeminiClient.

Definition fallback_solidity_code : string :=
  join nl
    [ "// SPDX-License-Identifier: MIT";
      "pragma solidity ^0.8.19;";
      "";
      "/**";
      " * @title BasicContract";
      " * @dev A basic smart contract template";
      " */";
      "contract BasicContract {";
      "    address public owner;";
      "    ";
      "    constructor() {";
      "        owner = msg.sender;";
      "    }";
      "    ";
      "    modifier onlyOwner() {";
      ("        require(msg.sender == owner, " +:+ q +:+ "Not authorized" +:+ q +:+ ");");
      "        _;";
      "    }";
      "    ";
      "    function updateOwner(address newOwner) external onlyOwner {";
      ("        require(newOwner != address(0), " +:+ q +:+ "Invalid address" +:+ q +:+ ");");
      "        owner = newOwner;";
      "    }";
      "}" ].

Definition fallback_deploy_script : string :=
  join nl
    [ ("const { ethers } = require(" +:+ q +:+ "hardhat" +:+ q +:+ ");");
      "";
      "async function main() {";
      ("    const Contract = await ethers.getContractFactory(" +:+ q +:+ "BasicContract" +:+ q +:+ ");");
      "    const contract = await Contract.deploy();";
      "    await contract.deployed();";
      ("    console.log(" +:+ q +:+ "Contract deployed to:" +:+ q +:+ ", contract.address);");
      "}";
      "";
      "main().catch((error) => {";
      "    console.error(error);";
      "    process.exitCode = 1;";
      "});" ].

Definition fallback_tests : string :=
  join nl
    [ ("const { expect } = require(" +:+ q +:+ "chai" +:+ q +:+ ");");
      "";
      ("describe(" +:+ q +:+ "BasicContract" +:+ q +:+ ", function () {");
      ("    it(" +:+ q +:+ "Should deploy successfully" +:+ q +:+ ", async function () {");
      ("        const Contract = await ethers.getContractFactory(" +:+ q +:+ "BasicContract" +:+ q +:+ ");");
      "        const contract = await Contract.deploy();";
      "        expect(contract.address).to.not.equal(0);";
      "    });";
      "});" ].

Definition fallback_metadata : dict :=
  [ ("contract_name", JString "BasicContract");
    ("compiler_version", JString "^0.8.19");
    ("optimization", JBool true);
    ("license", JString "MIT");
    ("description", JString "Basic contract template");
    ("functions", JArray [JString "updateOwner"]);
    ("events", JArray []);
    ("security_features", JArray [JString "onlyOwner modifier"]) ].

Definition _create_fallback_response : json :=
  JObject
    [ ("solidity_code", JString fallback_solidity_code);
      ("deploy_script", JString fallback_deploy_script);
      ("tests", JString fallback_tests);
      ("metadata", JObject fallback_metadata) ].

Definition fence : string := "```".
Definition json_fence : string := "```json".

(** Lines 126-136 of [_parse_response]: the candidate JSON text. *)
Definition json_text_of (response_text : string) : string :=
  let response_text := strip response_text in
  if contains json_fence response_text then
    let start := find json_fence response_text + 7 in
    let end_ := find_from fence response_text start in
    strip (slice response_text start end_)
  else if contains fence response_text then
    let start := find fence response_text + 3 in
    let end_ := rfind fence response_text in
    strip (slice response_text start end_)
  else response_text.

Definition required_fields : list string :=
  ["solidity_code"; "deploy_script"; "tests"; "metadata"].

(** The loop over [required_fields]: the first absent field raises. *)
Fixpoint check_required (fields : list string) (result : json) : pyresult unit :=
  match fields with
  | [] => Returns ()
  | field :: rest =>
      present ← py_in field result;
      if negb present then Raises (ValueError ("Missing required field: " +:+ field))
      else check_required rest result
  end.

Section Parse.
Variable json_loads : string -> pyresult json.

(** The body of the [try] block of [_parse_response]. *)
Definition parse_body (response_text : string) : pyresult json :=
  let json_text := json_text_of response_text in
  result ← json_loads json_text;
  _ ← check_required required_fields result;
  metadata ← getitem result "metadata";
  if negb (is_dict metadata) then Raises (ValueError "Metadata must be a dictionary")
  else Returns result.

(** [_parse_response]: a decode error heals into the fallback, any
    other exception is raised again, wrapped. *)
Definition _parse_response (response_text : string) : pyresult json :=
  try_except (parse_body response_text)
    (fun e =>
       match e with
       | JSONDecodeError => Returns _create_fallback_response
       | _ => Raises (PyException "Failed to parse contract generation response: " e)
       end).

(** [generate_contract] of the client.  The prompt only feeds the
    remote model, whose answer [response] (its text, or the error of
    the call) is an input here. *)
Definition generate_contract (response : pyresult string) : pyresult json :=
  try_except (response_text ← response; _parse_response response_text)
    (fun e => Raises (PyException "Contract generation failed: " e)).

End Parse.

End GeminiClient.

(** ** models.py *)

(** A row of table [contracts].  A text column holds text or NULL; the
    timestamps are instants on the clock of the store. *)
Record Contract : Type := mkContract {
  id : Z;
  jurisdiction : option string;
  contract_type : option string;
  requirements : option string;
  description : option string;
  payee_address : option string;
  payer_address : option string;
  solidity_code : option string;
  deploy_script : option string;
  tests : option string;
  contract_metadata : option string;
  status : string;
  transaction_hash : option string;
  contract_address : option string;
  created_at : Z;
  updated_at : Z
}.

#[global] Instance Contract_eq_dec : EqDecision Contract.
Proof. solve_decision. Defined.

(** The table, and the identity the next insertion receives. *)
Record Db : Type := mkDb {
  rows : gmap Z Contract;
  next_id : Z
}.

Definition empty_db : Db := mkDb ∅ 1.

(** [bool(s)] for an [Optional[str]]. *)
Definition truthy_text (s : option string) : bool :=
  match s with Some t => negb (is_empty t) | None => false end.

Definition set_status (c : Contract) (s : string) : Contract :=
  mkContract (id c) (jurisdiction c) (contract_type c) (requirements c)
    (description c) (payee_address c) (payer_address c) (solidity_code c)
    (deploy_script c) (tests c) (contract_metadata c) s
    (transaction_hash c) (contract_address c) (created_at c) (updated_at c).

Definition set_transaction_hash (c : Contract) (h : option string) : Contract :=
  mkContract (id c) (jurisdiction c) (contract_type c) (requirements c)
    (description c) (payee_address c) (payer_address c) (solidity_code c)
    (deploy_script c) (tests c) (contract_metadata c) (status c)
    h (contract_address c) (created_at c) (updated_at c).

Definition set_contract_address (c : Contract) (a : option string) : Contract :=
  mkContract (id c) (jurisdiction c) (contract_type c) (requirements c)
    (description c) (payee_address c) (payer_address c) (solidity_code c)
    (deploy_script c) (tests c) (contract_metadata c) (status c)
    (transaction_hash c) a (created_at c) (updated_at c).

Definition set_updated_at (c : Contract) (t : Z) : Contract :=
  mkContract (id c) (jurisdiction c) (contract_type c) (requirements c)
    (description c) (payee_address c) (payer_address c) (solidity_code c)
    (deploy_script c) (tests c) (contract_metadata c) (status c)
    (transaction_hash c) (contract_address c) (created_at c) t.

(** What a commit writes for a loaded row: [onupdate] stamps
    [updated_at] when some column changed. *)
Definition flush (now : Z) (old new : Contract) : Contract :=
  if decide (old = new) then new else set_updated_at new now.

(** A text column as JSON: [null] for NULL. *)
Definition json_of_text (o : option string) : json :=
  match o with Some t => JString t | None => JNull end.

Module Models.

Section Serialization.
(** Python's [json.loads], and [datetime.isoformat] on the instants of
    the store. *)
Variable json_loads : string -> pyresult json.
Variable isoformat : Z -> string.

(** [json.loads(self.contract_metadata) if self.contract_metadata else {}] *)
Definition metadata_of (c : Contract) : pyresult json :=
  if truthy_text (contract_metadata c)
  then json_loads (default "" (contract_metadata c))
  else Returns (JObject []).

(** [to_dict] *)
Definition to_dict (c : Contract) : pyresult dict :=
  metadata ← metadata_of c;
  Returns
    [ ("id", JInt (id c));
      ("jurisdiction", json_of_text (jurisdiction c));
      ("contract_type", json_of_text (contract_type c));
      ("requirements", json_of_text (requirements c));
      ("description", json_of_text (description c));
      ("payee_address", json_of_text (payee_address c));
      ("payer_address", json_of_text (payer_address c));
      ("solidity_code", json_of_text (solidity_code c));
      ("deploy_script", json_of_text (deploy_script c));
      ("tests", json_of_text (tests c));
      ("metadata", metadata);
      ("status", JString (status c));
      ("transaction_hash", json_of_text (transaction_hash c));
      ("contract_address", json_of_text (contract_address c));
      ("created_at", JString (isoformat (created_at c)));
      ("updated_at", JString (isoformat (updated_at c))) ].

(** [to_summary_dict] *)
Definition to_summary_dict (c : Contract) : dict :=
  [ ("id", JInt (id c));
    ("jurisdiction", json_of_text (jurisdiction c));
    ("contract_type", json_of_text (contract_type c));
    ("description", json_of_text (description c));
    ("status", JString (status c));
    ("contract_address", json_of_text (contract_address c));
    ("created_at", JString (isoformat (created_at c))) ].

End Serialization.

End Models.

(** ** The rule repository (legal_rules/jurisdictions.yaml, once loaded) *)

Record JurisdictionRule : Type := mkJurisdictionRule {
  legal_framework : string;
  compliance_rules : list string;
  contract_clauses : list (string * list string);
  jr_required_fields : list string
}.

Record ContractTypeRule : Type := mkContractTypeRule {
  required_functions : list string;
  security_considerations : list string
}.

(** Both tables keep the order of the file; an unreadable file gives the
    empty rule set. *)
Record RuleSet : Type := mkRuleSet {
  jurisdictions : list (string * JurisdictionRule);
  contract_types : list (string * ContractTypeRule)
}.

Definition empty_rules : RuleSet := mkRuleSet [] [].

Definition keys {V : Type} (table : list (string * V)) : list string := table.*1.

Fixpoint table_get {V : Type} (k : string) (table : list (string * V)) : option V :=
  match table with
  | [] => None
  | (k', v) :: r => if String.eqb k k' then Some v else table_get k r
  end.

(** [x in l] for a list of strings. *)
Definition str_in (x : string) (l : list string) : bool := existsb (String.eqb x) l.

(** ** services/contract_service.py *)

Record ValidationResult : Type := mkValidationResult {
  valid : bool;
  errors : list string;
  warnings : list string
}.

Record DeploymentData : Type := mkDeploymentData {
  dd_contract_id : Z;
  dd_solidity_code : option string;
  dd_deploy_script : option string;
  dd_constructor_params : list string;
  dd_metadata : json;
  dd_estimated_gas : Z;
  dd_contract_name : json
}.

Module ContractService.

(** [_is_valid_ethereum_address] *)
Definition _is_valid_ethereum_address (address : string) : bool :=
  if is_empty address then false
  else startswith "0x" address
       && (len address =? 42)
       && all_in "0123456789abcdefABCDEF" (slice_from address 2).

(** [payload.get(k, '').lower()]: only a string has [lower]. *)
Definition get_lower (k : string) (payload : dict) : pyresult string :=
  match dict_get k payload with
  | None => Returns (lower "")
  | Some (JString s) => Returns (lower s)
  | Some _ => Raises AttributeError
  end.

(** The first loop of [validate_request]. *)
Definition missing_errors (payload : dict) : list string :=
  flat_map
    (fun field =>
       if negb (truthy_opt (dict_get field payload))
       then ["Missing required field: " +:+ field] else [])
    ["jurisdiction"; "contract_type"; "requirements"].

(** One turn of the address loop: the warnings it appends. *)
Definition address_warnings (addr_field : string) (payload : dict) : pyresult (list string) :=
  match dict_get addr_field payload with
  | None => Returns []
  | Some address =>
      if truthy address then
        match address with
        | JString a =>
            Returns (if negb (_is_valid_ethereum_address a)
                     then ["Invalid Ethereum address format for " +:+ addr_field]
                     else [])
        | _ => Raises AttributeError
        end
      else Returns []
  end.

(** The jurisdiction-specific loop. *)
Definition jurisdiction_errors (rules : RuleSet) (jurisdiction : string) (payload : dict)
    : list string :=
  match table_get jurisdiction (jurisdictions rules) with
  | None => []
  | Some jurisdiction_rules =>
      flat_map
        (fun field =>
           if negb (dict_has field payload) || negb (truthy_opt (dict_get field payload))
           then ["Field '" +:+ field +:+ "' is required for "
                 +:+ upper jurisdiction +:+ " jurisdiction"]
           else [])
        (jr_required_fields jurisdiction_rules)
  end.

(** [validate_request] *)
Definition validate_request (rules : RuleSet) (payload : dict) : pyresult ValidationResult :=
  let errors := missing_errors payload in
  jurisdiction ← get_lower "jurisdiction" payload;
  let valid_jurisdictions := keys (jurisdictions rules) in
  let errors :=
    if negb (is_empty jurisdiction) && negb (str_in jurisdiction valid_jurisdictions)
    then errors ++ ["Invalid jurisdiction. Valid options: " +:+ join ", " valid_jurisdictions]
    else errors in
  contract_type ← get_lower "contract_type" payload;
  let valid_types := keys (contract_types rules) in
  let errors :=
    if negb (is_empty contract_type) && negb (str_in contract_type valid_types)
    then errors ++ ["Invalid contract type. Valid options: " +:+ join ", " valid_types]
    else errors in
  w1 ← address_warnings "payee_address" payload;
  w2 ← address_warnings "payer_address" payload;
  let warnings := w1 ++ w2 in
  let errors := errors ++ jurisdiction_errors rules jurisdiction payload in
  Returns (mkValidationResult (length errors =? 0)%nat errors warnings).

Section Service.
(** Python's [json.loads] and [json.dumps], and what the store does
    with a value that is neither text nor null when it is bound to a
    text column (the text it keeps, or the error of the driver). *)
Variable json_loads : string -> pyresult json.
Variable json_dumps : json -> string.
Variable bind_other : json -> pyresult (option string).

(** A JSON value on its way into a text column. *)
Definition text_column (v : option json) : pyresult (option string) :=
  match v with
  | None | Some JNull => Returns None
  | Some (JString s) => Returns (Some s)
  | Some other => bind_other other
  end.

(** [Contract(...)], [db.session.add] and [db.session.commit] of
    [generate_contract]: the row as the store keeps it.  The defaults
    of [created_at] and [updated_at] each read the clock: [now] holds
    the two readings, in that order. *)
Definition new_contract (db : Db) (now : Z * Z) (payload : dict) (result : json)
    : pyresult Contract :=
  jurisdiction ← text_column (dict_get "jurisdiction" payload);
  contract_type ← text_column (dict_get "contract_type" payload);
  requirements ← text_column (dict_get "requirements" payload);
  description ← text_column (dict_get "description" payload);
  payee_address ← text_column (dict_get "payee_address" payload);
  payer_address ← text_column (dict_get "payer_address" payload);
  code ← getitem result "solidity_code";
  solidity_code ← text_column (Some code);
  script ← getitem result "deploy_script";
  deploy_script ← text_column (Some script);
  tests_v ← getitem result "tests";
  tests ← text_column (Some tests_v);
  metadata ← getitem result "metadata";
  let contract_metadata := json_dumps metadata in
  Returns (mkContract (next_id db) jurisdiction contract_type requirements
             description payee_address payer_address solidity_code
             deploy_script tests (Some contract_metadata) "draft"
             None None now.1 now.2).

(** [generate_contract]: the answer of the remote model, the readings
    of the clock and the outcome of the commit are inputs.  A failure
    after validation rolls the session back. *)
Definition generate_contract (rules : RuleSet) (response : pyresult string)
    (now : Z * Z) (commit_ok : bool) (db : Db) (payload : dict)
    : pyresult Contract * Db :=
  match validate_request rules payload with
  | Raises e => (Raises e, db)
  | Returns validation =>
      if negb (valid validation) then
        (Raises (ValueError ("Validation failed: " +:+ join ", " (errors validation))), db)
      else
        let attempt :=
          result ← GeminiClient.generate_contract json_loads response;
          contract ← new_contract db now payload result;
          if commit_ok then Returns contract
          else Raises (OtherError "SQLAlchemyError") in
        match attempt with
        | Returns contract =>
            (Returns contract,
             mkDb (<[id contract := contract]> (rows db)) (next_id db + 1))
        | Raises e => (Raises (PyException "Failed to generate contract: " e), db)
        end
  end.

(** [get_contract] *)
Definition get_contract (db : Db) (contract_id : Z) : option Contract :=
  rows db !! contract_id.

(** One filter of [list_contracts]: a key that is absent or has an empty
    value does not filter; otherwise the column must hold exactly the
    value (a NULL column equals nothing). *)
Definition filter_holds (filters : list (string * string)) (k : string)
    (column : option string) : bool :=
  match table_get k filters with
  | Some v =>
      if is_empty v then true
      else match column with
           | Some t => String.eqb t v
           | None => false
           end
  | None => true
  end.

(** The filters of [list_contracts], a dict of strings; [None] or the
    empty dict filters nothing. *)
Definition matches_filters (filters : option (list (string * string))) (c : Contract) : bool :=
  match filters with
  | None | Some [] => true
  | Some f =>
      filter_holds f "jurisdiction" (jurisdiction c)
      && filter_holds f "contract_type" (contract_type c)
      && filter_holds f "status" (Some (status c))
  end.

(** [Contract.created_at.desc()] *)
Definition newer_first (x y : Contract) : Prop := created_at y ≤ created_at x.

#[global] Instance newer_first_dec (x y : Contract) : Decision (newer_first x y).
Proof. unfold newer_first. apply _. Defined.

(** [list_contracts]: the rows that pass the filters, newest first (rows
    of equal [created_at] in an order of the store's choosing). *)
Definition list_contracts (db : Db) (filters : option (list (string * string)))
    : list Contract :=
  merge_sort newer_first
    (filter (fun c => matches_filters filters c = true) (map_to_list (rows db)).*2).

(** A value assigned to a text column that is not text: it differs
    from the loaded one, so the row is written whatever the store keeps
    of the value. *)
Definition assigns_other (v : option json) : bool :=
  truthy_opt v && match v with Some (JString _) => false | _ => true end.

(** [update_contract_status].  The hash and the address arrive as the
    caller read them from the request: the tests [if transaction_hash:]
    and [if contract_address:] are on the values themselves, and a value
    that is assigned is bound to its column when the commit writes the
    row.  [commit_ok] tells whether the store accepts the write; a
    value it cannot bind, like a refused write, rolls the session back
    and the answer is [False]. *)
Definition update_contract_status (now : Z) (commit_ok : bool) (db : Db)
    (contract_id : Z) (status : string)
    (transaction_hash contract_address : option json) : bool * Db :=
  match rows db !! contract_id with
  | None => (false, db)
  | Some contract =>
      let attempt : pyresult Contract :=
        let c1 := set_status contract status in
        c2 ← (if truthy_opt transaction_hash
              then h ← text_column transaction_hash; Returns (set_transaction_hash c1 h)
              else Returns c1);
        c3 ← (if truthy_opt contract_address
              then a ← text_column contract_address; Returns (set_contract_address c2 a)
              else Returns c2);
        if commit_ok then Returns c3 else Raises (OtherError "SQLAlchemyError") in
      match attempt with
      | Returns c3 =>
          let row :=
            if assigns_other transaction_hash || assigns_other contract_address
            then set_updated_at c3 now
            else flush now contract c3 in
          (true, mkDb (<[contract_id := row]> (rows db)) (next_id db))
      | Raises _ => (false, db)
      end
  end.

(** [metadata.get('contract_name', 'GeneratedContract')]: only a dict
    has [get]. *)
Definition get_contract_name (metadata : json) : pyresult json :=
  match metadata with
  | JObject d => Returns (default (JString "GeneratedContract") (dict_get "contract_name" d))
  | _ => Raises AttributeError
  end.

(** The body of the [try] block of [get_deployment_data]. *)
Definition deployment_body (db : Db) (contract_id : Z) : pyresult (option DeploymentData) :=
  match get_contract db contract_id with
  | None => Returns None
  | Some contract =>
      metadata ←
        (if truthy_text (contract_metadata contract)
         then json_loads (default "" (contract_metadata contract))
         else Returns (JObject []));
      let constructor_params :=
        (if truthy_text (payee_address contract)
         then [default "" (payee_address contract)] else [])
        ++ (if truthy_text (payer_address contract)
            then [default "" (payer_address contract)] else []) in
      contract_name ← get_contract_name metadata;
      Returns (Some (mkDeploymentData (id contract) (solidity_code contract)
                       (deploy_script contract) constructor_params metadata
                       2000000 contract_name))
  end.

(** [get_deployment_data]: every exception of the body becomes
    [None]. *)
Definition get_deployment_data (db : Db) (contract_id : Z) : option DeploymentData :=
  match deployment_body db contract_id with
  | Returns r => r
  | Raises _ => None
  end.

End Service.

End ContractService.

(** ** The HTTP boundary *)

(** A request body as Flask hands it over: not JSON at all, announced as
    JSON but unreadable, or a decoded JSON value. *)
Inductive request : Type :=
| NotJson
| Malformed
| JsonBody (payload : json).

Record response : Type := mkResponse {
  status_code : Z;
  body : dict
}.

Definition error_response (code : Z) (msg : string) : response :=
  mkResponse code [("error", JString msg)].

(** [payload.get(k)]: only a dict has [get]. *)
Definition payload_get (k : string) (payload : json) : pyresult (option json) :=
  match payload with
  | JObject d => Returns (dict_get k d)
  | _ => Raises AttributeError
  end.

(** [request.get_json()] behind the [is_json] test; [None] when the test
    fails. *)
Definition get_json (req : request) : option (pyresult json) :=
  match req with
  | NotJson => None
  | Malformed => Some (Raises (OtherError "BadRequest"))
  | JsonBody payload => Some (Returns payload)
  end.

(** ** routes/contracts.py *)

Module Contracts.

Definition valid_statuses : list string := ["draft"; "deployed"; "failed"].

(** [status not in valid_statuses] *)
Definition status_in_valid (status : json) : option string :=
  match status with
  | JString s => if str_in s valid_statuses then Some s else None
  | _ => None
  end.

Section Routes.
Variable bind_other : json -> pyresult (option string).

(** [PUT /contracts/<id>/status] *)
Definition update_contract_status (now : Z) (commit_ok : bool) (db : Db)
    (contract_id : Z) (req : request) : response * Db :=
  match get_json req with
  | None => (error_response 400 "Request must be JSON", db)
  | Some got =>
      let attempt : pyresult (response * Db) :=
        payload ← got;
        status ← payload_get "status" payload;
        if negb (truthy_opt status) then
          Returns (error_response 400 "Status is required", db)
        else
          match status ≫= status_in_valid with
          | None =>
              Returns (error_response 400
                         ("Invalid status. Valid options: " +:+ join ", " valid_statuses),
                       db)
          | Some new_status =>
              transaction_hash ← payload_get "transaction_hash" payload;
              contract_address ← payload_get "contract_address" payload;
              let '(success, db') :=
                ContractService.update_contract_status bind_other now commit_ok db
                  contract_id new_status transaction_hash contract_address in
              if negb success then
                Returns (error_response 404 "Contract not found or update failed", db')
              else
                Returns (mkResponse 200
                           [("success", JBool true);
                            ("message", JString "Contract status updated successfully")],
                         db')
          end in
      match attempt with
      | Returns r => r
      | Raises _ => (error_response 500 "Internal server error", db)
      end
  end.

End Routes.

(** The decoded body as the dict the service expects: its first [get]
    fails on anything else. *)
Definition as_dict (payload : json) : pyresult dict :=
  match payload with
  | JObject d => Returns d
  | _ => Raises AttributeError
  end.

(** [except ValueError]: [JSONDecodeError] is a [ValueError]. *)
Definition is_value_error (e : py_exn) : bool :=
  match e with
  | ValueError _ | JSONDecodeError => true
  | _ => false
  end.

(** The validation result as [jsonify] renders it. *)
Definition validation_json (v : ValidationResult) : json :=
  JObject [ ("valid", JBool (valid v));
            ("errors", JArray (JString <$> errors v));
            ("warnings", JArray (JString <$> warnings v)) ].

Section MoreRoutes.
Variable json_loads : string -> pyresult json.
Variable json_dumps : json -> string.
Variable bind_other : json -> pyresult (option string).
Variable isoformat : Z -> string.
(** [str(e)] for an exception whose text a library wrote. *)
Variable library_text : py_exn -> string.
Variable rules : RuleSet.

(** [str(e)] *)
Definition str_of (e : py_exn) : string :=
  match e with
  | ValueError msg => msg
  | _ => library_text e
  end.

(** [POST /generate]: [reply] is the answer of the remote model. *)
Definition generate_contract (reply : pyresult string) (now : Z * Z) (commit_ok : bool)
    (db : Db) (req : request) : response * Db :=
  match get_json req with
  | None => (error_response 400 "Request must be JSON", db)
  | Some (Raises _) => (error_response 500 "Internal server error", db)
  | Some (Returns payload) =>
      if negb (truthy payload) then (error_response 400 "Empty request body", db)
      else
        match as_dict payload with
        | Raises _ => (error_response 500 "Internal server error", db)
        | Returns d =>
            let '(result, db') :=
              ContractService.generate_contract json_loads json_dumps bind_other
                rules reply now commit_ok db d in
            let answer :=
              contract ← result;
              contract_dict ← Models.to_dict json_loads isoformat contract;
              Returns (mkResponse 201
                         [("success", JBool true);
                          ("contract", JObject contract_dict);
                          ("message", JString "Contract generated successfully")]) in
            match answer with
            | Returns r => (r, db')
            | Raises e =>
                if is_value_error e then (error_response 400 (str_of e), db')
                else (error_response 500 "Internal server error", db')
            end
        end
  end.

(** [GET /contracts]: [args] is the query string; [args.get] gives the
    first value of a key. *)
Definition list_contracts (db : Db) (args : list (string * string)) : response :=
  let keep (k : string) : list (string * string) :=
    match table_get k args with
    | Some v => if is_empty v then [] else [(k, v)]
    | None => []
    end in
  let filters := keep "jurisdiction" ++ keep "contract_type" ++ keep "status" in
  let contracts := ContractService.list_contracts db (Some filters) in
  let contracts_data := Models.to_summary_dict isoformat <$> contracts in
  mkResponse 200
    [("success", JBool true);
     ("contracts", JArray (JObject <$> contracts_data));
     ("count", JInt (Z.of_nat (length contracts_data)))].

(** [GET /contracts/<id>] *)
Definition get_contract (db : Db) (contract_id : Z) : response :=
  match ContractService.get_contract db contract_id with
  | None => error_response 404 "Contract not found"
  | Some contract =>
      match Models.to_dict json_loads isoformat contract with
      | Returns contract_dict =>
          mkResponse 200 [("success", JBool true); ("contract", JObject contract_dict)]
      | Raises _ => error_response 500 "Internal server error"
      end
  end.

(** [POST /validate] *)
Definition validate_contract_request (req : request) : response :=
  match get_json req with
  | None => error_response 400 "Request must be JSON"
  | Some (Raises _) => error_response 500 "Internal server error"
  | Some (Returns payload) =>
      if negb (truthy payload) then error_response 400 "Empty request body"
      else
        match d ← as_dict payload; ContractService.validate_request rules d with
        | Returns validation =>
            mkResponse 200 [("success", JBool true); ("validation", validation_json validation)]
        | Raises _ => error_response 500 "Internal server error"
        end
  end.

End MoreRoutes.

End Contracts.

(** ** routes/deploy.py *)

Module Deploy.

Definition gas_estimates : list (string * list (string * Z)) :=
  [ ("escrow",
      [("base", 1500000); ("india", 1600000); ("eu", 1700000); ("us", 1650000)]);
    ("insurance",
      [("base", 2000000); ("india", 2100000); ("eu", 2200000); ("us", 2150000)]);
    ("settlement",
      [("base", 1800000); ("india", 1900000); ("eu", 2000000); ("us", 1950000)]) ].

(** Lines 165-166: the two look-ups with their defaults. *)
Definition resolve_gas (contract_type jurisdiction : string) : Z :=
  let base_gas :=
    default 1500000 (table_get "base" (default [] (table_get contract_type gas_estimates))) in
  let jurisdiction_gas :=
    default base_gas (table_get jurisdiction (default [] (table_get contract_type gas_estimates))) in
  jurisdiction_gas.

(** [payload.get(k, '').lower()] on the decoded body. *)
Definition payload_lower (k : string) (payload : json) : pyresult string :=
  match payload with
  | JObject d => ContractService.get_lower k d
  | _ => Raises AttributeError
  end.

(** [POST /deploy/estimate-gas] *)
Definition estimate_gas (req : request) : response :=
  match get_json req with
  | None => error_response 400 "Request must be JSON"
  | Some got =>
      let attempt : pyresult response :=
        payload ← got;
        contract_type ← payload_lower "contract_type" payload;
        jurisdiction ← payload_lower "jurisdiction" payload;
        Returns (mkResponse 200
                   [("success", JBool true);
                    ("estimated_gas", JInt (resolve_gas contract_type jurisdiction));
                    ("contract_type", JString contract_type);
                    ("jurisdiction", JString jurisdiction);
                    ("note", JString "Gas estimates are approximate and may vary based on network conditions")]) in
      match attempt with
      | Returns r => r
      | Raises _ => error_response 500 "Internal server error"
      end
  end.

Section Routes.
Variable bind_other : json -> pyresult (option string).

(** [POST /deploy/<id>/confirm] *)
Definition confirm_deployment (now : Z) (commit_ok : bool) (db : Db)
    (contract_id : Z) (req : request) : response * Db :=
  match get_json req with
  | None => (error_response 400 "Request must be JSON", db)
  | Some got =>
      let attempt : pyresult (response * Db) :=
        payload ← got;
        transaction_hash ← payload_get "transaction_hash" payload;
        contract_address ← payload_get "contract_address" payload;
        if negb (truthy_opt transaction_hash) then
          Returns (error_response 400 "Transaction hash is required", db)
        else
          let '(success, db') :=
            ContractService.update_contract_status bind_other now commit_ok db
              contract_id "deployed" transaction_hash contract_address in
          if negb success then
            Returns (error_response 404 "Contract not found or update failed", db')
          else
            Returns (mkResponse 200
                       [("success", JBool true);
                        ("message", JString "Deployment confirmed successfully");
                        ("contract_id", JInt contract_id);
                        ("transaction_hash", default JNull transaction_hash);
                        ("contract_address", default JNull contract_address)],
                     db')
      in
      match attempt with
      | Returns r => r
      | Raises _ => (error_response 500 "Internal server error", db)
      end
  end.

End Routes.

Definition placeholder_bytecode : string :=
  "0x608060405234801561001057600080fd5b50600080fdfea2646970667358221220".

Section Preparation.
Variable json_loads : string -> pyresult json.

(** [POST /deploy/<id>] *)
Definition prepare_deployment (db : Db) (contract_id : Z) : response :=
  match ContractService.get_deployment_data json_loads db contract_id with
  | None => error_response 404 "Contract not found or invalid"
  | Some deployment_data =>
      mkResponse 200
        [("success", JBool true);
         ("deployment_data",
          JObject
            [("contract_id", JInt (dd_contract_id deployment_data));
             ("contract_name", dd_contract_name deployment_data);
             ("solidity_code", json_of_text (dd_solidity_code deployment_data));
             ("constructor_params",
              JArray (JString <$> dd_constructor_params deployment_data));
             ("estimated_gas", JInt (dd_estimated_gas deployment_data));
             ("metadata", dd_metadata deployment_data)]);
         ("instructions",
          JObject
            [("step1", JString "Compile the Solidity code using your preferred method");
             ("step2", JString "Deploy using MetaMask with the provided constructor parameters");
             ("step3", JString "Call /deploy/{contract_id}/confirm with transaction hash after deployment")])]
  end.

(** [GET /deploy/<id>/bytecode] *)
Definition get_contract_bytecode (db : Db) (contract_id : Z) : response :=
  match ContractService.get_deployment_data json_loads db contract_id with
  | None => error_response 404 "Contract not found"
  | Some deployment_data =>
      mkResponse 200
        [("success", JBool true);
         ("contract_id", JInt contract_id);
         ("bytecode", JString placeholder_bytecode);
         ("abi", JArray []);
         ("constructor_params",
          JArray (JString <$> dd_constructor_params deployment_data));
         ("note", JString "This is placeholder bytecode. In production, compile the Solidity code first.")]
  end.

End Preparation.

End Deploy.

(** ** The lifecycle of the stored records

    The operations that write to the table, run in sequence from the
    empty table: a generation, a status update through
    [PUT /contracts/<id>/status], and a confirmation through
    [POST /deploy/<id>/confirm]. *)

Module Lifecycle.

Inductive operation : Type :=
| Generate (payload : dict) (response : pyresult string) (now : Z * Z) (commit_ok : bool)
| SetStatus (contract_id : Z) (req : request) (now : Z) (commit_ok : bool)
| ConfirmDeployment (contract_id : Z) (req : request) (now : Z) (commit_ok : bool).

(** The request is a status update that names ['draft']. *)
Definition names_draft (op : operation) : bool :=
  match op with
  | SetStatus _ (JsonBody (JObject d)) _ _ =>
      match dict_get "status" d with
      | Some v => is_str "draft" v
      | None => false
      end
  | _ => false
  end.

(** The record holds a transaction hash or a deployed address. *)
Definition carries_deployment (c : Contract) : bool :=
  truthy_text (transaction_hash c) || truthy_text (contract_address c).

Section Run.
Variable json_loads : string -> pyresult json.
Variable json_dumps : json -> string.
Variable bind_other : json -> pyresult (option string).
Variable rules : RuleSet.

Definition step (db : Db) (op : operation) : Db :=
  match op with
  | Generate payload response now commit_ok =>
      (ContractService.generate_contract json_loads json_dumps bind_other
         rules response now commit_ok db payload).2
  | SetStatus contract_id req now commit_ok =>
      (Contracts.update_contract_status bind_other now commit_ok db contract_id req).2
  | ConfirmDeployment contract_id req now commit_ok =>
      (Deploy.confirm_deployment bind_other now commit_ok db contract_id req).2
  end.

Definition run (ops : list operation) (db : Db) : Db := fold_left step ops db.

End Run.

End Lifecycle.

(** [text] on lines of its own inside a fenced block opened with the JSON
    tag. *)
Definition json_block (text : string) : string :=
  "```json" +:+ nl +:+ text +:+ nl +:+ "```".

(** ** Concrete inputs used by the examples *)

Module Samples.

(** A store that refuses what is neither text nor null. *)
Definition refuse_other (_ : json) : pyresult (option string) :=
  Raises (OtherError "InterfaceError").

(** A serializer for the flat string-valued objects of the examples. *)
Definition dumps_flat (v : json) : string :=
  match v with
  | JObject d =>
      "{" +:+ join ", "
                (map (fun kv =>
                        q +:+ kv.1 +:+ q +:+ ": "
                        +:+ match kv.2 with JString s => q +:+ s +:+ q | _ => "null" end)
                     d)
      +:+ "}"
  | _ => "null"
  end.

Definition rules : RuleSet :=
  mkRuleSet
    [ ("india", mkJurisdictionRule "Indian Contract Act, 1872" [] [] []);
      ("eu", mkJurisdictionRule "EU contract law" [] [] ["description"]) ]
    [ ("escrow", mkContractTypeRule ["deposit"; "release"] []) ].

Definition good_address : string := "0x742d35Cc6634C0532925a3b8D4B9b4e4e4e4e4e4".
Definition bad_address : string := "0x8ba1f109551bD432803012645Hac136c22C177e9".

Definition payload : dict :=
  [ ("jurisdiction", JString "India");
    ("contract_type", JString "escrow");
    ("requirements", JString "test");
    ("payee_address", JString bad_address) ].

(** An answer of the model that is not JSON. *)
Definition prose : string := "Sorry, I cannot help with that.".

(** A complete artifact, and one without its metadata. *)
Definition artifact_text : string :=
  "{" +:+ q +:+ "solidity_code" +:+ q +:+ ": " +:+ q +:+ "contract C {}" +:+ q +:+ ", "
      +:+ q +:+ "deploy_script" +:+ q +:+ ": " +:+ q +:+ "main()" +:+ q +:+ ", "
      +:+ q +:+ "tests" +:+ q +:+ ": " +:+ q +:+ "it()" +:+ q +:+ ", "
      +:+ q +:+ "metadata" +:+ q +:+ ": {" +:+ q +:+ "contract_name" +:+ q +:+ ": "
      +:+ q +:+ "C" +:+ q +:+ "}}".

Definition no_metadata_text : string :=
  "{" +:+ q +:+ "solidity_code" +:+ q +:+ ": " +:+ q +:+ "contract C {}" +:+ q +:+ ", "
      +:+ q +:+ "deploy_script" +:+ q +:+ ": " +:+ q +:+ "main()" +:+ q +:+ ", "
      +:+ q +:+ "tests" +:+ q +:+ ": " +:+ q +:+ "it()" +:+ q +:+ "}".

(** [{"```":"```"}]: a JSON object with a fence inside its strings. *)
Definition fenced_strings : string :=
  "{" +:+ q +:+ "```" +:+ q +:+ ":" +:+ q +:+ "```" +:+ q +:+ "}".

Definition status_request (status : string) (transaction_hash : option string) : request :=
  JsonBody (JObject
    (("status", JString status)
     :: match transaction_hash with
        | Some h => [("transaction_hash", JString h)]
        | None => []
        end)).

Definition confirm_request (transaction_hash : string) : request :=
  JsonBody (JObject [("transaction_hash", JString transaction_hash)]).

(** [n] opening brackets, and an answer of the model that nests arrays
    deeper than the recursion limit. *)
Fixpoint brackets (n : nat) : string :=
  match n with
  | O => ""
  | S m => String "[" (brackets m)
  end.

Definition deeply_nested : string := brackets 1100.

(** A request whose jurisdiction is the JSON [null]. *)
Definition null_jurisdiction_payload : dict :=
  [ ("jurisdiction", JNull);
    ("contract_type", JString "escrow");
    ("requirements", JString "test") ].

(** A store that keeps the float NaN as NULL, as SQLite does, and
    refuses what else is neither text nor null. *)
Definition nan_as_null (v : json) : pyresult (option string) :=
  match v with
  | JFloat FNaN => Returns None
  | _ => Raises (OtherError "InterfaceError")
  end.

(** A request for a jurisdiction that the rules do not know. *)
Definition unknown_jurisdiction_payload : dict :=
  [ ("jurisdiction", JString "Mars");
    ("contract_type", JString "escrow");
    ("requirements", JString "test") ].

(** Stand-ins for [datetime.isoformat] and for the text of library
    exceptions. *)
Definition iso (t : Z) : string := "T".
Definition library_text (e : py_exn) : string := "error".

Definition run (ops : list Lifecycle.operation) : Db :=
  Lifecycle.run Json.loads dumps_flat refuse_other rules ops empty_db.

Definition generate : Lifecycle.operation :=
  Lifecycle.Generate payload (Returns (json_block artifact_text)) (100, 101) true.

End Samples.

(** ** Notions the statements use *)

(** A decoded answer that is an artifact: a dict with the four fields,
    whose metadata is a dict. *)
Definition complete_artifact (v : json) : bool :=
  match v with
  | JObject d =>
      dict_has "solidity_code" d && dict_has "deploy_script" d
      && dict_has "tests" d
      && match dict_get "metadata" d with
         | Some (JObject _) => true
         | _ => false
         end
  | _ => false
  end.

(** The decoder raised [RecursionError]. *)
Definition raises_recursion_error (r : pyresult json) : bool :=
  match r with
  | Raises (OtherError name) => String.eqb name "RecursionError"
  | _ => false
  end.

(** A hexadecimal digit, by its character code. *)
Definition is_hex_digit (c : ascii) : bool :=
  let n := nat_of_ascii c in
  ((48 <=? n) && (n <=? 57) || (97 <=? n) && (n <=? 102) || (65 <=? n) && (n <=? 70))%nat.

Fixpoint all_chars (p : ascii -> bool) (s : string) : bool :=
  match s with
  | "" => true
  | String c r => p c && all_chars p r
  end.

(** The fields of a request that [validate_request] dereferences hold
    what the endpoint documents: the jurisdiction and the contract type
    are absent or strings, an address is absent, false or a string. *)
Definition text_or_absent (o : option json) : bool :=
  match o with
  | None | Some (JString _) => true
  | Some _ => false
  end.

Definition address_typed (o : option json) : bool :=
  match o with
  | None | Some (JString _) => true
  | Some v => negb (truthy v)
  end.

Definition well_typed_request (payload : dict) : bool :=
  text_or_absent (dict_get "jurisdiction" payload)
  && text_or_absent (dict_get "contract_type" payload)
  && address_typed (dict_get "payee_address" payload)
  && address_typed (dict_get "payer_address" payload).

(** A field is missing or empty. *)
Definition missing_or_empty (o : option json) : Prop :=
  o = None ∨ o = Some (JString "").

(** The columns a status update leaves alone. *)
Definition same_content (c c' : Contract) : Prop :=
  id c' = id c
  ∧ jurisdiction c' = jurisdiction c
  ∧ contract_type c' = contract_type c
  ∧ requirements c' = requirements c
  ∧ description c' = description c
  ∧ payee_address c' = payee_address c
  ∧ payer_address c' = payer_address c
  ∧ solidity_code c' = solidity_code c
  ∧ deploy_script c' = deploy_script c
  ∧ tests c' = tests c
  ∧ contract_metadata c' = contract_metadata c
  ∧ created_at c' = created_at c.

(** The invariant of the specification: a hash or an address only away
    from ['draft']. *)
Definition deployment_only_after_draft (db : Db) : Prop :=
  ∀ (k : Z) (c : Contract),
    rows db !! k = Some c →
    Lifecycle.carries_deployment c = true → status c ≠ "draft".

(** The messages of [validate_request]. *)
Definition missing_error (field : string) : string :=
  "Missing required field: " +:+ field.

Definition address_warning (addr_field : string) : string :=
  "Invalid Ethereum address format for " +:+ addr_field.

Definition address_fields : list string := ["payee_address"; "payer_address"].

(** The error list of [validate_request], for the lower-cased
    jurisdiction [j] and contract type [ct] of the request. *)
Definition request_errors (rules : RuleSet) (payload : dict) (j ct : string) : list string :=
  ((ContractService.missing_errors payload
    ++ (if negb (is_empty j) && negb (str_in j (keys (jurisdictions rules)))
        then ["Invalid jurisdiction. Valid options: "
              +:+ join ", " (keys (jurisdictions rules))]
        else []))
   ++ (if negb (is_empty ct) && negb (str_in ct (keys (contract_types rules)))
       then ["Invalid contract type. Valid options: "
             +:+ join ", " (keys (contract_types rules))]
       else []))
  ++ ContractService.jurisdiction_errors rules j payload.

(** How often the message [x] occurs in a list of messages. *)
Fixpoint count_of (x : string) (l : list string) : nat :=
  match l with
  | [] => 0
  | y :: r => ((if String.eqb x y then 1 else 0) + count_of x r)%nat
  end.

(** A stored record whose serialized metadata is not JSON. *)
Definition broken_metadata_record : Contract :=
  mkContract 1 (Some "india") (Some "escrow") (Some "test") None None None
    (Some "contract C {}") (Some "main()") (Some "it()") (Some "{")
    "draft" None None 100 100.

Definition broken_metadata_db : Db := mkDb {[ 1 := broken_metadata_record ]} 2.

Definition known_contract_types : list string := ["escrow"; "insurance"; "settlement"].
Definition known_jurisdictions : list string := ["india"; "eu"; "us"].

(** ** Notions of the further properties *)

(** The identities in use are positive and lie below the counter, and
    a row is stored under its own identity. *)
Definition db_well_formed (db : Db) : Prop :=
  1 ≤ next_id db
  ∧ ∀ (k : Z) (c : Contract), rows db !! k = Some c → id c = k ∧ 1 ≤ k < next_id db.

(** An address as a constructor parameter: nothing when unset. *)
Definition supplied (o : option string) : list string :=
  if truthy_text o then [default "" o] else [].

(** The text a request holds under a key, if it holds text there. *)
Definition text_of (o : option json) : option string :=
  match o with
  | Some (JString t) => Some t
  | _ => None
  end.

(** The keys of a request that generation copies into text columns. *)
Definition copied_fields : list string :=
  ["jurisdiction"; "contract_type"; "requirements"; "description";
   "payee_address"; "payer_address"].

Definition required_request_fields : list string :=
  ["jurisdiction"; "contract_type"; "requirements"].

(** The store never keeps a value that is true as NULL or as the empty
    text. *)
Definition binds_truthfully (bind_other : json -> pyresult (option string)) : Prop :=
  ∀ v o, truthy v = true → bind_other v = Returns o → truthy_text o = true.

(** A record as it may become: its generated content is kept, and, when
    [P] holds of the store, so are a hash and an address once stored. *)
Definition evolves (P : Prop) (c c' : Contract) : Prop :=
  same_content c c'
  ∧ (P → truthy_text (transaction_hash c) = true → truthy_text (transaction_hash c') = true)
  ∧ (P → truthy_text (contract_address c) = true → truthy_text (contract_address c') = true).

(** A text with its last character removed. *)
Fixpoint without_last (s : string) : string :=
  match s with
  | "" => ""
  | String c r => match r with "" => "" | _ => String c (without_last r) end
  end.

(** [text] on lines of its own inside a fenced block without language
    tag. *)
Definition plain_block (text : string) : string :=
  "```" +:+ nl +:+ text +:+ nl +:+ "```".

(** A JSON-tagged block around [text] with prose before and after. *)
Definition in_prose (pre text post : string) : string :=
  pre +:+ "```json" +:+ nl +:+ text +:+ nl +:+ "```" +:+ post.

(** A JSON-tagged block around [text] that is never closed. *)
Definition unclosed_block (text : string) : string :=
  "```json" +:+ nl +:+ text.

(** * Properties *)

#[local] Arguments String.append !_ _ /.
#[local] Arguments str_in : simpl never.

(** ** Text *)

Lemma str_in_elem_of (x : string) (l : list string) : str_in x l = true ↔ x ∈ l.
Proof.
  unfold str_in. induction l as [|y l IH]; simpl.
  - split; [discriminate | intros H; inversion H].
  - rewrite orb_true_iff, IH, elem_of_cons, String.eqb_eq. tauto.
Qed.

Lemma str_in_false (x : string) (l : list string) : str_in x l = false ↔ x ∉ l.
Proof.
  rewrite <- str_in_elem_of. destruct (str_in x l); split; try done.
Qed.

Lemma eqb_false_of_ne (a b : string) : a ≠ b → String.eqb a b = false.
Proof. apply String.eqb_neq. Qed.

(** ** Gas estimation *)

Lemma table_get_unknown_type (ct : string) :
  ct ∉ known_contract_types → table_get ct Deploy.gas_estimates = None.
Proof.
  unfold known_contract_types. rewrite !not_elem_of_cons.
  intros (H1 & H2 & H3 & _). simpl.
  by rewrite !eqb_false_of_ne.
Qed.

(** C5 (counterexample).  For the known type [insurance] and a
    jurisdiction the table does not list, the estimate is the base of
    [insurance], 2,000,000, and not the 1,500,000 of [escrow]. *)
Lemma estimate_gas_unknown_jurisdiction_not_escrow_base :
  dict_get "estimated_gas"
    (body (Deploy.estimate_gas
             (JsonBody (JObject [("contract_type", JString "insurance");
                                 ("jurisdiction", JString "mars")]))))
  = Some (JInt 2000000)
  ∧ Deploy.resolve_gas "insurance" "mars" ≠ 1500000.
Proof. split; [reflexivity | discriminate]. Qed.

(** C5 (amended).  Gas estimation resolves the two-level table:
    [insurance] in [eu] gives exactly 2,200,000; an unknown contract
    type gives 1,500,000 whatever the jurisdiction; a known contract type
    with a jurisdiction other than india, eu and us gives the base of
    that type (1,500,000 for escrow, 2,000,000 for insurance, 1,800,000
    for settlement); and the endpoint answers 200 with the value resolved
    for the lower-cased fields. *)
Theorem estimate_gas_resolves_table (ct j : string) :
  Deploy.resolve_gas "insurance" "eu" = 2200000
  ∧ (ct ∉ known_contract_types → Deploy.resolve_gas ct j = 1500000)
  ∧ (j ∉ known_jurisdictions →
     Deploy.resolve_gas "escrow" j = 1500000
     ∧ Deploy.resolve_gas "insurance" j = 2000000
     ∧ Deploy.resolve_gas "settlement" j = 1800000)
  ∧ (∀ d : dict,
       dict_get "contract_type" d = Some (JString ct) →
       dict_get "jurisdiction" d = Some (JString j) →
       status_code (Deploy.estimate_gas (JsonBody (JObject d))) = 200
       ∧ dict_get "estimated_gas" (body (Deploy.estimate_gas (JsonBody (JObject d))))
         = Some (JInt (Deploy.resolve_gas (lower ct) (lower j)))).
Proof.
  split; [reflexivity|]. split; [|split].
  - intros Hct. unfold Deploy.resolve_gas.
    by rewrite (table_get_unknown_type ct Hct).
  - unfold known_jurisdictions. rewrite !not_elem_of_cons.
    intros (H1 & H2 & H3 & _).
    unfold Deploy.resolve_gas; simpl.
    destruct (String.eqb j "base") eqn:Hb; [done|].
    by rewrite !eqb_false_of_ne.
  - intros d Hc Hj.
    unfold Deploy.estimate_gas, Deploy.payload_lower, ContractService.get_lower; simpl.
    by rewrite Hc, Hj.
Qed.

(** A contract type and a jurisdiction at which the hypotheses of
    [estimate_gas_resolves_table] hold. *)
Lemma estimate_gas_resolves_table_witness :
  ("loan" ∉ known_contract_types) ∧ Deploy.resolve_gas "loan" "eu" = 1500000.
Proof.
  assert (H : "loan" ∉ known_contract_types).
  { unfold known_contract_types.
    repeat (apply not_elem_of_cons; split; [discriminate|]). apply not_elem_of_nil. }
  split; [exact H|].
  exact (proj1 (proj2 (estimate_gas_resolves_table "loan" "eu")) H).
Defined.

(** ** The response parser *)

Ltac refused := eexists; (split; [|reflexivity]); discriminate.

Section ParserFacts.
Variable json_loads : string -> pyresult json.

Lemma check_required_complete (d : dict) :
  dict_has "solidity_code" d = true → dict_has "deploy_script" d = true →
  dict_has "tests" d = true → dict_has "metadata" d = true →
  GeminiClient.check_required GeminiClient.required_fields (JObject d) = Returns ().
Proof. intros H1 H2 H3 H4. simpl. by rewrite H1, H2, H3, H4. Qed.

(** The checks after decoding accept exactly the complete artifacts. *)
Lemma checks_accept (v : json) :
  complete_artifact v = true →
  (_ ← GeminiClient.check_required GeminiClient.required_fields v;
   metadata ← getitem v "metadata";
   if negb (is_dict metadata) then Raises (ValueError "Metadata must be a dictionary")
   else Returns v) = Returns v.
Proof.
  destruct v as [| | | | |l|d]; try discriminate. simpl.
  unfold dict_has.
  destruct (dict_get "solidity_code" d); [|discriminate].
  destruct (dict_get "deploy_script" d); [|discriminate].
  destruct (dict_get "tests" d); [|discriminate].
  destruct (dict_get "metadata" d) as [[]|]; simpl; try discriminate. done.
Qed.

(** They refuse everything else with an exception that is not a decode
    error. *)
Lemma checks_refuse (v : json) :
  complete_artifact v = false →
  ∃ e, e ≠ JSONDecodeError ∧
    (_ ← GeminiClient.check_required GeminiClient.required_fields v;
     metadata ← getitem v "metadata";
     if negb (is_dict metadata) then Raises (ValueError "Metadata must be a dictionary")
     else Returns v) = Raises e.
Proof.
  destruct v as [| | | | s|l|d]; simpl; intros Hc.
  1-4: by exists TypeError.
  - destruct (contains "solidity_code" s); simpl; [|refused].
    destruct (contains "deploy_script" s); simpl; [|refused].
    destruct (contains "tests" s); simpl; [|refused].
    destruct (contains "metadata" s); simpl; refused.
  - destruct (existsb (is_str "solidity_code") l); simpl; [|refused].
    destruct (existsb (is_str "deploy_script") l); simpl; [|refused].
    destruct (existsb (is_str "tests") l); simpl; [|refused].
    destruct (existsb (is_str "metadata") l); simpl; refused.
  - unfold dict_has in *.
    destruct (dict_get "solidity_code" d); simpl in *; [|refused].
    destruct (dict_get "deploy_script" d); simpl in *; [|refused].
    destruct (dict_get "tests" d); simpl in *; [|refused].
    destruct (dict_get "metadata" d) as [[]|]; simpl in *;
      try discriminate; refused.
Qed.

(** C2 (amended).  When the decoder raises its decode error on the
    candidate text left by fence stripping, [_parse_response] does not
    raise: it returns the fixed fallback artifact, which is complete and
    whose metadata names the contract "BasicContract". *)
Theorem parse_response_falls_back (response_text : string) :
  json_loads (GeminiClient.json_text_of response_text) = Raises JSONDecodeError →
  GeminiClient._parse_response json_loads response_text
    = Returns GeminiClient._create_fallback_response
  ∧ complete_artifact GeminiClient._create_fallback_response = true
  ∧ (metadata ← getitem GeminiClient._create_fallback_response "metadata";
     getitem metadata "contract_name") = Returns (JString "BasicContract").
Proof.
  intros H. split; [|split; reflexivity].
  unfold GeminiClient._parse_response, GeminiClient.parse_body.
  by rewrite H.
Qed.

(** C3.  When the candidate text decodes to a value [v], the parser
    returns [v] if it is a complete artifact; if a top-level field is
    lacking or the metadata is not a key/value object it raises the
    wrapped parse error, and so does not return the fallback. *)
Theorem parse_response_fails_hard (response_text : string) (v : json) :
  json_loads (GeminiClient.json_text_of response_text) = Returns v →
  (complete_artifact v = true →
   GeminiClient._parse_response json_loads response_text = Returns v)
  ∧ (complete_artifact v = false →
     (∃ e, GeminiClient._parse_response json_loads response_text
           = Raises (PyException "Failed to parse contract generation response: " e))
     ∧ GeminiClient._parse_response json_loads response_text
       ≠ Returns GeminiClient._create_fallback_response).
Proof.
  intros H.
  unfold GeminiClient._parse_response, GeminiClient.parse_body.
  rewrite H. split; intros Hc.
  - change (json_loads_result ← Returns v; _) with
      (_ ← GeminiClient.check_required GeminiClient.required_fields v;
       metadata ← getitem v "metadata";
       if negb (is_dict metadata) then Raises (ValueError "Metadata must be a dictionary")
       else Returns v).
    by rewrite (checks_accept v Hc).
  - destruct (checks_refuse v Hc) as (e & Hne & He).
    change (json_loads_result ← Returns v; _) with
      (_ ← GeminiClient.check_required GeminiClient.required_fields v;
       metadata ← getitem v "metadata";
       if negb (is_dict metadata) then Raises (ValueError "Metadata must be a dictionary")
       else Returns v).
    rewrite He. simpl.
    destruct e; try (split; [by eexists | discriminate]). done.
Qed.

(** A dict without its metadata field is refused for that field. *)
Lemma parse_response_metadata_missing (response_text : string) (d : dict) :
  json_loads (GeminiClient.json_text_of response_text) = Returns (JObject d) →
  dict_has "solidity_code" d = true → dict_has "deploy_script" d = true →
  dict_has "tests" d = true → dict_has "metadata" d = false →
  GeminiClient._parse_response json_loads response_text
  = Raises (PyException "Failed to parse contract generation response: "
              (ValueError "Missing required field: metadata")).
Proof.
  intros H H1 H2 H3 H4.
  unfold GeminiClient._parse_response, GeminiClient.parse_body.
  rewrite H. simpl. by rewrite H1, H2, H3, H4.
Qed.

End ParserFacts.

(** The texts of the examples that are not JSON are refused by the
    grammar at every recursion budget of the decoder. *)
Lemma sample_texts_never_decode (fuel depth : nat) :
  Json.scan_once fuel depth Samples.prose = Raises JSONDecodeError
  ∧ Json.scan_once fuel (S depth) "{" = Raises JSONDecodeError
  ∧ Json.scan_once fuel (S depth) ("{" +:+ q) = Raises JSONDecodeError.
Proof. destruct fuel as [|[|fuel]]; repeat split; reflexivity. Qed.

(** C2 (counterexample).  An answer of 1100 opening brackets has no
    fence and is not JSON, but what the decoder raises on it is
    [RecursionError], with the whole recursion limit at its disposal or
    with any part of it, and not its decode error: the parser raises
    the wrapped error instead of returning the fallback. *)
Lemma deeply_nested_response_raises :
  GeminiClient.json_text_of Samples.deeply_nested = Samples.deeply_nested
  ∧ Json.loads Samples.deeply_nested = Raises Json.recursion_error
  ∧ forallb (fun depth =>
               raises_recursion_error (Json.loads_within depth Samples.deeply_nested))
      (seq 0 (S Json.recursion_limit)) = true
  ∧ GeminiClient._parse_response Json.loads Samples.deeply_nested
    = Raises (PyException "Failed to parse contract generation response: "
                Json.recursion_error).
Proof. repeat split; by vm_compute. Qed.

(** A prose answer, at which the hypothesis of
    [parse_response_falls_back] holds. *)
Lemma parse_response_falls_back_witness :
  Json.loads (GeminiClient.json_text_of Samples.prose) = Raises JSONDecodeError
  ∧ GeminiClient._parse_response Json.loads Samples.prose
    = Returns GeminiClient._create_fallback_response.
Proof.
  assert (H : Json.loads (GeminiClient.json_text_of Samples.prose) = Raises JSONDecodeError)
    by (vm_compute; reflexivity).
  split; [exact H|].
  exact (proj1 (parse_response_falls_back Json.loads Samples.prose H)).
Defined.

(** An answer without metadata, at which the hypotheses of
    [parse_response_fails_hard] hold. *)
Lemma parse_response_fails_hard_witness :
  (∃ v, Json.loads (GeminiClient.json_text_of Samples.no_metadata_text) = Returns v
        ∧ complete_artifact v = false)
  ∧ GeminiClient._parse_response Json.loads Samples.no_metadata_text
    ≠ Returns GeminiClient._create_fallback_response.
Proof.
  pose (v := JObject [("solidity_code", JString "contract C {}");
                      ("deploy_script", JString "main()");
                      ("tests", JString "it()")]).
  assert (H : Json.loads (GeminiClient.json_text_of Samples.no_metadata_text) = Returns v)
    by (vm_compute; reflexivity).
  assert (Hc : complete_artifact v = false) by reflexivity.
  split; [by exists v|].
  exact (proj2 (proj2 (parse_response_fails_hard Json.loads _ v H) Hc)).
Defined.

(** ** Status updates *)

Lemma flush_fields (now : Z) (old new : Contract) :
  status (flush now old new) = status new
  ∧ transaction_hash (flush now old new) = transaction_hash new
  ∧ contract_address (flush now old new) = contract_address new
  ∧ same_content new (flush now old new).
Proof. unfold flush, same_content. by destruct (decide (old = new)). Qed.

(** The row a successful update writes keeps what was assigned. *)
Lemma written_row_fields (forced : bool) (now : Z) (old new : Contract) :
  let row := if forced then set_updated_at new now else flush now old new in
  status row = status new
  ∧ transaction_hash row = transaction_hash new
  ∧ contract_address row = contract_address new
  ∧ same_content new row.
Proof.
  destruct forced; [|apply flush_fields]. by unfold same_content.
Qed.

(** What a successful [update_contract_status] wrote: the status, what
    the store made of each value that is true, and nothing else. *)
Lemma update_contract_status_written (bind_other : json -> pyresult (option string))
    (now : Z) (commit_ok : bool) (db db' : Db) (contract_id : Z) (new_status : string)
    (hv av : option json) :
  ContractService.update_contract_status bind_other now commit_ok db contract_id
    new_status hv av = (true, db') →
  ∃ c c',
    rows db !! contract_id = Some c
    ∧ db' = mkDb (<[contract_id := c']> (rows db)) (next_id db)
    ∧ status c' = new_status
    ∧ (if truthy_opt hv
       then ContractService.text_column bind_other hv = Returns (transaction_hash c')
       else transaction_hash c' = transaction_hash c)
    ∧ (if truthy_opt av
       then ContractService.text_column bind_other av = Returns (contract_address c')
       else contract_address c' = contract_address c)
    ∧ same_content c c'.
Proof.
  unfold ContractService.update_contract_status.
  destruct (rows db !! contract_id) as [c|] eqn:Hc; [|discriminate].
  cbn zeta.
  destruct (truthy_opt hv) eqn:Th.
  - destruct (ContractService.text_column bind_other hv) as [h|] eqn:Eh;
      cbn [mbind pyresult_bind]; [|discriminate].
    destruct (truthy_opt av) eqn:Ta.
    + destruct (ContractService.text_column bind_other av) as [a|] eqn:Ea;
        cbn [mbind pyresult_bind]; [|discriminate].
      destruct commit_ok; [|discriminate]. intros [= <-].
      eexists c, _. split; [done|]. split; [done|].
      match goal with
      | |- context [if ?f then set_updated_at ?n now else _] =>
          destruct (written_row_fields f now c n) as (-> & -> & -> & Hs)
      end.
      unfold same_content in *. simpl in *. intuition congruence.
    + cbn [mbind pyresult_bind]. destruct commit_ok; [|discriminate]. intros [= <-].
      eexists c, _. split; [done|]. split; [done|].
      match goal with
      | |- context [if ?f then set_updated_at ?n now else _] =>
          destruct (written_row_fields f now c n) as (-> & -> & -> & Hs)
      end.
      unfold same_content in *. simpl in *. intuition congruence.
  - cbn [mbind pyresult_bind]. destruct (truthy_opt av) eqn:Ta.
    + destruct (ContractService.text_column bind_other av) as [a|] eqn:Ea;
        cbn [mbind pyresult_bind]; [|discriminate].
      destruct commit_ok; [|discriminate]. intros [= <-].
      eexists c, _. split; [done|]. split; [done|].
      match goal with
      | |- context [if ?f then set_updated_at ?n now else _] =>
          destruct (written_row_fields f now c n) as (-> & -> & -> & Hs)
      end.
      unfold same_content in *. simpl in *. intuition congruence.
    + cbn [mbind pyresult_bind]. destruct commit_ok; [|discriminate]. intros [= <-].
      eexists c, _. split; [done|]. split; [done|].
      match goal with
      | |- context [if ?f then set_updated_at ?n now else _] =>
          destruct (written_row_fields f now c n) as (-> & -> & -> & Hs)
      end.
      unfold same_content in *. simpl in *. intuition congruence.
Qed.

(** A failed [update_contract_status] wrote nothing. *)
Lemma update_contract_status_failure (bind_other : json -> pyresult (option string))
    (now : Z) (commit_ok : bool) (db db' : Db) (contract_id : Z) (new_status : string)
    (hv av : option json) :
  ContractService.update_contract_status bind_other now commit_ok db contract_id
    new_status hv av = (false, db') → db' = db.
Proof.
  unfold ContractService.update_contract_status.
  destruct (rows db !! contract_id); [|by intros [= <-]].
  cbn zeta. case_match; [discriminate | by intros [= <-]].
Qed.

Lemma truthy_opt_text (h : option string) : truthy_opt (JString <$> h) = truthy_text h.
Proof. by destruct h. Qed.

Lemma text_column_of_text (bind_other : json -> pyresult (option string))
    (h : option string) :
  ContractService.text_column bind_other (JString <$> h) = Returns h.
Proof. by destruct h. Qed.

(** What a successful [update_contract_status] wrote, for a hash and an
    address that are texts or [None]. *)
Lemma update_contract_status_success (bind_other : json -> pyresult (option string))
    (now : Z) (commit_ok : bool) (db db' : Db)
    (contract_id : Z) (new_status : string) (h a : option string) :
  ContractService.update_contract_status bind_other now commit_ok db contract_id
    new_status (JString <$> h) (JString <$> a) = (true, db') →
  ∃ c c',
    rows db !! contract_id = Some c
    ∧ db' = mkDb (<[contract_id := c']> (rows db)) (next_id db)
    ∧ status c' = new_status
    ∧ transaction_hash c' = (if truthy_text h then h else transaction_hash c)
    ∧ contract_address c' = (if truthy_text a then a else contract_address c)
    ∧ same_content c c'.
Proof.
  intros H.
  destruct (update_contract_status_written _ _ _ _ _ _ _ _ _ H)
    as (c & c' & Hc & Hdb & Hs & Hh & Ha & Hsame).
  exists c, c'. rewrite truthy_opt_text, text_column_of_text in Hh, Ha.
  split; [done|]. split; [done|]. split; [done|].
  split; [destruct (truthy_text h); congruence|].
  split; [destruct (truthy_text a); congruence | done].
Qed.



(** C6.  A status update whose status value is none of ['draft'],
    ['deployed'], ['failed'] (absent and empty values included) is
    answered 400 and leaves the table, hence the targeted record, exactly
    as it was. *)
Theorem update_status_rejects_unrecognized
    (bind_other : json -> pyresult (option string)) (now : Z) (commit_ok : bool)
    (db : Db) (contract_id : Z) (d : dict) :
  (∀ s : string, s ∈ Contracts.valid_statuses → dict_get "status" d ≠ Some (JString s)) →
  ∃ msg : string,
    Contracts.update_contract_status bind_other now commit_ok db contract_id
      (JsonBody (JObject d)) = (error_response 400 msg, db).
Proof.
  intros H. unfold Contracts.update_contract_status. simpl.
  destruct (dict_get "status" d) as [v|] eqn:Hv; simpl; [|by eexists].
  destruct (truthy v); simpl; [|by eexists].
  assert (Hs : Contracts.status_in_valid v = None).
  { destruct v as [| | | |s| |]; try reflexivity.
    unfold Contracts.status_in_valid.
    destruct (str_in s Contracts.valid_statuses) eqn:E; [|done].
    apply str_in_elem_of in E. by destruct (H s E). }
  rewrite Hs. by eexists.
Qed.

(** The status ['pending'], at which the hypothesis of
    [update_status_rejects_unrecognized] holds. *)
Lemma update_status_rejects_unrecognized_witness :
  ∃ msg : string,
    Contracts.update_contract_status Samples.refuse_other 200 true
      (Samples.run [Samples.generate]) 1
      (Samples.status_request "pending" (Some "0xabc"))
    = (error_response 400 msg, Samples.run [Samples.generate]).
Proof.
  apply (update_status_rejects_unrecognized Samples.refuse_other 200 true
           (Samples.run [Samples.generate]) 1
           [("status", JString "pending"); ("transaction_hash", JString "0xabc")]).
  intros s Hs [= <-]. revert Hs. unfold Contracts.valid_statuses.
  rewrite !elem_of_cons, elem_of_nil. intros [?|[?|[?|[]]]]; discriminate.
Defined.

(** ** The lifecycle invariant *)

Section LifecycleFacts.
Variable json_loads : string -> pyresult json.
Variable json_dumps : json -> string.
Variable bind_other : json -> pyresult (option string).
Variable rules : RuleSet.

(** Generation stores a draft with neither hash nor address. *)
Lemma new_contract_fresh (db : Db) (now : Z * Z) (payload : dict) (result : json)
    (c : Contract) :
  ContractService.new_contract json_dumps bind_other db now payload result = Returns c →
  status c = "draft" ∧ transaction_hash c = None ∧ contract_address c = None
  ∧ id c = next_id db.
Proof.
  unfold ContractService.new_contract. intros H.
  repeat match type of H with
         | (mbind _ ?m) = Returns _ => destruct m; simpl in H; [|discriminate]
         end.
  by injection H as <-.
Qed.

Lemma invariant_insert (db : Db) (k n : Z) (c : Contract) :
  deployment_only_after_draft db →
  (Lifecycle.carries_deployment c = true → status c ≠ "draft") →
  deployment_only_after_draft (mkDb (<[k := c]> (rows db)) n).
Proof.
  intros Hdb Hc k' c'. simpl. destruct (decide (k' = k)) as [->|Hne].
  - rewrite lookup_insert_eq. by intros [= <-].
  - rewrite lookup_insert_ne by done. apply Hdb.
Qed.

Lemma generate_keeps_invariant (db : Db) (payload : dict) (response : pyresult string)
    (now : Z * Z) (commit_ok : bool) :
  deployment_only_after_draft db →
  deployment_only_after_draft
    (ContractService.generate_contract json_loads json_dumps bind_other rules
       response now commit_ok db payload).2.
Proof.
  intros Hdb. unfold ContractService.generate_contract.
  destruct (ContractService.validate_request rules payload) as [validation|]; [|done].
  destruct (valid validation); simpl; [|done].
  destruct (GeminiClient.generate_contract json_loads response) as [result|]; simpl; [|done].
  destruct (ContractService.new_contract json_dumps bind_other db now payload result)
    as [c|] eqn:Hc; simpl; [|done].
  destruct commit_ok; simpl; [|done].
  apply invariant_insert; [done|].
  destruct (new_contract_fresh _ _ _ _ _ Hc) as (_ & Hh & Ha & _).
  unfold Lifecycle.carries_deployment. by rewrite Hh, Ha.
Qed.

Lemma service_update_keeps_invariant (now : Z) (commit_ok : bool) (db : Db)
    (contract_id : Z) (new_status : string) (hv av : option json) :
  new_status ≠ "draft" →
  deployment_only_after_draft db →
  deployment_only_after_draft
    (ContractService.update_contract_status bind_other now commit_ok db contract_id
       new_status hv av).2.
Proof.
  intros Hs Hdb.
  destruct (ContractService.update_contract_status bind_other now commit_ok db
              contract_id new_status hv av) as [[] db'] eqn:E; simpl.
  - destruct (update_contract_status_written _ _ _ _ _ _ _ _ _ E)
      as (c & c' & _ & -> & Hst & _).
    apply invariant_insert; [done|]. intros _. by rewrite Hst.
  - by rewrite (update_contract_status_failure _ _ _ _ _ _ _ _ _ E).
Qed.

(** The table after [PUT /contracts/<id>/status]: untouched, or written
    by the service with the recognised status the request names and the
    hash and address it holds. *)
Lemma update_route_effect (now : Z) (commit_ok : bool) (db : Db)
    (contract_id : Z) (req : request) :
  (Contracts.update_contract_status bind_other now commit_ok db contract_id req).2 = db
  ∨ ∃ (d : dict) (s : string),
      req = JsonBody (JObject d)
      ∧ dict_get "status" d = Some (JString s)
      ∧ (Contracts.update_contract_status bind_other now commit_ok db contract_id req).2
        = (ContractService.update_contract_status bind_other now commit_ok db
             contract_id s (dict_get "transaction_hash" d)
             (dict_get "contract_address" d)).2.
Proof.
  unfold Contracts.update_contract_status.
  destruct req as [| |payload]; simpl; [by left..|].
  destruct payload as [| | | | | |d]; simpl; [by left..|].
  destruct (dict_get "status" d) as [v|] eqn:Hv; simpl; [|by left].
  destruct (truthy v); simpl; [|by left].
  destruct v as [| | | |s| |]; simpl; [by left..| |by left|by left].
  destruct (str_in s Contracts.valid_statuses); simpl; [|by left].
  right. exists d, s. split; [done|]. split; [done|].
  by destruct (ContractService.update_contract_status bind_other now commit_ok db
                 contract_id s (dict_get "transaction_hash" d)
                 (dict_get "contract_address" d)) as [[] ?].
Qed.

(** The table after [POST /deploy/<id>/confirm]: untouched, or written
    by the service with status ['deployed']. *)
Lemma confirm_route_effect (now : Z) (commit_ok : bool) (db : Db)
    (contract_id : Z) (req : request) :
  (Deploy.confirm_deployment bind_other now commit_ok db contract_id req).2 = db
  ∨ ∃ hv av : option json,
      (Deploy.confirm_deployment bind_other now commit_ok db contract_id req).2
      = (ContractService.update_contract_status bind_other now commit_ok db contract_id
           "deployed" hv av).2.
Proof.
  unfold Deploy.confirm_deployment.
  destruct req as [| |payload]; simpl; [by left..|].
  destruct payload as [| | | | | |d]; simpl; [by left..|].
  destruct (truthy_opt (dict_get "transaction_hash" d)); simpl; [|by left].
  right. exists (dict_get "transaction_hash" d), (dict_get "contract_address" d).
  by destruct (ContractService.update_contract_status bind_other now commit_ok db
                 contract_id "deployed" (dict_get "transaction_hash" d)
                 (dict_get "contract_address" d)) as [[] ?].
Qed.

Lemma step_keeps_invariant (db : Db) (op : Lifecycle.operation) :
  Lifecycle.names_draft op = false →
  deployment_only_after_draft db →
  deployment_only_after_draft (Lifecycle.step json_loads json_dumps bind_other rules db op).
Proof.
  intros Hop Hdb. destruct op as [payload response now ok|k req now ok|k req now ok]; simpl.
  - by apply generate_keeps_invariant.
  - destruct (update_route_effect now ok db k req) as [->|(d & s & -> & Hs & ->)];
      [done|].
    apply service_update_keeps_invariant; [|done].
    simpl in Hop. rewrite Hs in Hop. simpl in Hop.
    intros ->. discriminate.
  - destruct (confirm_route_effect now ok db k req) as [->|(h & a & ->)]; [done|].
    by apply service_update_keeps_invariant.
Qed.

(** C1 (amended).  Along every sequence of generations, status updates
    and deployment confirmations in which no status update names
    ['draft'], a stored record carries a non-empty transaction hash or
    a non-empty deployed address only if its status is not
    ['draft']. *)
Theorem invariant_without_draft_updates (ops : list Lifecycle.operation) :
  Forall (fun op => Lifecycle.names_draft op = false) ops →
  deployment_only_after_draft
    (Lifecycle.run json_loads json_dumps bind_other rules ops empty_db).
Proof.
  unfold Lifecycle.run.
  assert (Hinit : deployment_only_after_draft empty_db).
  { intros k c. simpl. by rewrite lookup_empty. }
  revert Hinit. generalize empty_db as db.
  induction ops as [|op ops IH]; intros db Hdb Hops; simpl; [done|].
  inversion Hops; subst.
  apply IH; [|done]. by apply step_keeps_invariant.
Qed.

End LifecycleFacts.

(** C1 (counterexample).  A generation followed by one status update
    that names ['draft'] and supplies a transaction hash leaves a record
    whose status is ['draft'] while a hash is stored. *)
Lemma draft_record_with_hash :
  ∃ c : Contract,
    rows (Samples.run
            [Samples.generate;
             Lifecycle.SetStatus 1 (Samples.status_request "draft" (Some "0xabc")) 200 true])
      !! 1 = Some c
    ∧ status c = "draft"
    ∧ transaction_hash c = Some "0xabc"
    ∧ Lifecycle.carries_deployment c = true.
Proof. eexists. split; [vm_compute; reflexivity|]. by vm_compute. Qed.

(** A generation followed by a confirmed deployment, at which the
    hypothesis of [invariant_without_draft_updates] holds. *)
Lemma invariant_without_draft_updates_witness :
  Forall (fun op => Lifecycle.names_draft op = false)
    [Samples.generate; Lifecycle.ConfirmDeployment 1 (Samples.confirm_request "0xabc") 200 true]
  ∧ deployment_only_after_draft
      (Samples.run
         [Samples.generate;
          Lifecycle.ConfirmDeployment 1 (Samples.confirm_request "0xabc") 200 true]).
Proof.
  assert (H : Forall (fun op => Lifecycle.names_draft op = false)
                [Samples.generate;
                 Lifecycle.ConfirmDeployment 1 (Samples.confirm_request "0xabc") 200 true])
    by (repeat constructor).
  split; [exact H|].
  exact (invariant_without_draft_updates Json.loads Samples.dumps_flat
           Samples.refuse_other Samples.rules _ H).
Defined.

(** The record of that run is deployed and holds the hash. *)
Example confirmed_record_deployed :
  ∃ c : Contract,
    rows (Samples.run
            [Samples.generate;
             Lifecycle.ConfirmDeployment 1 (Samples.confirm_request "0xabc") 200 true])
      !! 1 = Some c
    ∧ status c = "deployed" ∧ transaction_hash c = Some "0xabc".
Proof. eexists. split; [vm_compute; reflexivity|]. by vm_compute. Qed.

(** ** Deployment data *)

Section DeploymentFacts.
Variable json_loads : string -> pyresult json.

(** C4 (amended).  For every existing record, deriving deployment data
    never raises.  When the serialized metadata is absent or empty, an
    empty object is used, the data is returned and the contract name is
    "GeneratedContract"; when it decodes to an object, the data is
    returned with that object and with its contract name, or
    "GeneratedContract" when it has none; when it cannot be decoded, or
    decodes to something that is not an object, nothing is returned. *)
Theorem deployment_data_metadata (db : Db) (contract_id : Z) (c : Contract) :
  rows db !! contract_id = Some c →
  (truthy_text (contract_metadata c) = false →
   ∃ data,
     ContractService.get_deployment_data json_loads db contract_id = Some data
     ∧ dd_metadata data = JObject []
     ∧ dd_contract_name data = JString "GeneratedContract")
  ∧ (∀ (text : string) (d : dict),
       contract_metadata c = Some text → text ≠ "" →
       json_loads text = Returns (JObject d) →
       ∃ data,
         ContractService.get_deployment_data json_loads db contract_id = Some data
         ∧ dd_metadata data = JObject d
         ∧ dd_contract_name data
           = default (JString "GeneratedContract") (dict_get "contract_name" d))
  ∧ (∀ text : string,
       contract_metadata c = Some text → text ≠ "" →
       (∀ d : dict, json_loads text ≠ Returns (JObject d)) →
       ContractService.get_deployment_data json_loads db contract_id = None).
Proof.
  intros Hc.
  unfold ContractService.get_deployment_data, ContractService.deployment_body,
    ContractService.get_contract.
  rewrite Hc. split; [|split].
  - intros ->. simpl. by eexists.
  - intros text d Ht Hne Hl. rewrite Ht. simpl.
    destruct text as [|ch text]; [done|]. simpl. rewrite Hl. simpl. by eexists.
  - intros text Ht Hne Hl. rewrite Ht. simpl.
    destruct text as [|ch text]; [done|]. simpl.
    destruct (json_loads (String ch text)) as [v|e] eqn:E; simpl; [|done].
    destruct v; simpl; try done. by destruct (Hl d).
Qed.

End DeploymentFacts.

(** C4 (counterexample).  For an existing record whose serialized
    metadata is unparseable, no empty object is substituted and no
    deployment data is returned. *)
Lemma unparseable_metadata_gives_nothing :
  rows broken_metadata_db !! 1 = Some broken_metadata_record
  ∧ contract_metadata broken_metadata_record = Some "{"
  ∧ Json.loads "{" = Raises JSONDecodeError
  ∧ ContractService.get_deployment_data Json.loads broken_metadata_db 1 = None.
Proof. repeat split; by vm_compute. Qed.

(** The generated record, at which the hypotheses of
    [deployment_data_metadata] hold. *)
Lemma deployment_data_metadata_witness :
  ∃ c data,
    rows (Samples.run [Samples.generate]) !! 1 = Some c
    ∧ ContractService.get_deployment_data Json.loads (Samples.run [Samples.generate]) 1
      = Some data
    ∧ dd_contract_name data = JString "C".
Proof.
  eexists. 
  assert (Hc : rows (Samples.run [Samples.generate]) !! 1
               = Some (mkContract 1 (Some "India") (Some "escrow") (Some "test") None
                         (Some Samples.bad_address) None (Some "contract C {}")
                         (Some "main()") (Some "it()")
                         (Some (Samples.dumps_flat (JObject [("contract_name", JString "C")])))
                         "draft" None None 100 101))
    by (vm_compute; reflexivity).
  destruct (proj1 (proj2 (deployment_data_metadata Json.loads _ 1 _ Hc))
              (Samples.dumps_flat (JObject [("contract_name", JString "C")]))
              [("contract_name", JString "C")] eq_refl)
    as (data & Hd & _ & Hn); [discriminate | by vm_compute |].
  exists data. split; [exact Hc|]. split; [exact Hd | exact Hn].
Defined.

(** ** Dicts *)

Lemma dict_get_set_eq (k : string) (v : json) (d : dict) :
  dict_get k (dict_set k v d) = Some v.
Proof.
  induction d as [|[k' v'] d IH]; simpl.
  - by rewrite String.eqb_refl.
  - destruct (String.eqb k k') eqn:E; simpl; by rewrite E.
Qed.

Lemma dict_get_set_ne (k k' : string) (v : json) (d : dict) :
  k ≠ k' → dict_get k (dict_set k' v d) = dict_get k d.
Proof.
  intros Hne. induction d as [|[k2 v2] d IH]; simpl.
  - by rewrite eqb_false_of_ne.
  - destruct (String.eqb k' k2) eqn:E; simpl.
    + apply String.eqb_eq in E as <-. by rewrite eqb_false_of_ne.
    + by rewrite IH.
Qed.

(** ** Request validation *)

Section ValidationFacts.
Variable rules : RuleSet.

(** [validate_request] with its error list written out. *)
Lemma validate_request_unfold (payload : dict) :
  ContractService.validate_request rules payload
  = (j ← ContractService.get_lower "jurisdiction" payload;
     ct ← ContractService.get_lower "contract_type" payload;
     w1 ← ContractService.address_warnings "payee_address" payload;
     w2 ← ContractService.address_warnings "payer_address" payload;
     Returns (mkValidationResult
                (length (request_errors rules payload j ct) =? 0)%nat
                (request_errors rules payload j ct) (w1 ++ w2))).
Proof.
  unfold ContractService.validate_request, request_errors.
  destruct (ContractService.get_lower "jurisdiction" payload) as [j|]; [|done].
  destruct (ContractService.get_lower "contract_type" payload) as [ct|]; [|done].
  destruct (ContractService.address_warnings "payee_address" payload) as [w1|]; [|done].
  destruct (ContractService.address_warnings "payer_address" payload) as [w2|]; [|done].
  cbn [mbind pyresult_bind].
  destruct (negb (is_empty j) && negb (str_in j (keys (jurisdictions rules))));
    destruct (negb (is_empty ct) && negb (str_in ct (keys (contract_types rules))));
    by rewrite ?app_nil_r.
Qed.

(** What [validate_request] computed when it returned. *)
Lemma validate_request_inv (payload : dict) (r : ValidationResult) :
  ContractService.validate_request rules payload = Returns r →
  ∃ (j ct : string) (w1 w2 : list string),
    ContractService.get_lower "jurisdiction" payload = Returns j
    ∧ ContractService.get_lower "contract_type" payload = Returns ct
    ∧ ContractService.address_warnings "payee_address" payload = Returns w1
    ∧ ContractService.address_warnings "payer_address" payload = Returns w2
    ∧ r = mkValidationResult
            (length (request_errors rules payload j ct) =? 0)%nat
            (request_errors rules payload j ct) (w1 ++ w2).
Proof.
  rewrite validate_request_unfold.
  destruct (ContractService.get_lower "jurisdiction" payload) as [j|]; [|discriminate].
  destruct (ContractService.get_lower "contract_type" payload) as [ct|]; [|discriminate].
  destruct (ContractService.address_warnings "payee_address" payload) as [w1|];
    [|discriminate].
  destruct (ContractService.address_warnings "payer_address" payload) as [w2|];
    [|discriminate].
  cbn [mbind pyresult_bind]. intros [= <-]. by exists j, ct, w1, w2.
Qed.

Lemma get_lower_typed (k : string) (payload : dict) :
  text_or_absent (dict_get k payload) = true →
  ∃ s, ContractService.get_lower k payload = Returns s.
Proof.
  unfold ContractService.get_lower.
  destruct (dict_get k payload) as [[]|]; simpl; try discriminate; by eexists.
Qed.

Lemma address_warnings_typed (f : string) (payload : dict) :
  address_typed (dict_get f payload) = true →
  ∃ w, ContractService.address_warnings f payload = Returns w.
Proof.
  unfold ContractService.address_warnings.
  destruct (dict_get f payload) as [v|]; simpl; [|by eexists].
  destruct v as [| |n|x|a|l|d]; simpl; intros H;
    repeat case_match; try discriminate; by eexists.
Qed.

(** A request with documented field types is always answered. *)
Lemma validate_request_total (payload : dict) :
  well_typed_request payload = true →
  ∃ r, ContractService.validate_request rules payload = Returns r.
Proof.
  unfold well_typed_request. rewrite !andb_true_iff. intros [[[Hj Hc] Ha] Hb].
  destruct (get_lower_typed _ _ Hj) as [j Ej].
  destruct (get_lower_typed _ _ Hc) as [ct Ec].
  destruct (address_warnings_typed _ _ Ha) as [w1 E1].
  destruct (address_warnings_typed _ _ Hb) as [w2 E2].
  unfold ContractService.validate_request. rewrite Ej, Ec, E1, E2.
  cbn [mbind pyresult_bind]. by eexists.
Qed.

End ValidationFacts.

Lemma count_of_app (x : string) (l1 l2 : list string) :
  count_of x (l1 ++ l2) = (count_of x l1 + count_of x l2)%nat.
Proof. induction l1 as [|y l1 IH]; simpl; [done|]. rewrite IH. lia. Qed.

Lemma count_of_absent (x : string) (l : list string) :
  Forall (fun e => String.eqb x e = false) l → count_of x l = 0%nat.
Proof. induction 1 as [|y l Hy _ IH]; simpl; [done|]. by rewrite Hy, IH. Qed.

Section ValidationShape.
Variable rules : RuleSet.
Variable P : string -> Prop.

(** Every message of the first loop is a missing-field message. *)
Lemma missing_errors_Forall (payload : dict) :
  (∀ field, P (missing_error field)) →
  Forall P (ContractService.missing_errors payload).
Proof.
  intros HP. unfold ContractService.missing_errors. simpl.
  repeat case_match; repeat constructor; apply HP.
Qed.

(** Every message of the jurisdiction-specific loop starts with
    [Field ']. *)
Lemma jurisdiction_errors_Forall (j : string) (payload : dict) :
  (∀ rest, P ("Field '" +:+ rest)) →
  Forall P (ContractService.jurisdiction_errors rules j payload).
Proof.
  intros HP. unfold ContractService.jurisdiction_errors.
  destruct (table_get j (jurisdictions rules)) as [jr|]; [|constructor].
  induction (jr_required_fields jr) as [|field fields IH]; simpl; [constructor|].
  case_match; [|done]. constructor; [|done]. apply HP.
Qed.

(** A property of the three kinds of message that are not about the
    jurisdiction's validity holds of all errors when that check did not
    fire. *)
Lemma request_errors_Forall (payload : dict) (j ct : string) :
  (∀ field, P (missing_error field)) →
  (∀ rest, P ("Field '" +:+ rest)) →
  (negb (is_empty j) && negb (str_in j (keys (jurisdictions rules))) = true →
   P ("Invalid jurisdiction. Valid options: " +:+ join ", " (keys (jurisdictions rules)))) →
  (negb (is_empty ct) && negb (str_in ct (keys (contract_types rules))) = true →
   P ("Invalid contract type. Valid options: " +:+ join ", " (keys (contract_types rules)))) →
  Forall P (request_errors rules payload j ct).
Proof.
  intros HM HF HJ HC. unfold request_errors.
  apply Forall_app_2; [apply Forall_app_2; [apply Forall_app_2|]|].
  - by apply missing_errors_Forall.
  - destruct (negb (is_empty j) && negb (str_in j (keys (jurisdictions rules))));
      repeat constructor. by apply HJ.
  - destruct (negb (is_empty ct) && negb (str_in ct (keys (contract_types rules))));
      repeat constructor. by apply HC.
  - by apply jurisdiction_errors_Forall.
Qed.

End ValidationShape.

Lemma get_lower_missing (k : string) (payload : dict) (s : string) :
  missing_or_empty (dict_get k payload) →
  ContractService.get_lower k payload = Returns s → s = "".
Proof.
  unfold ContractService.get_lower. intros [-> | ->]; by intros [= <-].
Qed.

Lemma lower_nonempty (s : string) : lower s ≠ "" → s ≠ "".
Proof. by intros H ->. Qed.

Lemma get_lower_nonempty (k : string) (payload : dict) (s : string) :
  ContractService.get_lower k payload = Returns s → is_empty s = false →
  ∃ t, dict_get k payload = Some (JString t) ∧ t ≠ "".
Proof.
  unfold ContractService.get_lower.
  destruct (dict_get k payload) as [[| | | |t| |]|]; try discriminate.
  - intros [= <-] H. exists t. split; [done|]. intros ->. discriminate.
  - intros [= <-]. discriminate.
Qed.

Section ValidationClaims.
Variable rules : RuleSet.

(** X29.  A request whose jurisdiction and contract type are absent or
    strings, and whose addresses are absent, false or strings, is
    always answered, and when its jurisdiction is absent or the empty
    string the error list holds the missing-field error for
    jurisdiction exactly once and no invalid-jurisdiction error;
    likewise for the contract type.  An invalid-jurisdiction or
    invalid-contract-type error occurs only for a non-empty value of
    that field. *)
Theorem missing_field_skips_membership_check (payload : dict) :
  well_typed_request payload = true →
  ∃ r,
    ContractService.validate_request rules payload = Returns r
    ∧ (missing_or_empty (dict_get "jurisdiction" payload) →
       count_of (missing_error "jurisdiction") (errors r) = 1%nat
       ∧ Forall (fun e => startswith "Invalid jurisdiction" e = false) (errors r))
    ∧ (missing_or_empty (dict_get "contract_type" payload) →
       count_of (missing_error "contract_type") (errors r) = 1%nat
       ∧ Forall (fun e => startswith "Invalid contract type" e = false) (errors r))
    ∧ (Exists (fun e => startswith "Invalid jurisdiction" e = true) (errors r) →
       ∃ s, dict_get "jurisdiction" payload = Some (JString s) ∧ s ≠ "")
    ∧ (Exists (fun e => startswith "Invalid contract type" e = true) (errors r) →
       ∃ s, dict_get "contract_type" payload = Some (JString s) ∧ s ≠ "").
Proof.
  intros Hty. destruct (validate_request_total rules payload Hty) as [r Hr].
  exists r. split; [done|].
  destruct (validate_request_inv rules payload r Hr)
    as (j & ct & w1 & w2 & Hj & Hct & _ & _ & ->).
  cbn [errors]. split; [|split; [|split]].
  - intros Hm. pose proof (get_lower_missing _ _ _ Hm Hj) as ->. split.
    + unfold request_errors. rewrite !count_of_app. simpl negb. simpl andb.
      rewrite (count_of_absent _ (ContractService.jurisdiction_errors rules "" payload))
        by (apply jurisdiction_errors_Forall; reflexivity).
      assert (Hmiss : count_of (missing_error "jurisdiction")
                        (ContractService.missing_errors payload) = 1%nat).
      { unfold ContractService.missing_errors. simpl.
        destruct Hm as [-> | ->]; simpl; repeat case_match; reflexivity. }
      rewrite Hmiss. by case_match.
    + apply request_errors_Forall; try reflexivity. discriminate.
  - intros Hm. pose proof (get_lower_missing _ _ _ Hm Hct) as ->. split.
    + unfold request_errors. rewrite !count_of_app. simpl (negb (is_empty "")).
      rewrite (count_of_absent _ (ContractService.jurisdiction_errors rules j payload))
        by (apply jurisdiction_errors_Forall; reflexivity).
      assert (Hmiss : count_of (missing_error "contract_type")
                        (ContractService.missing_errors payload) = 1%nat).
      { unfold ContractService.missing_errors. simpl.
        destruct Hm as [-> | ->]; simpl; repeat case_match; reflexivity. }
      rewrite Hmiss. simpl. by case_match.
    + apply request_errors_Forall; try reflexivity. discriminate.
  - intros Hex.
    destruct (is_empty j) eqn:Ej; [|by eapply get_lower_nonempty].
    exfalso. apply Exists_exists in Hex as (e & He & Hs).
    assert (HF : Forall (fun e => startswith "Invalid jurisdiction" e = false)
                   (request_errors rules payload j ct)).
    { apply request_errors_Forall; try reflexivity. by rewrite Ej. }
    rewrite Forall_forall in HF. specialize (HF e He). congruence.
  - intros Hex.
    destruct (is_empty ct) eqn:Ec; [|by eapply get_lower_nonempty].
    exfalso. apply Exists_exists in Hex as (e & He & Hs).
    assert (HF : Forall (fun e => startswith "Invalid contract type" e = false)
                   (request_errors rules payload j ct)).
    { apply request_errors_Forall; try reflexivity. by rewrite Ec. }
    rewrite Forall_forall in HF. specialize (HF e He). congruence.
Qed.

End ValidationClaims.

(** A request without jurisdiction, at which the hypotheses of
    [missing_field_skips_membership_check] hold. *)
Lemma missing_field_skips_membership_check_witness :
  well_typed_request [("contract_type", JString "escrow"); ("requirements", JString "x")] = true
  ∧ ∃ r,
      ContractService.validate_request Samples.rules
        [("contract_type", JString "escrow"); ("requirements", JString "x")] = Returns r
      ∧ count_of (missing_error "jurisdiction") (errors r) = 1%nat.
Proof.
  split; [reflexivity|].
  destruct (missing_field_skips_membership_check Samples.rules
              [("contract_type", JString "escrow"); ("requirements", JString "x")] eq_refl)
    as (r & Hr & Hj & _).
  exists r. split; [exact Hr|]. exact (proj1 (Hj (or_introl eq_refl))).
Defined.

(** C9 (failing input).  For a request whose jurisdiction is the JSON
    [null], the first loop of [validate_request] counts the
    jurisdiction as missing, but [.lower()] is then called on the
    [null] and raises: under any rules validation raises instead of
    answering with an error list, and [POST /validate] answers 500. *)
Lemma null_jurisdiction_is_not_answered :
  missing_error "jurisdiction"
    ∈ ContractService.missing_errors Samples.null_jurisdiction_payload
  ∧ (∀ rules : RuleSet,
       ContractService.validate_request rules Samples.null_jurisdiction_payload
       = Raises AttributeError)
  ∧ (∀ rules : RuleSet,
       Contracts.validate_contract_request rules
         (JsonBody (JObject Samples.null_jurisdiction_payload))
       = error_response 500 "Internal server error").
Proof.
  split; [apply list_elem_of_here|]. split; intros rules; reflexivity.
Qed.

(** ** The address check *)

Lemma hex_char (c : ascii) :
  contains (String c "") "0123456789abcdefABCDEF" = is_hex_digit c.
Proof. destruct c as [[] [] [] [] [] [] [] []]; reflexivity. Qed.

Lemma all_in_hex (s : string) :
  all_in "0123456789abcdefABCDEF" s = all_chars is_hex_digit s.
Proof. induction s as [|c s IH]; simpl; [done|]. by rewrite hex_char, IH. Qed.

Lemma startswith_0x (a : string) :
  startswith "0x" a = true ↔ ∃ digits, a = "0x" +:+ digits.
Proof.
  split.
  - destruct a as [|c1 [|c2 a]]; cbn [startswith]; try discriminate.
    + by rewrite andb_false_r.
    + rewrite andb_true_r, andb_true_iff, !Ascii.eqb_eq. intros [<- <-]. by exists a.
  - by intros [digits ->].
Qed.

(** The shape [_is_valid_ethereum_address] accepts. *)
Lemma valid_address_shape (a : string) :
  ContractService._is_valid_ethereum_address a = true
  ↔ ∃ digits,
      a = "0x" +:+ digits
      ∧ String.length digits = 40%nat
      ∧ all_chars is_hex_digit digits = true.
Proof.
  unfold ContractService._is_valid_ethereum_address. split.
  - destruct (is_empty a) eqn:E; [discriminate|].
    rewrite !andb_true_iff, startswith_0x, Z.eqb_eq.
    intros [[[digits ->] Hlen] Hhex]. exists digits. split; [done|].
    unfold len in Hlen. simpl in Hlen.
    assert (Hl : String.length digits = 40%nat) by lia.
    split; [done|].
    unfold slice_from, len, norm_index in Hhex. simpl String.length in Hhex.
    rewrite Hl in Hhex. simpl in Hhex. by rewrite all_in_hex in Hhex.
  - intros (digits & -> & Hl & Hhex). simpl.
    unfold slice_from, len, norm_index. simpl String.length. rewrite Hl. simpl.
    by rewrite all_in_hex.
Qed.

(** One turn of the address loop appends nothing or the warning of its
    field. *)
Lemma address_warnings_string (f a : string) (payload : dict) :
  dict_get f payload = Some (JString a) → a ≠ "" →
  ContractService.address_warnings f payload
  = Returns (if negb (ContractService._is_valid_ethereum_address a)
             then [address_warning f] else []).
Proof.
  intros Hf Ha. unfold ContractService.address_warnings. rewrite Hf. simpl.
  by destruct a.
Qed.

Lemma address_warnings_shape (f : string) (payload : dict) (w : list string) :
  ContractService.address_warnings f payload = Returns w →
  w = [] ∨ w = [address_warning f].
Proof.
  unfold ContractService.address_warnings.
  destruct (dict_get f payload) as [v|]; [|intros [= <-]; by left].
  destruct (truthy v); [|intros [= <-]; by left].
  destruct v; try discriminate. intros [= <-]. case_match; [by right | by left].
Qed.

(** Replacing the value of an address field by another non-empty string
    changes nothing that the error list depends on. *)
Section AddressReplaced.
Variables (f a a' : string) (payload : dict).
Hypothesis Hfield : f ∈ address_fields.
Hypothesis Hget : dict_get f payload = Some (JString a).
Hypothesis Ha : a ≠ "".
Hypothesis Ha' : a' ≠ "".

Lemma truthy_nonempty (s : string) : s ≠ "" → truthy (JString s) = true.
Proof. by destruct s. Qed.

Lemma get_replaced (k : string) :
  k ≠ f → dict_get k (dict_set f (JString a') payload) = dict_get k payload.
Proof. apply dict_get_set_ne. Qed.

Lemma truthy_replaced (k : string) :
  truthy_opt (dict_get k (dict_set f (JString a') payload))
  = truthy_opt (dict_get k payload).
Proof.
  destruct (decide (k = f)) as [->|Hne].
  - rewrite dict_get_set_eq, Hget. cbn [truthy_opt]. by rewrite !truthy_nonempty.
  - by rewrite get_replaced.
Qed.

Lemma has_replaced (k : string) :
  dict_has k (dict_set f (JString a') payload) = dict_has k payload.
Proof.
  unfold dict_has. destruct (decide (k = f)) as [->|Hne].
  - by rewrite dict_get_set_eq, Hget.
  - by rewrite get_replaced.
Qed.

Lemma field_is_address : f = "payee_address" ∨ f = "payer_address".
Proof.
  revert Hfield. unfold address_fields.
  rewrite !elem_of_cons, elem_of_nil. tauto.
Qed.

Lemma get_lower_replaced (k : string) :
  k ≠ f →
  ContractService.get_lower k (dict_set f (JString a') payload)
  = ContractService.get_lower k payload.
Proof. intros Hne. unfold ContractService.get_lower. by rewrite get_replaced. Qed.

Lemma missing_errors_replaced :
  ContractService.missing_errors (dict_set f (JString a') payload)
  = ContractService.missing_errors payload.
Proof.
  unfold ContractService.missing_errors. simpl. by rewrite !truthy_replaced.
Qed.

Lemma jurisdiction_errors_replaced (rules : RuleSet) (j : string) :
  ContractService.jurisdiction_errors rules j (dict_set f (JString a') payload)
  = ContractService.jurisdiction_errors rules j payload.
Proof.
  unfold ContractService.jurisdiction_errors.
  destruct (table_get j (jurisdictions rules)) as [jr|]; [|done].
  induction (jr_required_fields jr) as [|field fields IH]; cbn [flat_map]; [done|].
  by rewrite has_replaced, truthy_replaced, IH.
Qed.

Lemma request_errors_replaced (rules : RuleSet) (j ct : string) :
  request_errors rules (dict_set f (JString a') payload) j ct
  = request_errors rules payload j ct.
Proof.
  unfold request_errors.
  by rewrite missing_errors_replaced, jurisdiction_errors_replaced.
Qed.

Lemma address_warnings_replaced (k : string) (w : list string) :
  ContractService.address_warnings k payload = Returns w →
  ∃ w', ContractService.address_warnings k (dict_set f (JString a') payload) = Returns w'.
Proof.
  destruct (decide (k = f)) as [->|Hne].
  - intros _. rewrite (address_warnings_string f a' _ (dict_get_set_eq _ _ _) Ha').
    by eexists.
  - unfold ContractService.address_warnings. rewrite get_replaced by done. by eexists.
Qed.

End AddressReplaced.

Section AddressClaims.
Variable rules : RuleSet.

Lemma other_warning_absent (f g : string) (payload : dict) (w : list string) :
  ContractService.address_warnings g payload = Returns w →
  address_warning f ≠ address_warning g → address_warning f ∉ w.
Proof.
  intros H Hne. destruct (address_warnings_shape _ _ _ H) as [-> | ->].
  - apply not_elem_of_nil.
  - by rewrite list_elem_of_singleton.
Qed.

Lemma warning_in_warnings (f a : string) (payload : dict) (w1 w2 : list string) :
  f ∈ address_fields → dict_get f payload = Some (JString a) → a ≠ "" →
  ContractService.address_warnings "payee_address" payload = Returns w1 →
  ContractService.address_warnings "payer_address" payload = Returns w2 →
  address_warning f ∈ w1 ++ w2 ↔ ContractService._is_valid_ethereum_address a = false.
Proof.
  intros Hf Hget Ha H1 H2. rewrite elem_of_app.
  destruct (field_is_address f Hf) as [-> | ->].
  - rewrite (address_warnings_string _ a _ Hget Ha) in H1. injection H1 as <-.
    assert (Hn : address_warning "payee_address" ∉ w2)
      by (eapply other_warning_absent; [done | discriminate]).
    destruct (ContractService._is_valid_ethereum_address a); simpl;
      rewrite ?elem_of_nil, ?list_elem_of_singleton; intuition congruence.
  - rewrite (address_warnings_string _ a _ Hget Ha) in H2. injection H2 as <-.
    assert (Hn : address_warning "payer_address" ∉ w1)
      by (eapply other_warning_absent; [done | discriminate]).
    destruct (ContractService._is_valid_ethereum_address a); simpl;
      rewrite ?elem_of_nil, ?list_elem_of_singleton; intuition congruence.
Qed.

(** C8.  A supplied payee or payer address passes the shape check
    exactly when it is [0x] followed by 40 hexadecimal digits of either
    case (42 characters in all).  A failing address puts its warning in
    the warning list and nothing in the error list: the result is valid
    exactly when the error list is empty, and the error list and the
    validity are the same for any other non-empty address in its
    place, well-formed or not. *)
Theorem address_check_warns_only (payload : dict) (f a : string) (r : ValidationResult) :
  f ∈ address_fields →
  dict_get f payload = Some (JString a) → a ≠ "" →
  ContractService.validate_request rules payload = Returns r →
  (ContractService._is_valid_ethereum_address a = true
   ↔ ∃ digits,
       a = "0x" +:+ digits
       ∧ String.length digits = 40%nat
       ∧ all_chars is_hex_digit digits = true)
  ∧ (address_warning f ∈ warnings r
     ↔ ContractService._is_valid_ethereum_address a = false)
  ∧ Forall (fun e => startswith "Invalid Ethereum address" e = false) (errors r)
  ∧ (valid r = true ↔ errors r = [])
  ∧ (∀ a' : string,
       a' ≠ "" →
       ∃ r',
         ContractService.validate_request rules (dict_set f (JString a') payload)
           = Returns r'
         ∧ errors r' = errors r
         ∧ valid r' = valid r).
Proof.
  intros Hf Hget Ha Hr.
  destruct (validate_request_inv rules payload r Hr)
    as (j & ct & w1 & w2 & Hj & Hct & H1 & H2 & ->).
  cbn [errors warnings valid].
  split; [apply valid_address_shape|].
  split; [by eapply warning_in_warnings|].
  split; [apply request_errors_Forall; reflexivity|].
  split.
  { destruct (request_errors rules payload j ct); simpl; split; done. }
  intros a' Ha'.
  assert (Hk1 : "jurisdiction" ≠ f)
    by (destruct (field_is_address f Hf) as [-> | ->]; discriminate).
  assert (Hk2 : "contract_type" ≠ f)
    by (destruct (field_is_address f Hf) as [-> | ->]; discriminate).
  destruct (address_warnings_replaced f a' payload Ha' _ _ H1) as [w1' H1'].
  destruct (address_warnings_replaced f a' payload Ha' _ _ H2) as [w2' H2'].
  rewrite validate_request_unfold.
  rewrite (get_lower_replaced f a' payload _ Hk1), (get_lower_replaced f a' payload _ Hk2).
  rewrite Hj, Hct, H1', H2'. cbn [mbind pyresult_bind].
  eexists. split; [reflexivity|]. cbn [errors valid].
  by rewrite (request_errors_replaced f a a' payload Hget Ha Ha').
Qed.

End AddressClaims.

(** The sample request, whose payee address has a letter that is not a
    hexadecimal digit: the hypotheses of [address_check_warns_only] hold
    there, and the request is valid with one warning. *)
Lemma address_check_warns_only_witness :
  ("payee_address" ∈ address_fields)
  ∧ dict_get "payee_address" Samples.payload = Some (JString Samples.bad_address)
  ∧ Samples.bad_address ≠ ""
  ∧ ContractService.validate_request Samples.rules Samples.payload
    = Returns (mkValidationResult true [] [address_warning "payee_address"])
  ∧ ContractService._is_valid_ethereum_address Samples.bad_address = false.
Proof.
  assert (Hf : "payee_address" ∈ address_fields) by apply list_elem_of_here.
  assert (Ha : Samples.bad_address ≠ "") by discriminate.
  assert (Hr : ContractService.validate_request Samples.rules Samples.payload
               = Returns (mkValidationResult true [] [address_warning "payee_address"]))
    by reflexivity.
  do 4 (split; [done|]).
  apply (proj1 (proj2 (address_check_warns_only Samples.rules Samples.payload
                         "payee_address" Samples.bad_address _ Hf eq_refl Ha Hr))).
  apply list_elem_of_here.
Defined.

Example good_address_passes :
  ContractService._is_valid_ethereum_address Samples.good_address = true.
Proof. reflexivity. Qed.

(** ** Fence stripping *)

Lemma startswith_app (p s t : string) :
  startswith p s = true → startswith p (s +:+ t) = true.
Proof.
  revert s. induction p as [|a p IH]; intros s; [done|].
  destruct s as [|b s]; cbn [startswith String.append]; [discriminate|].
  rewrite !andb_true_iff. intros [? ?]. auto.
Qed.

Lemma find_nat_here (sub s : string) :
  startswith sub s = true → find_nat sub s = Some 0%nat.
Proof. destruct s; cbn [find_nat]; by intros ->. Qed.

(** No occurrence in a text, none in a prefix of it. *)
Lemma find_nat_none_prefix (sub s t : string) :
  find_nat sub (s +:+ t) = None → find_nat sub s = None.
Proof.
  induction s as [|c s IH]; cbn [String.append find_nat].
  - destruct (startswith sub "") eqn:E; [|done].
    by rewrite (find_nat_here sub t (startswith_app sub "" t E)).
  - destruct (startswith sub (String c s)) eqn:E.
    + pose proof (startswith_app sub (String c s) t E) as E'. cbn [String.append] in E'.
      by rewrite E'.
    + destruct (startswith sub (String c (s +:+ t))); [discriminate|].
      destruct (find_nat sub (s +:+ t)); [discriminate|]. intros _.
      by rewrite IH.
Qed.

(** No occurrence of [sub], none of a text that begins with [sub]. *)
Lemma find_nat_none_longer (sub sub' s : string) :
  (∀ x, startswith sub' x = true → startswith sub x = true) →
  find_nat sub s = None → find_nat sub' s = None.
Proof.
  intros Hsub. induction s as [|c s IH]; cbn [find_nat].
  - destruct (startswith sub' "") eqn:E; [|done]. by rewrite (Hsub _ E).
  - destruct (startswith sub' (String c s)) eqn:E; [by rewrite (Hsub _ E)|].
    destruct (startswith sub (String c s)); [discriminate|].
    destruct (find_nat sub s); [discriminate|]. intros _. by rewrite IH.
Qed.

Lemma find_nat_none_lstrip (sub s : string) :
  find_nat sub s = None → find_nat sub (lstrip s) = None.
Proof.
  induction s as [|c s IH]; [done|]. cbn [lstrip].
  destruct (is_space c); [|done]. cbn [find_nat].
  destruct (startswith sub (String c s)); [discriminate|].
  destruct (find_nat sub s); [discriminate|]. intros _. by apply IH.
Qed.

Lemma rstrip_prefix (s : string) : ∃ t, s = rstrip s +:+ t.
Proof.
  induction s as [|c s [t IH]]; [by exists ""|]. cbn [rstrip].
  destruct (is_space c && is_empty (rstrip s)).
  - by exists (String c s).
  - exists t. cbn [String.append]. by rewrite <- IH.
Qed.

Lemma find_nat_none_strip (sub s : string) :
  find_nat sub s = None → find_nat sub (strip s) = None.
Proof.
  intros H. unfold strip. apply find_nat_none_lstrip in H.
  destruct (rstrip_prefix (lstrip s)) as [t Ht]. rewrite Ht in H.
  by apply find_nat_none_prefix in H.
Qed.

Lemma contains_false (sub s : string) : contains sub s = false ↔ find_nat sub s = None.
Proof. unfold contains. by destruct (find_nat sub s). Qed.

Lemma json_fence_starts_with_fence (x : string) :
  startswith GeminiClient.json_fence x = true → startswith GeminiClient.fence x = true.
Proof.
  destruct x as [|c1 [|c2 [|c3 x]]]; cbn [startswith GeminiClient.json_fence GeminiClient.fence];
    rewrite ?andb_false_r; try discriminate.
  rewrite !andb_true_iff. tauto.
Qed.

(** A text without fence is its own candidate, once trimmed. *)
Lemma json_text_of_bare (J : string) :
  contains GeminiClient.fence J = false → GeminiClient.json_text_of J = strip J.
Proof.
  intros H. apply contains_false, find_nat_none_strip in H.
  unfold GeminiClient.json_text_of.
  assert (H1 : contains GeminiClient.fence (strip J) = false) by by apply contains_false.
  assert (H2 : contains GeminiClient.json_fence (strip J) = false).
  { apply contains_false.
    by apply (find_nat_none_longer GeminiClient.fence _ _ json_fence_starts_with_fence). }
  by rewrite H2, H1.
Qed.

Lemma rstrip_app_nl (s : string) : rstrip (s +:+ nl) = rstrip s.
Proof.
  induction s as [|c s IH]; [reflexivity|].
  cbn [String.append rstrip]. by rewrite IH.
Qed.

Lemma strip_app_nl (s : string) : strip (s +:+ nl) = strip s.
Proof.
  unfold strip. induction s as [|c s IH]; [reflexivity|].
  cbn [String.append lstrip]. destruct (is_space c); [done|].
  apply (rstrip_app_nl (String c s)).
Qed.

Lemma is_empty_app_r (s t : string) : is_empty t = false → is_empty (s +:+ t) = false.
Proof. by destruct s, t. Qed.

(** Trailing text that survives trimming shields what precedes it. *)
Lemma rstrip_app (s t : string) :
  is_empty (rstrip t) = false → rstrip (s +:+ t) = s +:+ rstrip t.
Proof.
  intros Ht. induction s as [|c s IH]; [done|].
  cbn [String.append rstrip]. rewrite IH, (is_empty_app_r s _ Ht).
  by rewrite andb_false_r.
Qed.

Lemma take_app_length (s t : string) (n : nat) :
  take (String.length s + n) (s +:+ t) = s +:+ take n t.
Proof.
  induction s as [|c s IH]; [done|].
  cbn [String.length String.append Nat.add take]. by rewrite IH.
Qed.

Lemma fmap_add_0 (o : option nat) : (fun i => (0 + i)%nat) <$> o = o.
Proof. by destruct o. Qed.

Lemma startswith_fence_app (s rest : string) :
  startswith "`" rest = false →
  startswith GeminiClient.fence s = false →
  startswith GeminiClient.fence (s +:+ rest) = false.
Proof.
  intros Hr. destruct rest as [|r rest].
  - destruct s as [|c1 [|c2 [|c3 s]]];
      cbn [String.append startswith GeminiClient.fence];
      by rewrite ?andb_false_r.
  - cbn [startswith] in Hr. rewrite andb_true_r in Hr.
    destruct s as [|c1 [|c2 [|c3 s]]];
      cbn [String.append startswith GeminiClient.fence];
      by rewrite ?Hr, ?andb_false_r.
Qed.

(** The first fence of [J +:+ rest] is the first fence of [rest], when
    [J] has none and [rest] does not begin with a backquote. *)
Lemma find_fence_skip (J rest : string) :
  find_nat GeminiClient.fence J = None →
  startswith "`" rest = false →
  find_nat GeminiClient.fence (J +:+ rest)
  = (fun i => (String.length J + i)%nat) <$> find_nat GeminiClient.fence rest.
Proof.
  intros HJ Hr. induction J as [|c J IH].
  - cbn [String.append String.length]. by rewrite fmap_add_0.
  - cbn [find_nat] in HJ.
    destruct (startswith GeminiClient.fence (String c J)) eqn:E; [discriminate|].
    destruct (find_nat GeminiClient.fence J) eqn:EJ; [discriminate|].
    pose proof (startswith_fence_app (String c J) rest Hr E) as E'.
    cbn [String.append] in E'. cbn [String.append find_nat String.length].
    rewrite E', IH by done.
    by destruct (find_nat GeminiClient.fence rest).
Qed.

(** Settle a comparison of the goal that is false. *)
Ltac decide_ltb :=
  match goal with
  | |- context [?a <? ?b] => destruct (Z.ltb_spec a b); [lia|]
  end.

Lemma length_json_block (J : string) :
  len (json_block J) = Z.of_nat (String.length J) + 12.
Proof.
  unfold len, json_block. cbn [String.append String.length nl].
  assert (H : ∀ s t, String.length (s +:+ t) = (String.length s + String.length t)%nat).
  { intros s t. induction s as [|c s IH]; [done|]. cbn [String.append String.length].
    by rewrite IH. }
  rewrite H. cbn [String.length]. lia.
Qed.

(** The candidate of a fenced block around a text without fence is the
    trimmed text. *)
Lemma json_text_of_block (J : string) :
  contains GeminiClient.fence J = false →
  GeminiClient.json_text_of (json_block J) = strip J.
Proof.
  intros HJ. apply contains_false in HJ.
  assert (Hstrip : strip (json_block J) = json_block J).
  { unfold strip, json_block. cbn [String.append lstrip nl].
    change (is_space "`") with false. cbv iota.
    apply (rstrip_app (String "`" (String "`" (String "`" (String "j"
             (String "s" (String "o" (String "n" (String newline J))))))))
             (String newline "```")).
    reflexivity. }
  unfold GeminiClient.json_text_of. rewrite Hstrip.
  assert (Hc : contains GeminiClient.json_fence (json_block J) = true) by reflexivity.
  assert (Hf : find GeminiClient.json_fence (json_block J) = 0) by reflexivity.
  rewrite Hc, Hf.
  assert (Hend : find_from GeminiClient.fence (json_block J) (0 + 7)
                 = Z.of_nat (String.length J) + 9).
  { unfold find_from. rewrite length_json_block.
    decide_ltb. unfold norm_index. decide_ltb.
    replace (Z.min (0 + 7) (Z.of_nat (String.length J) + 12)) with 7 by lia.
    change (drop (Z.to_nat 7) (json_block J)) with (nl +:+ J +:+ nl +:+ "```").
    cbn [String.append nl find_nat].
    change (startswith GeminiClient.fence (String newline (J +:+ String newline "```")))
      with false.
    cbv iota.
    rewrite (find_fence_skip J (String newline "```") HJ eq_refl).
    change (find_nat GeminiClient.fence (String newline "```")) with (Some 1%nat).
    cbn [fmap option_fmap option_map]. lia. }
  rewrite Hend.
  unfold slice. rewrite length_json_block. unfold norm_index.
  do 2 decide_ltb.
  replace (Z.min (0 + 7) (Z.of_nat (String.length J) + 12)) with 7 by lia.
  replace (Z.min (Z.of_nat (String.length J) + 9) (Z.of_nat (String.length J) + 12))
    with (Z.of_nat (String.length J) + 9) by lia.
  replace (Z.to_nat (Z.of_nat (String.length J) + 9 - 7))
    with (S (String.length J + 1)) by lia.
  change (drop (Z.to_nat 7) (json_block J))
    with (String newline (J +:+ String newline "```")).
  cbn [take]. rewrite take_app_length.
  change (take 1 (String newline "```")) with nl.
  unfold strip at 1. cbn [lstrip]. change (is_space newline) with true. cbv iota.
  apply strip_app_nl.
Qed.

Section FenceClaims.
Variable json_loads : string -> pyresult json.

(** C7 (amended).  For every text [J] that holds no run of three
    backquotes, the response made of [J] inside a fenced block opened
    with the JSON tag is parsed to the same result as [J] given bare,
    whatever the decoder answers on it. *)
Theorem fenced_json_parses_like_bare (J : string) :
  contains GeminiClient.fence J = false →
  GeminiClient._parse_response json_loads (json_block J)
  = GeminiClient._parse_response json_loads J.
Proof.
  intros HJ. unfold GeminiClient._parse_response, GeminiClient.parse_body.
  by rewrite (json_text_of_block J HJ), (json_text_of_bare J HJ).
Qed.

End FenceClaims.

(** C7 (counterexample).  The JSON object [{"```":"```"}] is parsed to a
    hard failure when given bare, the text between its two fences being
    the JSON string [":"], and to the fallback artifact when wrapped in
    a JSON-tagged block, the block being cut at the first fence inside
    the object. *)
Lemma fenced_object_parses_differently :
  Json.loads Samples.fenced_strings
  = Returns (JObject [("```", JString "```")])
  ∧ GeminiClient._parse_response Json.loads (json_block Samples.fenced_strings)
    = Returns GeminiClient._create_fallback_response
  ∧ GeminiClient._parse_response Json.loads Samples.fenced_strings
    = Raises (PyException "Failed to parse contract generation response: "
                (ValueError "Missing required field: solidity_code"))
  ∧ GeminiClient._parse_response Json.loads (json_block Samples.fenced_strings)
    ≠ GeminiClient._parse_response Json.loads Samples.fenced_strings.
Proof.
  assert (H1 : GeminiClient._parse_response Json.loads (json_block Samples.fenced_strings)
               = Returns GeminiClient._create_fallback_response) by (vm_compute; reflexivity).
  assert (H2 : GeminiClient._parse_response Json.loads Samples.fenced_strings
               = Raises (PyException "Failed to parse contract generation response: "
                           (ValueError "Missing required field: solidity_code")))
    by (vm_compute; reflexivity).
  split; [vm_compute; reflexivity|]. split; [exact H1|]. split; [exact H2|].
  rewrite H1, H2. discriminate.
Qed.

(** A complete artifact without fence inside, at which the hypothesis of
    [fenced_json_parses_like_bare] holds. *)
Lemma fenced_json_parses_like_bare_witness :
  contains GeminiClient.fence Samples.artifact_text = false
  ∧ GeminiClient._parse_response Json.loads (json_block Samples.artifact_text)
    = GeminiClient._parse_response Json.loads Samples.artifact_text.
Proof.
  assert (H : contains GeminiClient.fence Samples.artifact_text = false) by reflexivity.
  split; [exact H|].
  exact (fenced_json_parses_like_bare Json.loads Samples.artifact_text H).
Defined.

(** * Further properties of the code *)

(** ** Generation *)

Section GenerationFacts.
Variable json_loads : string -> pyresult json.
Variable json_dumps : json -> string.
Variable bind_other : json -> pyresult (option string).
Variable rules : RuleSet.

Lemma new_contract_stamps (db : Db) (now : Z * Z) (payload : dict) (result : json)
    (c : Contract) :
  ContractService.new_contract json_dumps bind_other db now payload result = Returns c →
  status c = "draft" ∧ transaction_hash c = None ∧ contract_address c = None
  ∧ id c = next_id db ∧ created_at c = now.1 ∧ updated_at c = now.2.
Proof.
  unfold ContractService.new_contract. intros H.
  repeat match type of H with
         | (mbind _ ?m) = Returns _ => destruct m; simpl in H; [|discriminate]
         end.
  by injection H as <-.
Qed.

(** What [generate_contract] leaves behind, case by case. *)
Lemma generate_contract_cases (reply : pyresult string) (now : Z * Z) (commit_ok : bool)
    (db : Db) (payload : dict) :
  (∃ e,
     ContractService.generate_contract json_loads json_dumps bind_other rules reply now
       commit_ok db payload = (Raises e, db))
  ∨ (∃ c,
       ContractService.generate_contract json_loads json_dumps bind_other rules reply now
         commit_ok db payload
       = (Returns c, mkDb (<[next_id db := c]> (rows db)) (next_id db + 1))
       ∧ id c = next_id db ∧ status c = "draft"
       ∧ transaction_hash c = None ∧ contract_address c = None
       ∧ created_at c = now.1 ∧ updated_at c = now.2).
Proof.
  unfold ContractService.generate_contract.
  destruct (ContractService.validate_request rules payload) as [validation|e];
    [|left; by eexists].
  destruct (valid validation); simpl; [|left; by eexists].
  destruct (GeminiClient.generate_contract json_loads reply) as [result|e]; simpl;
    [|left; by eexists].
  destruct (ContractService.new_contract json_dumps bind_other db now payload result)
    as [c|e] eqn:Hc; simpl; [|left; by eexists].
  destruct commit_ok; simpl; [|left; by eexists].
  right. exists c.
  destruct (new_contract_stamps _ _ _ _ _ Hc) as (Hs & Hh & Ha & Hid & Hcr & Hup).
  rewrite Hid. done.
Qed.

(** X1.  A generation that fails, at validation, at the remote model, at
    the parser or at the commit, stores nothing; one that succeeds stores
    exactly one new record, under the next identity, in status
    ['draft'], without transaction hash or deployed address, whose
    creation and update times are the two readings of the clock that
    the insertion took, each its own. *)
Theorem generation_stores_one_draft_or_nothing (reply : pyresult string) (now : Z * Z)
    (commit_ok : bool) (db : Db) (payload : dict) :
  let outcome :=
    ContractService.generate_contract json_loads json_dumps bind_other rules reply now
      commit_ok db payload in
  (∃ e, outcome.1 = Raises e ∧ outcome.2 = db)
  ∨ (∃ c,
       outcome.1 = Returns c
       ∧ outcome.2 = mkDb (<[next_id db := c]> (rows db)) (next_id db + 1)
       ∧ id c = next_id db ∧ status c = "draft"
       ∧ transaction_hash c = None ∧ contract_address c = None
       ∧ created_at c = now.1 ∧ updated_at c = now.2).
Proof.
  intros outcome. subst outcome.
  destruct (generate_contract_cases reply now commit_ok db payload)
    as [[e ->] | (c & -> & H)]; [left | right]; by eexists.
Qed.

Lemma generate_keeps_well_formed (reply : pyresult string) (now : Z * Z) (commit_ok : bool)
    (db : Db) (payload : dict) :
  db_well_formed db →
  db_well_formed
    (ContractService.generate_contract json_loads json_dumps bind_other rules reply now
       commit_ok db payload).2.
Proof.
  intros [Hn Hdb].
  destruct (generate_contract_cases reply now commit_ok db payload)
    as [[e ->] | (c & -> & Hid & _)]; [done|].
  split; simpl; [lia|].
  intros k c'. destruct (decide (k = next_id db)) as [->|Hne].
  - rewrite lookup_insert_eq. intros [= <-]. split; [done|lia].
  - rewrite lookup_insert_ne by done. intros Hk.
    destruct (Hdb _ _ Hk). split; [done|lia].
Qed.

End GenerationFacts.

(** ** The table along a run *)

Lemma same_content_refl (c : Contract) : same_content c c.
Proof. unfold same_content. tauto. Qed.

Lemma same_content_trans (c1 c2 c3 : Contract) :
  same_content c1 c2 → same_content c2 c3 → same_content c1 c3.
Proof. unfold same_content. intuition congruence. Qed.

Lemma evolves_refl (P : Prop) (c : Contract) : evolves P c c.
Proof. split; [apply same_content_refl | tauto]. Qed.

Lemma evolves_trans (P : Prop) (c1 c2 c3 : Contract) :
  evolves P c1 c2 → evolves P c2 c3 → evolves P c1 c3.
Proof.
  intros (H1 & H2 & H3) (H4 & H5 & H6).
  split; [by eapply same_content_trans | tauto].
Qed.

(** What a store that binds truthfully keeps of a true value is not
    empty. *)
Lemma text_column_truthy (bind_other : json -> pyresult (option string))
    (v : option json) (o : option string) :
  binds_truthfully bind_other →
  truthy_opt v = true →
  ContractService.text_column bind_other v = Returns o →
  truthy_text o = true.
Proof.
  intros Hb Hv. destruct v as [v|]; [|discriminate].
  destruct v; cbn [ContractService.text_column]; try (by apply Hb).
  - discriminate.
  - by intros [= <-].
Qed.

(** A service update keeps the table well formed and lets every record
    evolve. *)
Lemma service_update_evolves (bind_other : json -> pyresult (option string))
    (now : Z) (commit_ok : bool) (db : Db)
    (contract_id : Z) (new_status : string) (hv av : option json) :
  db_well_formed db →
  let db' := (ContractService.update_contract_status bind_other now commit_ok db
                contract_id new_status hv av).2 in
  db_well_formed db'
  ∧ ∀ k c, rows db !! k = Some c →
      ∃ c', rows db' !! k = Some c' ∧ evolves (binds_truthfully bind_other) c c'.
Proof.
  intros [Hn Hdb] db'. subst db'.
  destruct (ContractService.update_contract_status bind_other now commit_ok db
              contract_id new_status hv av) as [[] db'] eqn:E; simpl.
  - destruct (update_contract_status_written _ _ _ _ _ _ _ _ _ E)
      as (c0 & c1 & Hc0 & -> & _ & Hh & Ha & Hsame).
    assert (Hev : evolves (binds_truthfully bind_other) c0 c1).
    { split; [done|]. split; intros Hb Ht.
      - destruct (truthy_opt hv) eqn:Th; [by eapply text_column_truthy | congruence].
      - destruct (truthy_opt av) eqn:Ta; [by eapply text_column_truthy | congruence]. }
    split.
    + split; [done|]. intros k c. simpl.
      destruct (decide (k = contract_id)) as [->|Hne].
      * rewrite lookup_insert_eq. intros [= <-].
        destruct (Hdb _ _ Hc0) as [Hid ?]. split; [|done].
        destruct Hsame as (-> & _). done.
      * rewrite lookup_insert_ne by done. apply Hdb.
    + intros k c Hk. simpl. destruct (decide (k = contract_id)) as [->|Hne].
      * rewrite lookup_insert_eq. exists c1. split; [done|]. congruence.
      * rewrite lookup_insert_ne by done. exists c. split; [done | apply evolves_refl].
  - rewrite (update_contract_status_failure _ _ _ _ _ _ _ _ _ E).
    split; [done|]. intros k c Hk. exists c. split; [done | apply evolves_refl].
Qed.

Section RunFacts.
Variable json_loads : string -> pyresult json.
Variable json_dumps : json -> string.
Variable bind_other : json -> pyresult (option string).
Variable rules : RuleSet.

Lemma step_evolves (db : Db) (op : Lifecycle.operation) :
  db_well_formed db →
  db_well_formed (Lifecycle.step json_loads json_dumps bind_other rules db op)
  ∧ ∀ k c, rows db !! k = Some c →
      ∃ c', rows (Lifecycle.step json_loads json_dumps bind_other rules db op) !! k = Some c'
            ∧ evolves (binds_truthfully bind_other) c c'.
Proof.
  intros Hdb. destruct op as [payload reply now ok|k0 req now ok|k0 req now ok]; simpl.
  - split; [by apply generate_keeps_well_formed|].
    intros k c Hk.
    destruct (generate_contract_cases json_loads json_dumps bind_other rules
                reply now ok db payload) as [[e ->] | (c0 & -> & _)]; simpl.
    + exists c. split; [done | apply evolves_refl].
    + exists c. split; [|apply evolves_refl].
      destruct Hdb as [_ Hdb]. destruct (Hdb _ _ Hk).
      rewrite lookup_insert_ne by lia. done.
  - destruct (update_route_effect bind_other now ok db k0 req)
      as [->|(d & s & _ & _ & ->)].
    + split; [done|]. intros k c Hk. exists c. split; [done | apply evolves_refl].
    + by apply service_update_evolves.
  - destruct (confirm_route_effect bind_other now ok db k0 req) as [->|(hv & av & ->)].
    + split; [done|]. intros k c Hk. exists c. split; [done | apply evolves_refl].
    + by apply service_update_evolves.
Qed.

Lemma run_evolves (ops : list Lifecycle.operation) (db : Db) :
  db_well_formed db →
  db_well_formed (Lifecycle.run json_loads json_dumps bind_other rules ops db)
  ∧ ∀ k c, rows db !! k = Some c →
      ∃ c', rows (Lifecycle.run json_loads json_dumps bind_other rules ops db) !! k = Some c'
            ∧ evolves (binds_truthfully bind_other) c c'.
Proof.
  unfold Lifecycle.run. revert db.
  induction ops as [|op ops IH]; intros db Hdb; simpl.
  - split; [done|]. intros k c Hk. exists c. split; [done | apply evolves_refl].
  - destruct (step_evolves db op Hdb) as [Hwf Hstep].
    destruct (IH _ Hwf) as [Hwf' Hrun]. split; [done|].
    intros k c Hk. destruct (Hstep _ _ Hk) as (c1 & Hk1 & He1).
    destruct (Hrun _ _ Hk1) as (c2 & Hk2 & He2).
    exists c2. split; [done|]. by eapply evolves_trans.
Qed.

Lemma empty_db_well_formed : db_well_formed empty_db.
Proof. split; [done|]. intros k c. simpl. by rewrite lookup_empty. Qed.

(** X2.  Along every sequence of generations, status updates and
    deployment confirmations from the empty table, every record is
    stored under its own identity, the identities in use are positive
    and below the counter of the next insertion: a generation never
    reuses the identity of a stored record. *)
Theorem run_keeps_identities (ops : list Lifecycle.operation) :
  db_well_formed (Lifecycle.run json_loads json_dumps bind_other rules ops empty_db).
Proof. apply run_evolves, empty_db_well_formed. Qed.

(** X3.  No sequence of generations, status updates and deployment
    confirmations deletes a stored record or changes its generated
    content (request fields, code, script, tests, metadata, creation
    time).  When the store never keeps a true value as NULL or as the
    empty text, no such sequence empties a transaction hash or a
    deployed address once stored either. *)
Theorem records_persist (ops : list Lifecycle.operation) (db : Db) (k : Z) (c : Contract) :
  db_well_formed db →
  rows db !! k = Some c →
  ∃ c',
    rows (Lifecycle.run json_loads json_dumps bind_other rules ops db) !! k = Some c'
    ∧ same_content c c'
    ∧ (binds_truthfully bind_other →
       (truthy_text (transaction_hash c) = true → truthy_text (transaction_hash c') = true)
       ∧ (truthy_text (contract_address c) = true
          → truthy_text (contract_address c') = true)).
Proof.
  intros Hdb Hk. destruct (run_evolves ops db Hdb) as [_ H].
  destruct (H k c Hk) as (c' & Hk' & Hs & Hh & Ha). exists c'.
  split; [done|]. split; [done|]. intros Hb. split; [by apply Hh | by apply Ha].
Qed.

End RunFacts.

(** A store that refuses what is neither text nor null keeps no true
    value as NULL. *)
Lemma refuse_other_binds_truthfully : binds_truthfully Samples.refuse_other.
Proof. intros v o _. discriminate. Qed.

(** A confirmed record that is then set back to ['draft'] and generated
    beside: the hypotheses of [records_persist] hold there, and the hash
    is still stored. *)
Lemma records_persist_witness :
  ∃ c c',
    rows (Samples.run [Samples.generate;
                       Lifecycle.ConfirmDeployment 1 (Samples.confirm_request "0xabc") 200 true])
      !! 1 = Some c
    ∧ rows (Lifecycle.run Json.loads Samples.dumps_flat Samples.refuse_other Samples.rules
              [Lifecycle.SetStatus 1 (Samples.status_request "draft" None) 300 true;
               Samples.generate]
              (Samples.run [Samples.generate;
                            Lifecycle.ConfirmDeployment 1 (Samples.confirm_request "0xabc")
                              200 true]))
        !! 1 = Some c'
    ∧ truthy_text (transaction_hash c') = true.
Proof.
  pose (db := Samples.run [Samples.generate;
                           Lifecycle.ConfirmDeployment 1 (Samples.confirm_request "0xabc")
                             200 true]).
  assert (Hwf : db_well_formed db).
  { apply (run_evolves Json.loads Samples.dumps_flat Samples.refuse_other Samples.rules),
      empty_db_well_formed. }
  assert (Hc : ∃ c, rows db !! 1 = Some c ∧ truthy_text (transaction_hash c) = true).
  { eexists. split; [vm_compute; reflexivity | by vm_compute]. }
  destruct Hc as (c & Hc & Hh).
  destruct (records_persist Json.loads Samples.dumps_flat Samples.refuse_other Samples.rules
              [Lifecycle.SetStatus 1 (Samples.status_request "draft" None) 300 true;
               Samples.generate] db 1 c Hwf Hc) as (c' & Hc' & _ & Hp).
  exists c, c'. split; [exact Hc|]. split; [exact Hc'|].
  exact (proj1 (Hp refuse_other_binds_truthfully) Hh).
Defined.

(** ** The verdict of validation *)

Lemma is_empty_lower (s : string) : is_empty (lower s) = is_empty s.
Proof. by destruct s. Qed.

Lemma is_empty_false (s : string) : is_empty s = false ↔ s ≠ "".
Proof. destruct s; split; done. Qed.

Lemma str_in_keys {V : Type} (k : string) (table : list (string * V)) :
  str_in k (keys table) = true ↔ is_Some (table_get k table).
Proof.
  unfold str_in, keys. induction table as [|[k' v] table IH]; simpl.
  - split; [discriminate | by intros [? ?]].
  - destruct (String.eqb k k'); simpl; [split; eauto|done].
Qed.

Lemma get_lower_text (k : string) (payload : dict) (s : string) :
  dict_get k payload = Some (JString s) →
  ContractService.get_lower k payload = Returns (lower s).
Proof. unfold ContractService.get_lower. by intros ->. Qed.

(** A field whose lower-cased text was read and that is true holds a
    non-empty string. *)
Lemma truthy_text_field (k : string) (payload : dict) (j : string) :
  ContractService.get_lower k payload = Returns j →
  truthy_opt (dict_get k payload) = true →
  ∃ s, dict_get k payload = Some (JString s) ∧ s ≠ "" ∧ j = lower s.
Proof.
  unfold ContractService.get_lower.
  destruct (dict_get k payload) as [[| | | |s| |]|]; try discriminate.
  intros [= <-]. simpl. intros H. exists s. split; [done|]. split; [|done].
  intros ->. discriminate.
Qed.

Lemma missing_errors_nil (payload : dict) :
  ContractService.missing_errors payload = []
  ↔ Forall (fun f => truthy_opt (dict_get f payload) = true) required_request_fields.
Proof.
  unfold ContractService.missing_errors, required_request_fields. simpl.
  rewrite !Forall_cons, Forall_nil.
  destruct (truthy_opt (dict_get "jurisdiction" payload)),
    (truthy_opt (dict_get "contract_type" payload)),
    (truthy_opt (dict_get "requirements" payload)); simpl; split; try done;
    intros (? & ? & ? & _); discriminate.
Qed.

Lemma has_of_truthy (k : string) (payload : dict) :
  truthy_opt (dict_get k payload) = true → dict_has k payload = true.
Proof. unfold dict_has. by destruct (dict_get k payload). Qed.

Lemma jurisdiction_errors_nil (rules : RuleSet) (j : string) (payload : dict) :
  ContractService.jurisdiction_errors rules j payload = []
  ↔ ∀ jr, table_get j (jurisdictions rules) = Some jr →
      Forall (fun f => truthy_opt (dict_get f payload) = true) (jr_required_fields jr).
Proof.
  unfold ContractService.jurisdiction_errors.
  destruct (table_get j (jurisdictions rules)) as [jr|]; [|split; [discriminate|done]].
  split.
  - intros H jr' [= <-]. induction (jr_required_fields jr) as [|f fs IH]; [constructor|].
    cbn [flat_map] in H. apply app_eq_nil in H as [H1 H2].
    constructor; [|by apply IH].
    destruct (truthy_opt (dict_get f payload)) eqn:E; [done|].
    rewrite orb_true_r in H1. discriminate.
  - intros H. specialize (H jr eq_refl).
    induction H as [|f fs Hf _ IH]; [done|]. cbn [flat_map].
    by rewrite (has_of_truthy _ _ Hf), Hf, IH.
Qed.

Section VerdictFacts.
Variable rules : RuleSet.

(** The error list is empty exactly when each rule is met. *)
Lemma request_errors_nil (payload : dict) (j ct : string) :
  ContractService.get_lower "jurisdiction" payload = Returns j →
  ContractService.get_lower "contract_type" payload = Returns ct →
  request_errors rules payload j ct = []
  ↔ ∃ s t jr,
      dict_get "jurisdiction" payload = Some (JString s) ∧ s ≠ ""
      ∧ dict_get "contract_type" payload = Some (JString t) ∧ t ≠ ""
      ∧ truthy_opt (dict_get "requirements" payload) = true
      ∧ table_get (lower s) (jurisdictions rules) = Some jr
      ∧ is_Some (table_get (lower t) (contract_types rules))
      ∧ Forall (fun f => truthy_opt (dict_get f payload) = true) (jr_required_fields jr).
Proof.
  intros Hj Hct. unfold request_errors. split.
  - intros H. apply app_eq_nil in H as [H HJ]. apply app_eq_nil in H as [H HB].
    apply app_eq_nil in H as [HM HA].
    apply missing_errors_nil in HM. unfold required_request_fields in HM.
    rewrite !Forall_cons in HM. destruct HM as (Tj & Tc & Tr & _).
    destruct (truthy_text_field _ _ _ Hj Tj) as (s & Hs & Hne & ->).
    destruct (truthy_text_field _ _ _ Hct Tc) as (t & Ht & Hnt & ->).
    rewrite is_empty_lower in HA, HB.
    rewrite (proj2 (is_empty_false s) Hne) in HA.
    rewrite (proj2 (is_empty_false t) Hnt) in HB.
    destruct (str_in (lower s) (keys (jurisdictions rules))) eqn:Es; [|discriminate].
    destruct (str_in (lower t) (keys (contract_types rules))) eqn:Et; [|discriminate].
    apply str_in_keys in Es as [jr Hjr]. apply str_in_keys in Et.
    exists s, t, jr. repeat (split; [done|]).
    by apply (proj1 (jurisdiction_errors_nil rules (lower s) payload) HJ).
  - intros (s & t & jr & Hs & Hne & Ht & Hnt & Tr & Hjr & Hcr & Hreq).
    rewrite (get_lower_text _ _ _ Hs) in Hj. injection Hj as <-.
    rewrite (get_lower_text _ _ _ Ht) in Hct. injection Hct as <-.
    assert (HM : ContractService.missing_errors payload = []).
    { apply missing_errors_nil. unfold required_request_fields.
      rewrite !Forall_cons, Hs, Ht. simpl.
      rewrite (proj2 (is_empty_false s) Hne), (proj2 (is_empty_false t) Hnt). done. }
    assert (HJ : ContractService.jurisdiction_errors rules (lower s) payload = []).
    { apply jurisdiction_errors_nil. intros jr'. rewrite Hjr. by intros [= <-]. }
    rewrite HM, HJ.
    rewrite (proj2 (str_in_keys (lower s) (jurisdictions rules))) by (by rewrite Hjr).
    rewrite (proj2 (str_in_keys (lower t) (contract_types rules))) by done.
    by rewrite !andb_false_r.
Qed.

Lemma length_eqb_nil {A : Type} (l : list A) : (length l =? 0)%nat = true ↔ l = [].
Proof. by destruct l. Qed.

(** X4.  When [validate_request] answers, the request is valid exactly
    when its jurisdiction and contract type are non-empty strings whose
    lower-cased forms are keys of the rule tables, its requirements are
    present and not empty, and every field the jurisdiction requires is
    present and not empty. *)
Theorem validation_verdict (payload : dict) (r : ValidationResult) :
  ContractService.validate_request rules payload = Returns r →
  valid r = true
  ↔ ∃ s t jr,
      dict_get "jurisdiction" payload = Some (JString s) ∧ s ≠ ""
      ∧ dict_get "contract_type" payload = Some (JString t) ∧ t ≠ ""
      ∧ truthy_opt (dict_get "requirements" payload) = true
      ∧ table_get (lower s) (jurisdictions rules) = Some jr
      ∧ is_Some (table_get (lower t) (contract_types rules))
      ∧ Forall (fun f => truthy_opt (dict_get f payload) = true) (jr_required_fields jr).
Proof.
  intros Hr.
  destruct (validate_request_inv rules payload r Hr)
    as (j & ct & w1 & w2 & Hj & Hct & _ & _ & ->).
  cbn [valid]. rewrite length_eqb_nil. by apply request_errors_nil.
Qed.

End VerdictFacts.

(** The sample request, at which the hypothesis of [validation_verdict]
    holds; it is valid. *)
Lemma validation_verdict_witness :
  ∃ r, ContractService.validate_request Samples.rules Samples.payload = Returns r
       ∧ valid r = true.
Proof.
  eexists. split; [reflexivity|].
  apply (proj2 (validation_verdict Samples.rules Samples.payload _ eq_refl)).
  exists "India", "escrow", (mkJurisdictionRule "Indian Contract Act, 1872" [] [] []).
  repeat split; done.
Defined.

(** ** Validation and generation together *)

Lemma text_column_text (bind_other : json -> pyresult (option string)) (o : option json) :
  text_or_absent o = true →
  ContractService.text_column bind_other o = Returns (text_of o).
Proof. by destruct o as [[]|]. Qed.

Section PipelineFacts.
Variable json_loads : string -> pyresult json.
Variable json_dumps : json -> string.
Variable bind_other : json -> pyresult (option string).

(** Without rules no request is valid. *)
Lemma empty_rules_invalid (payload : dict) (r : ValidationResult) :
  ContractService.validate_request empty_rules payload = Returns r → valid r = false.
Proof.
  intros Hr.
  destruct (validate_request_inv empty_rules payload r Hr)
    as (j & ct & w1 & w2 & Hj & Hct & _ & _ & ->).
  cbn [valid]. destruct (length _ =? 0)%nat eqn:E; [|done].
  apply length_eqb_nil, (request_errors_nil empty_rules payload j ct Hj Hct) in E.
  destruct E as (s & t & jr & _ & _ & _ & _ & _ & Hjr & _). discriminate.
Qed.

(** X5.  When the rule file could not be loaded (the empty rule set),
    no request is valid and every generation raises and stores nothing,
    whatever the request and the answer of the remote model. *)
Theorem no_rules_no_contracts (reply : pyresult string) (now : Z * Z) (commit_ok : bool)
    (db : Db) (payload : dict) :
  (∀ r, ContractService.validate_request empty_rules payload = Returns r → valid r = false)
  ∧ ∃ e,
      ContractService.generate_contract json_loads json_dumps bind_other empty_rules
        reply now commit_ok db payload = (Raises e, db).
Proof.
  split; [apply empty_rules_invalid|].
  unfold ContractService.generate_contract.
  destruct (ContractService.validate_request empty_rules payload) as [r|e] eqn:E;
    [|by eexists].
  rewrite (empty_rules_invalid payload r E). simpl. by eexists.
Qed.

Variable rules : RuleSet.

(** X6.  A record that generation returns holds the jurisdiction and
    the contract type exactly as the request spelled them, while what
    validation looked up in the rule tables is their lower-cased
    form. *)
Theorem generation_keeps_request_case (reply : pyresult string) (now : Z * Z)
    (commit_ok : bool) (db db' : Db) (payload : dict) (c : Contract) :
  ContractService.generate_contract json_loads json_dumps bind_other rules reply now
    commit_ok db payload = (Returns c, db') →
  ∃ s t,
    dict_get "jurisdiction" payload = Some (JString s)
    ∧ jurisdiction c = Some s
    ∧ is_Some (table_get (lower s) (jurisdictions rules))
    ∧ dict_get "contract_type" payload = Some (JString t)
    ∧ contract_type c = Some t
    ∧ is_Some (table_get (lower t) (contract_types rules)).
Proof.
  unfold ContractService.generate_contract.
  destruct (ContractService.validate_request rules payload) as [r|e] eqn:Hr;
    [|discriminate].
  destruct (valid r) eqn:Hv; simpl; [|discriminate].
  destruct (validate_request_inv rules payload r Hr)
    as (j & ct & w1 & w2 & Hj & Hct & _ & _ & ->).
  cbn [valid] in Hv.
  apply length_eqb_nil, (request_errors_nil rules payload j ct Hj Hct) in Hv.
  destruct Hv as (s & t & jr & Hs & _ & Ht & _ & _ & Hjr & Hcr & _).
  destruct (GeminiClient.generate_contract json_loads reply) as [result|]; simpl;
    [|discriminate].
  destruct (ContractService.new_contract json_dumps bind_other db now payload result)
    as [c0|] eqn:Hc; simpl; [|discriminate].
  destruct commit_ok; simpl; [|discriminate].
  intros [= -> _]. exists s, t.
  unfold ContractService.new_contract in Hc. rewrite Hs, Ht in Hc. simpl in Hc.
  repeat match type of Hc with
         | (mbind _ ?m) = Returns _ => destruct m; simpl in Hc; [|discriminate]
         end.
  injection Hc as <-. simpl. by rewrite Hjr.
Qed.

(** X7.  When the request is valid, its copied fields are strings or
    absent, the commit is accepted and the decoder raises its decode
    error on the candidate text of the remote model's answer,
    generation succeeds all the same: it stores a draft that holds the
    fixed fallback contract, script and tests, the serialized fallback
    metadata, the fields of the request, and as creation and update
    times the two readings of the clock. *)
Theorem undecodable_reply_stores_fallback (text : string) (now : Z * Z) (db : Db)
    (payload : dict) (r : ValidationResult) :
  ContractService.validate_request rules payload = Returns r → valid r = true →
  Forall (fun k => text_or_absent (dict_get k payload) = true) copied_fields →
  json_loads (GeminiClient.json_text_of text) = Raises JSONDecodeError →
  let c :=
    mkContract (next_id db)
      (text_of (dict_get "jurisdiction" payload))
      (text_of (dict_get "contract_type" payload))
      (text_of (dict_get "requirements" payload))
      (text_of (dict_get "description" payload))
      (text_of (dict_get "payee_address" payload))
      (text_of (dict_get "payer_address" payload))
      (Some GeminiClient.fallback_solidity_code)
      (Some GeminiClient.fallback_deploy_script)
      (Some GeminiClient.fallback_tests)
      (Some (json_dumps (JObject GeminiClient.fallback_metadata)))
      "draft" None None now.1 now.2 in
  ContractService.generate_contract json_loads json_dumps bind_other rules
    (Returns text) now true db payload
  = (Returns c, mkDb (<[next_id db := c]> (rows db)) (next_id db + 1)).
Proof.
  intros Hr Hv Hcopy Hl c.
  unfold copied_fields in Hcopy. rewrite !Forall_cons in Hcopy.
  destruct Hcopy as (H1 & H2 & H3 & H4 & H5 & H6 & _).
  unfold ContractService.generate_contract. rewrite Hr, Hv.
  unfold GeminiClient.generate_contract, GeminiClient._parse_response,
    GeminiClient.parse_body, try_except.
  cbn [negb mbind pyresult_bind]. rewrite Hl. cbn [mbind pyresult_bind].
  unfold ContractService.new_contract.
  rewrite !text_column_text by done. reflexivity.
Qed.

End PipelineFacts.

(** The sample request with a prose answer, at which the hypotheses of
    [undecodable_reply_stores_fallback] hold. *)
Lemma undecodable_reply_stores_fallback_witness :
  ∃ c,
    (ContractService.generate_contract Json.loads Samples.dumps_flat Samples.refuse_other
       Samples.rules (Returns Samples.prose) (100, 101) true empty_db Samples.payload).1
    = Returns c
    ∧ solidity_code c = Some GeminiClient.fallback_solidity_code.
Proof.
  assert (Hcopy : Forall (fun k => text_or_absent (dict_get k Samples.payload) = true)
                    copied_fields) by (unfold copied_fields; repeat constructor).
  assert (Hl : Json.loads (GeminiClient.json_text_of Samples.prose) = Raises JSONDecodeError)
    by (by vm_compute).
  pose proof (undecodable_reply_stores_fallback Json.loads Samples.dumps_flat
                Samples.refuse_other Samples.rules Samples.prose (100, 101) empty_db
                Samples.payload _ eq_refl eq_refl Hcopy Hl) as H.
  cbv zeta in H. eexists. split; [by rewrite H | reflexivity].
Defined.

(** The sample request, valid under the sample rules, at which the
    hypothesis of [no_rules_no_contracts] holds: without rules it is
    not valid. *)
Lemma no_rules_no_contracts_witness :
  ∃ r,
    ContractService.validate_request empty_rules Samples.payload = Returns r
    ∧ valid r = false.
Proof.
  assert (H : ∃ r, ContractService.validate_request empty_rules Samples.payload = Returns r)
    by (eexists; vm_compute; reflexivity).
  destruct H as [r H]. exists r. split; [exact H|].
  exact (proj1 (no_rules_no_contracts Json.loads Samples.dumps_flat Samples.refuse_other
                  (Returns "") (0, 0) true empty_db Samples.payload) r H).
Defined.

(** A generation with the sample rules, at which the hypothesis of
    [generation_keeps_request_case] holds: the record keeps the spelling
    "India". *)
Lemma generation_keeps_request_case_witness :
  ∃ c db',
    ContractService.generate_contract Json.loads Samples.dumps_flat Samples.refuse_other
      Samples.rules (Returns (json_block Samples.artifact_text)) (100, 101) true empty_db
      Samples.payload = (Returns c, db')
    ∧ jurisdiction c = Some "India".
Proof.
  assert (H : ∃ c db',
             ContractService.generate_contract Json.loads Samples.dumps_flat
               Samples.refuse_other Samples.rules
               (Returns (json_block Samples.artifact_text)) (100, 101) true empty_db
               Samples.payload = (Returns c, db')).
  { eexists _, _. vm_compute. reflexivity. }
  destruct H as (c & db' & H). exists c, db'. split; [exact H|].
  destruct (generation_keeps_request_case Json.loads Samples.dumps_flat
              Samples.refuse_other Samples.rules _ _ _ _ _ _ _ H)
    as (s & t & Hs & Hc & _).
  rewrite Hc. f_equal. by injection Hs as <-.
Defined.

(** ** The generation and validation endpoints *)

Section EndpointFacts.
Variable json_loads : string -> pyresult json.
Variable json_dumps : json -> string.
Variable bind_other : json -> pyresult (option string).
Variable isoformat : Z -> string.
Variable library_text : py_exn -> string.
Variable rules : RuleSet.

Lemma truthy_object (d : dict) : d ≠ [] → truthy (JObject d) = true.
Proof. by destruct d. Qed.

(** X8.  For a non-empty JSON object that validation finds invalid,
    [POST /validate] answers 200 with the verdict, and [POST /generate]
    answers 400 with all the validation messages joined and stores
    nothing, whatever the remote model would answer. *)
Theorem invalid_request_is_refused (d : dict) (v : ValidationResult)
    (reply : pyresult string) (now : Z * Z) (commit_ok : bool) (db : Db) :
  d ≠ [] →
  ContractService.validate_request rules d = Returns v →
  valid v = false →
  Contracts.validate_contract_request rules (JsonBody (JObject d))
  = mkResponse 200 [("success", JBool true); ("validation", Contracts.validation_json v)]
  ∧ Contracts.generate_contract json_loads json_dumps bind_other isoformat library_text
      rules reply now commit_ok db (JsonBody (JObject d))
    = (error_response 400 ("Validation failed: " +:+ join ", " (errors v)), db).
Proof.
  intros Hd Hv Hinv.
  unfold Contracts.validate_contract_request, Contracts.generate_contract. simpl get_json.
  cbn iota. rewrite (truthy_object d Hd). cbn [negb Contracts.as_dict mbind pyresult_bind].
  rewrite Hv. split; [done|].
  unfold ContractService.generate_contract. rewrite Hv, Hinv. reflexivity.
Qed.

(** The client wraps a failed call and a refused answer alike. *)
Lemma client_hard_failure (reply : pyresult string) :
  (∃ e, reply = Raises e)
  ∨ (∃ text a,
       reply = Returns text
       ∧ json_loads (GeminiClient.json_text_of text) = Returns a
       ∧ complete_artifact a = false) →
  ∃ e, GeminiClient.generate_contract json_loads reply
       = Raises (PyException "Contract generation failed: " e).
Proof.
  intros [[e ->] | (text & a & -> & Hl & Hc)]; [by eexists|].
  unfold GeminiClient.generate_contract, GeminiClient._parse_response,
    GeminiClient.parse_body, try_except.
  cbn [mbind pyresult_bind]. rewrite Hl.
  destruct (checks_refuse a Hc) as (e & Hne & He).
  change (x ← Returns a; _) with
    (_ ← GeminiClient.check_required GeminiClient.required_fields a;
     metadata ← getitem a "metadata";
     if negb (is_dict metadata) then Raises (ValueError "Metadata must be a dictionary")
     else Returns a).
  rewrite He. destruct e; try done; by eexists.
Qed.

(** X9.  For a valid request, a failure of the call to the remote model
    and an answer that decodes to something other than a complete
    artifact both abort the generation: [POST /generate] answers 500
    with the generic message, no fallback is produced and nothing is
    stored. *)
Theorem hard_failure_aborts_generation (d : dict) (v : ValidationResult)
    (reply : pyresult string) (now : Z * Z) (commit_ok : bool) (db : Db) :
  d ≠ [] →
  ContractService.validate_request rules d = Returns v →
  valid v = true →
  ((∃ e, reply = Raises e)
   ∨ (∃ text a,
        reply = Returns text
        ∧ json_loads (GeminiClient.json_text_of text) = Returns a
        ∧ complete_artifact a = false)) →
  Contracts.generate_contract json_loads json_dumps bind_other isoformat library_text
    rules reply now commit_ok db (JsonBody (JObject d))
  = (error_response 500 "Internal server error", db).
Proof.
  intros Hd Hv Hval Hhard.
  destruct (client_hard_failure reply Hhard) as [e He].
  unfold Contracts.generate_contract. simpl get_json. cbn iota.
  rewrite (truthy_object d Hd). cbn [negb Contracts.as_dict].
  unfold ContractService.generate_contract. rewrite Hv, Hval, He. reflexivity.
Qed.

(** X10.  Whatever the request, [POST /generate] either answers 400 or
    500 and leaves the table as it was, or has stored exactly one new
    draft under the next identity.  In that case it answers 201 when
    the serialized metadata of the new record can be read back; when
    reading it back raises, it answers 400 for a [ValueError] (a decode
    error is one) and 500 otherwise, with the record stored.  So the
    endpoint answers 201, 400 or 500 and nothing else. *)
Theorem generate_endpoint_outcome (reply : pyresult string) (now : Z * Z) (commit_ok : bool)
    (db : Db) (req : request) :
  let outcome :=
    Contracts.generate_contract json_loads json_dumps bind_other isoformat library_text
      rules reply now commit_ok db req in
  (((status_code outcome.1 = 400 ∨ status_code outcome.1 = 500) ∧ outcome.2 = db)
   ∨ (∃ c,
        outcome.2 = mkDb (<[next_id db := c]> (rows db)) (next_id db + 1)
        ∧ status c = "draft"
        ∧ ((status_code outcome.1 = 201
            ∧ ∃ m, Models.metadata_of json_loads c = Returns m)
           ∨ (∃ e, Models.metadata_of json_loads c = Raises e
                   ∧ status_code outcome.1
                     = (if Contracts.is_value_error e then 400 else 500)))))
  ∧ (status_code outcome.1 = 201 ∨ status_code outcome.1 = 400
     ∨ status_code outcome.1 = 500).
Proof.
  intros outcome. subst outcome. unfold Contracts.generate_contract.
  destruct req as [| |payload]; simpl get_json; cbn iota;
    [(split; [left|]; auto)..|].
  destruct (truthy payload); cbn [negb]; [|split; [left|]; auto].
  destruct payload as [| | | | | |d]; cbn [Contracts.as_dict];
    [(split; [left|]; auto)..|].
  destruct (generate_contract_cases json_loads json_dumps bind_other rules reply now
              commit_ok db d) as [[e ->] | (c & -> & _ & Hs & _)].
  - cbn [mbind pyresult_bind].
    destruct (Contracts.is_value_error e); (split; [left|]; auto).
  - cbn [mbind pyresult_bind snd fst]. unfold Models.to_dict.
    destruct (Models.metadata_of json_loads c) as [m|e] eqn:Em; cbn [mbind pyresult_bind].
    + split; [|by left]. right. exists c. split; [done|]. split; [done|].
      left. split; [done | by exists m].
    + split.
      * right. exists c.
        split; [by destruct (Contracts.is_value_error e)|]. split; [done|].
        right. exists e. split; [done|]. by destruct (Contracts.is_value_error e).
      * destruct (Contracts.is_value_error e); auto.
Qed.

End EndpointFacts.

(** A request for an unknown jurisdiction, at which the hypotheses of
    [invalid_request_is_refused] hold. *)
Lemma invalid_request_is_refused_witness :
  ∃ v msg,
    ContractService.validate_request Samples.rules Samples.unknown_jurisdiction_payload
      = Returns v
    ∧ valid v = false
    ∧ Contracts.generate_contract Json.loads Samples.dumps_flat Samples.refuse_other
        Samples.iso Samples.library_text Samples.rules
        (Returns (json_block Samples.artifact_text)) (100, 101) true empty_db
        (JsonBody (JObject Samples.unknown_jurisdiction_payload))
      = (error_response 400 msg, empty_db).
Proof.
  pose (v := mkValidationResult false
                ["Invalid jurisdiction. Valid options: india, eu"] []).
  exists v. eexists. split; [reflexivity|]. split; [reflexivity|].
  exact (proj2 (invalid_request_is_refused Json.loads Samples.dumps_flat
                  Samples.refuse_other Samples.iso Samples.library_text Samples.rules
                  Samples.unknown_jurisdiction_payload v
                  (Returns (json_block Samples.artifact_text)) (100, 101) true empty_db
                  ltac:(discriminate) eq_refl eq_refl)).
Defined.

(** The sample request with a failed call to the model, at which the
    hypotheses of [hard_failure_aborts_generation] hold. *)
Lemma hard_failure_aborts_generation_witness :
  Contracts.generate_contract Json.loads Samples.dumps_flat Samples.refuse_other
    Samples.iso Samples.library_text Samples.rules
    (Raises (OtherError "ServiceUnavailable")) (100, 101) true empty_db
    (JsonBody (JObject Samples.payload))
  = (error_response 500 "Internal server error", empty_db).
Proof.
  apply (hard_failure_aborts_generation Json.loads Samples.dumps_flat
           Samples.refuse_other Samples.iso Samples.library_text Samples.rules
           Samples.payload (mkValidationResult true [] [address_warning "payee_address"])).
  - discriminate.
  - reflexivity.
  - reflexivity.
  - left. by eexists.
Defined.

(** ** More on validation *)

Section MoreValidationFacts.
Variable rules : RuleSet.

Lemma missing_error_in_missing (payload : dict) (f : string) :
  f ∈ required_request_fields →
  missing_error f ∈ ContractService.missing_errors payload
  ↔ truthy_opt (dict_get f payload) = false.
Proof.
  unfold required_request_fields, ContractService.missing_errors.
  rewrite !elem_of_cons, elem_of_nil. cbn [flat_map].
  rewrite !elem_of_app, elem_of_nil.
  intros [-> | [-> | [-> | []]]];
    destruct (truthy_opt (dict_get "jurisdiction" payload)),
      (truthy_opt (dict_get "contract_type" payload)),
      (truthy_opt (dict_get "requirements" payload)); cbn [negb];
    rewrite ?elem_of_nil, ?list_elem_of_singleton; unfold missing_error;
    cbn [String.append]; intuition (try discriminate).
Qed.

(** X11.  Validation has no early exit on missing fields: when it
    answers, the error list holds the missing-field message of
    jurisdiction, of contract type and of requirements exactly for those
    of the three that are absent or false. *)
Theorem missing_fields_all_reported (payload : dict) (r : ValidationResult) (f : string) :
  ContractService.validate_request rules payload = Returns r →
  f ∈ required_request_fields →
  missing_error f ∈ errors r ↔ truthy_opt (dict_get f payload) = false.
Proof.
  intros Hr Hf.
  destruct (validate_request_inv rules payload r Hr)
    as (j & ct & w1 & w2 & _ & _ & _ & _ & ->).
  cbn [errors]. rewrite <- (missing_error_in_missing payload f Hf).
  unfold request_errors. rewrite !elem_of_app.
  assert (HJ : missing_error f ∉ ContractService.jurisdiction_errors rules j payload).
  { intros H.
    pose proof (jurisdiction_errors_Forall rules (fun e => e ≠ missing_error f) j payload)
      as HF.
    rewrite Forall_forall in HF. by apply (HF ltac:(discriminate) _ H). }
  split; [|tauto].
  intros [[[H|H]|H]|H]; [done| | |done].
  - destruct (negb (is_empty j) && _); [|by apply elem_of_nil in H].
    apply list_elem_of_singleton in H. discriminate.
  - destruct (negb (is_empty ct) && _); [|by apply elem_of_nil in H].
    apply list_elem_of_singleton in H. discriminate.
Qed.

(** X12.  Validation does not depend on the case of the jurisdiction or
    of the contract type: replacing either by another non-empty string
    with the same lower-cased form gives the same result, errors and
    warnings alike. *)
Theorem validation_ignores_case (payload : dict) (k s s' : string) :
  k ∈ ["jurisdiction"; "contract_type"] →
  dict_get k payload = Some (JString s) → s ≠ "" → s' ≠ "" →
  lower s' = lower s →
  ContractService.validate_request rules (dict_set k (JString s') payload)
  = ContractService.validate_request rules payload.
Proof.
  intros Hk Hget Hs Hs' Hlow.
  assert (Hlk : ContractService.get_lower k (dict_set k (JString s') payload)
                = ContractService.get_lower k payload).
  { rewrite (get_lower_text k payload s Hget).
    rewrite (get_lower_text k _ s' (dict_get_set_eq _ _ _)). by rewrite Hlow. }
  assert (Hother : ∀ k', k' ≠ k →
            ContractService.get_lower k' (dict_set k (JString s') payload)
            = ContractService.get_lower k' payload).
  { intros k' Hne. unfold ContractService.get_lower. by rewrite dict_get_set_ne. }
  assert (Hw : ∀ f, f ≠ k →
            ContractService.address_warnings f (dict_set k (JString s') payload)
            = ContractService.address_warnings f payload).
  { intros f Hne. unfold ContractService.address_warnings. by rewrite dict_get_set_ne. }
  rewrite !validate_request_unfold.
  assert (Hj : ContractService.get_lower "jurisdiction" (dict_set k (JString s') payload)
               = ContractService.get_lower "jurisdiction" payload).
  { destruct (decide ("jurisdiction" = k)) as [<-|Hne]; [done | by apply Hother]. }
  assert (Hc : ContractService.get_lower "contract_type" (dict_set k (JString s') payload)
               = ContractService.get_lower "contract_type" payload).
  { destruct (decide ("contract_type" = k)) as [<-|Hne]; [done | by apply Hother]. }
  assert (Hne1 : "payee_address" ≠ k).
  { intros <-. revert Hk. rewrite !elem_of_cons, elem_of_nil.
    intros [?|[?|[]]]; discriminate. }
  assert (Hne2 : "payer_address" ≠ k).
  { intros <-. revert Hk. rewrite !elem_of_cons, elem_of_nil.
    intros [?|[?|[]]]; discriminate. }
  rewrite Hj, Hc, (Hw _ Hne1), (Hw _ Hne2).
  destruct (ContractService.get_lower "jurisdiction" payload) as [j|]; [|done].
  destruct (ContractService.get_lower "contract_type" payload) as [ct|]; [|done].
  cbn [mbind pyresult_bind].
  by rewrite (request_errors_replaced k s s' payload Hget Hs Hs').
Qed.

End MoreValidationFacts.

(** The sample request, at which the hypotheses of
    [missing_fields_all_reported] and of [validation_ignores_case]
    hold. *)
Lemma missing_fields_all_reported_witness :
  ∃ r,
    ContractService.validate_request Samples.rules
      [("jurisdiction", JString "india")] = Returns r
    ∧ missing_error "requirements" ∈ errors r.
Proof.
  eexists. split; [reflexivity|].
  apply (proj2 (missing_fields_all_reported Samples.rules
                  [("jurisdiction", JString "india")] _ "requirements" eq_refl
                  ltac:(unfold required_request_fields;
                        rewrite !elem_of_cons; tauto))).
  reflexivity.
Defined.

Lemma validation_ignores_case_witness :
  ContractService.validate_request Samples.rules
    (dict_set "jurisdiction" (JString "INDIA") Samples.payload)
  = ContractService.validate_request Samples.rules Samples.payload.
Proof.
  apply (validation_ignores_case Samples.rules Samples.payload "jurisdiction"
           "India" "INDIA").
  - apply list_elem_of_here.
  - reflexivity.
  - discriminate.
  - discriminate.
  - reflexivity.
Defined.

(** ** The address check and letter case *)

Lemma lower_char_hex (c : ascii) : is_hex_digit c = true → is_hex_digit (lower_char c) = true.
Proof. destruct c as [[] [] [] [] [] [] [] []]; by vm_compute. Qed.

Lemma upper_char_hex (c : ascii) : is_hex_digit c = true → is_hex_digit (upper_char c) = true.
Proof. destruct c as [[] [] [] [] [] [] [] []]; by vm_compute. Qed.

Lemma all_hex_map (f : ascii -> ascii) (s : string) :
  (∀ c, is_hex_digit c = true → is_hex_digit (f c) = true) →
  all_chars is_hex_digit s = true → all_chars is_hex_digit (map_chars f s) = true.
Proof.
  intros Hf. induction s as [|c s IH]; [done|]. cbn [all_chars map_chars].
  rewrite !andb_true_iff. intros [? ?]. auto.
Qed.

Lemma length_map_chars (f : ascii -> ascii) (s : string) :
  String.length (map_chars f s) = String.length s.
Proof. induction s as [|c s IH]; [done|]. cbn [map_chars String.length]. by rewrite IH. Qed.

(** X13.  The address check reads hexadecimal digits in either case but
    the prefix in lower case only: a valid address stays valid when
    lower-cased, and no address that begins with [0X] is valid, so the
    upper-cased form of a valid address is not. *)
Theorem address_check_and_case (a : string) :
  (ContractService._is_valid_ethereum_address a = true →
   ContractService._is_valid_ethereum_address (lower a) = true
   ∧ ContractService._is_valid_ethereum_address (upper a) = false)
  ∧ (startswith "0X" a = true → ContractService._is_valid_ethereum_address a = false).
Proof.
  split.
  - intros H. apply valid_address_shape in H as (digits & -> & Hl & Hh). split.
    + apply valid_address_shape. exists (lower digits).
      split; [reflexivity|]. split.
      * unfold lower. by rewrite length_map_chars.
      * apply all_hex_map; [apply lower_char_hex | done].
    + reflexivity.
  - intros H. unfold ContractService._is_valid_ethereum_address.
    destruct a as [|c1 [|c2 a]]; cbn [startswith] in H;
      rewrite ?andb_false_r in H; try discriminate.
    rewrite !andb_true_iff, !Ascii.eqb_eq in H.
    destruct H as (<- & <- & _). reflexivity.
Qed.

(** The well-formed sample address, at which the hypothesis of
    [address_check_and_case] holds. *)
Lemma address_check_and_case_witness :
  ContractService._is_valid_ethereum_address Samples.good_address = true
  ∧ ContractService._is_valid_ethereum_address (lower Samples.good_address) = true.
Proof.
  split; [reflexivity|].
  exact (proj1 (proj1 (address_check_and_case Samples.good_address) eq_refl)).
Defined.

(** ** Gas estimation, every input *)

Lemma resolve_gas_bounds (ct j : string) :
  1500000 ≤ Deploy.resolve_gas ct j ≤ 2200000
  ∧ Deploy.resolve_gas ct "base" ≤ Deploy.resolve_gas ct j.
Proof.
  unfold Deploy.resolve_gas, Deploy.gas_estimates. simpl.
  destruct (String.eqb ct "escrow"); [|destruct (String.eqb ct "insurance");
    [|destruct (String.eqb ct "settlement")]]; simpl;
    destruct (String.eqb j "base"), (String.eqb j "india"), (String.eqb j "eu"),
      (String.eqb j "us"); simpl; lia.
Qed.

(** X14.  Every gas estimate lies between 1,500,000 and 2,200,000, and
    the estimate of a contract type for any jurisdiction is at least the
    base estimate of that type; whenever [POST /deploy/estimate-gas]
    answers 200 its estimate is such a number. *)
Theorem gas_estimate_bounds (ct j : string) (req : request) :
  1500000 ≤ Deploy.resolve_gas ct j ≤ 2200000
  ∧ Deploy.resolve_gas ct "base" ≤ Deploy.resolve_gas ct j
  ∧ (status_code (Deploy.estimate_gas req) = 200 →
     ∃ g, dict_get "estimated_gas" (body (Deploy.estimate_gas req)) = Some (JInt g)
          ∧ 1500000 ≤ g ≤ 2200000).
Proof.
  destruct (resolve_gas_bounds ct j) as [H1 H2]. split; [done|]. split; [done|].
  unfold Deploy.estimate_gas.
  destruct req as [| |payload]; simpl get_json; cbn iota; try discriminate.
  cbn [mbind pyresult_bind].
  destruct (Deploy.payload_lower "contract_type" payload) as [c|]; [|discriminate].
  cbn [mbind pyresult_bind].
  destruct (Deploy.payload_lower "jurisdiction" payload) as [x|]; [|discriminate].
  cbn [mbind pyresult_bind]. intros _. eexists. split; [reflexivity|].
  apply resolve_gas_bounds.
Qed.

(** A request for [Insurance] in [EU], at which the hypothesis of
    [gas_estimate_bounds] holds. *)
Lemma gas_estimate_bounds_witness :
  ∃ g,
    dict_get "estimated_gas"
      (body (Deploy.estimate_gas
               (JsonBody (JObject [("contract_type", JString "Insurance");
                                   ("jurisdiction", JString "EU")])))) = Some (JInt g)
    ∧ 1500000 ≤ g ≤ 2200000.
Proof.
  exact (proj2 (proj2 (gas_estimate_bounds "" ""
                         (JsonBody (JObject [("contract_type", JString "Insurance");
                                             ("jurisdiction", JString "EU")]))))
           eq_refl).
Defined.

Lemma lower_char_idempotent (c : ascii) : lower_char (lower_char c) = lower_char c.
Proof. destruct c as [[] [] [] [] [] [] [] []]; by vm_compute. Qed.

Lemma lower_idempotent (s : string) : lower (lower s) = lower s.
Proof.
  unfold lower. induction s as [|c s IH]; [done|]. cbn [map_chars].
  by rewrite lower_char_idempotent, IH.
Qed.

(** X15.  [POST /deploy/estimate-gas] answers 400 to a body that is not
    JSON and 500 to a JSON body that is not an object or whose contract
    type or jurisdiction is not a string; for an object it reads both
    fields without regard to case, takes an absent field for the empty
    string, and with the contract type absent answers 1,500,000. *)
Theorem estimate_gas_endpoint (d : dict) :
  status_code (Deploy.estimate_gas NotJson) = 400
  ∧ (∀ payload, is_dict payload = false →
       status_code (Deploy.estimate_gas (JsonBody payload)) = 500)
  ∧ (text_or_absent (dict_get "contract_type" d) = false
     ∨ text_or_absent (dict_get "jurisdiction" d) = false →
     status_code (Deploy.estimate_gas (JsonBody (JObject d))) = 500)
  ∧ (∀ ct j,
       dict_get "contract_type" d = Some (JString ct) →
       dict_get "jurisdiction" d = Some (JString j) →
       Deploy.estimate_gas (JsonBody (JObject d))
       = Deploy.estimate_gas
           (JsonBody (JObject [("contract_type", JString (lower ct));
                               ("jurisdiction", JString (lower j))])))
  ∧ (dict_get "contract_type" d = None →
     text_or_absent (dict_get "jurisdiction" d) = true →
     dict_get "estimated_gas" (body (Deploy.estimate_gas (JsonBody (JObject d))))
     = Some (JInt 1500000)).
Proof.
  split; [reflexivity|]. split; [by intros [| | | | | |]|]. split; [|split].
  - unfold Deploy.estimate_gas, Deploy.payload_lower, ContractService.get_lower.
    simpl get_json. cbn iota. cbn [mbind pyresult_bind].
    intros [H|H].
    + destruct (dict_get "contract_type" d) as [[]|]; try discriminate; reflexivity.
    + destruct (dict_get "contract_type" d) as [[]|];
        destruct (dict_get "jurisdiction" d) as [[]|]; try discriminate; reflexivity.
  - intros ct j Hc Hj.
    unfold Deploy.estimate_gas, Deploy.payload_lower, ContractService.get_lower.
    simpl get_json. cbn iota. cbn [mbind pyresult_bind]. rewrite Hc, Hj.
    simpl dict_get. cbn [mbind pyresult_bind]. by rewrite !lower_idempotent.
  - intros Hc Hj.
    unfold Deploy.estimate_gas, Deploy.payload_lower, ContractService.get_lower.
    simpl get_json. cbn iota. cbn [mbind pyresult_bind]. rewrite Hc.
    destruct (dict_get "jurisdiction" d) as [[]|]; try discriminate; reflexivity.
Qed.

(** An object without contract type, at which the hypotheses of
    [estimate_gas_endpoint] hold. *)
Lemma estimate_gas_endpoint_witness :
  dict_get "estimated_gas"
    (body (Deploy.estimate_gas (JsonBody (JObject [("jurisdiction", JString "eu")]))))
  = Some (JInt 1500000).
Proof.
  exact (proj2 (proj2 (proj2 (proj2 (estimate_gas_endpoint [("jurisdiction", JString "eu")]))))
           eq_refl eq_refl).
Defined.

(** ** Confirmation and the endpoints that take an identity *)

Section ConfirmationFacts.
Variable bind_other : json -> pyresult (option string).

(** An accepted commit of texts on a stored record succeeds. *)
Lemma update_on_existing (now : Z) (db : Db) (k : Z) (c : Contract) (s : string)
    (h a : option string) :
  rows db !! k = Some c →
  ∃ db',
    ContractService.update_contract_status bind_other now true db k s
      (JString <$> h) (JString <$> a) = (true, db').
Proof.
  intros H. unfold ContractService.update_contract_status. rewrite H. cbn zeta.
  rewrite !text_column_of_text.
  destruct (truthy_opt (JString <$> h)), (truthy_opt (JString <$> a));
    cbn [mbind pyresult_bind]; by eexists.
Qed.

Lemma update_on_unknown (now : Z) (commit_ok : bool) (db : Db) (k : Z) (s : string)
    (hv av : option json) :
  rows db !! k = None →
  ContractService.update_contract_status bind_other now commit_ok db k s hv av
  = (false, db).
Proof. intros H. unfold ContractService.update_contract_status. by rewrite H. Qed.

Lemma text_or_absent_text (v : option json) :
  text_or_absent v = true → v = JString <$> text_of v.
Proof. by destruct v as [[]|]. Qed.

(** X16.  A confirmation whose body is a JSON object without transaction
    hash, or with one that is empty or otherwise false, is answered 400
    and changes nothing, whatever else the body holds. *)
Theorem confirmation_requires_hash (now : Z) (commit_ok : bool) (db : Db)
    (contract_id : Z) (d : dict) :
  truthy_opt (dict_get "transaction_hash" d) = false →
  Deploy.confirm_deployment bind_other now commit_ok db contract_id (JsonBody (JObject d))
  = (error_response 400 "Transaction hash is required", db).
Proof.
  intros H. unfold Deploy.confirm_deployment. simpl get_json. cbn iota.
  cbn [mbind pyresult_bind payload_get]. by rewrite H.
Qed.

(** X17.  A confirmation of an existing record with a non-empty
    transaction hash, an address that is absent or a string, and an
    accepted commit is answered 200 and echoes the hash; afterwards the
    record is ['deployed'], holds that hash, holds the address if one was
    given non-empty and its former address otherwise, and keeps its
    content. *)
Theorem confirmation_records_deployment (now : Z) (db : Db) (contract_id : Z)
    (c : Contract) (d : dict) (h : string) :
  rows db !! contract_id = Some c →
  dict_get "transaction_hash" d = Some (JString h) → h ≠ "" →
  text_or_absent (dict_get "contract_address" d) = true →
  let outcome :=
    Deploy.confirm_deployment bind_other now true db contract_id (JsonBody (JObject d)) in
  status_code outcome.1 = 200
  ∧ dict_get "transaction_hash" (body outcome.1) = Some (JString h)
  ∧ ∃ c',
      outcome.2 = mkDb (<[contract_id := c']> (rows db)) (next_id db)
      ∧ status c' = "deployed"
      ∧ transaction_hash c' = Some h
      ∧ contract_address c'
        = (if truthy_opt (dict_get "contract_address" d)
           then text_of (dict_get "contract_address" d) else contract_address c)
      ∧ same_content c c'.
Proof.
  intros Hc Hh Hne Ha outcome. subst outcome.
  unfold Deploy.confirm_deployment. simpl get_json. cbn iota.
  cbn [mbind pyresult_bind payload_get]. rewrite Hh.
  assert (Ht : truthy_opt (Some (JString h)) = true) by by destruct h.
  rewrite Ht. cbn [negb].
  destruct (update_on_existing now db contract_id c "deployed" (Some h)
              (text_of (dict_get "contract_address" d)) Hc) as [db' E].
  pose proof E as E'. rewrite <- (text_or_absent_text _ Ha) in E'.
  change (JString <$> Some h) with (Some (JString h)) in E'.
  rewrite E'. cbn [negb fst snd status_code body].
  split; [done|]. split; [done|].
  destruct (update_contract_status_success _ _ _ _ _ _ _ _ _ E)
    as (c0 & c' & Hc0 & -> & Hs & Hhash & Haddr & Hsame).
  rewrite Hc in Hc0. injection Hc0 as <-.
  exists c'. split; [done|]. split; [done|].
  assert (Hth : truthy_text (Some h) = true) by by destruct h.
  rewrite Hth in Hhash. split; [done|]. split; [|done].
  rewrite Haddr.
  by destruct (dict_get "contract_address" d) as [[| | | |a| |]|].
Qed.

(** X18.  For an identity that is not in the table, a status update and
    a confirmation never answer 200 and leave the table as it was,
    whatever the request. *)
Theorem unknown_contract_is_not_written (now : Z) (commit_ok : bool) (db : Db)
    (contract_id : Z) (req : request) :
  rows db !! contract_id = None →
  let updated := Contracts.update_contract_status bind_other now commit_ok db contract_id req in
  let confirmed := Deploy.confirm_deployment bind_other now commit_ok db contract_id req in
  status_code updated.1 ≠ 200 ∧ updated.2 = db
  ∧ status_code confirmed.1 ≠ 200 ∧ confirmed.2 = db.
Proof.
  intros Hk updated confirmed. subst updated confirmed.
  assert (Hu : ∀ s hv av,
            ContractService.update_contract_status bind_other now commit_ok db
              contract_id s hv av
            = (false, db)) by (intros; by apply update_on_unknown).
  split; [|split; [|split]].
  - unfold Contracts.update_contract_status.
    destruct req as [| |[| | | | | |d]]; simpl get_json; cbn iota;
      cbn [mbind pyresult_bind payload_get]; try done.
    repeat case_match; simplify_eq; try done; rewrite Hu in *; by simplify_eq.
  - unfold Contracts.update_contract_status.
    destruct req as [| |[| | | | | |d]]; simpl get_json; cbn iota;
      cbn [mbind pyresult_bind payload_get]; try done.
    repeat case_match; simplify_eq; try done; rewrite Hu in *; by simplify_eq.
  - unfold Deploy.confirm_deployment.
    destruct req as [| |[| | | | | |d]]; simpl get_json; cbn iota;
      cbn [mbind pyresult_bind payload_get]; try done.
    repeat case_match; simplify_eq; try done; rewrite Hu in *; by simplify_eq.
  - unfold Deploy.confirm_deployment.
    destruct req as [| |[| | | | | |d]]; simpl get_json; cbn iota;
      cbn [mbind pyresult_bind payload_get]; try done.
    repeat case_match; simplify_eq; try done; rewrite Hu in *; by simplify_eq.
Qed.

End ConfirmationFacts.

(** A confirmation with an address but no hash, at which the hypothesis
    of [confirmation_requires_hash] holds. *)
Lemma confirmation_requires_hash_witness :
  Deploy.confirm_deployment Samples.refuse_other 200 true (Samples.run [Samples.generate]) 1
    (JsonBody (JObject [("contract_address", JString Samples.good_address)]))
  = (error_response 400 "Transaction hash is required", Samples.run [Samples.generate]).
Proof.
  exact (confirmation_requires_hash Samples.refuse_other 200 true
           (Samples.run [Samples.generate]) 1
           [("contract_address", JString Samples.good_address)] eq_refl).
Defined.

(** The confirmation of the generated record, at which the hypotheses of
    [confirmation_records_deployment] hold. *)
Lemma confirmation_records_deployment_witness :
  ∃ c,
    rows (Samples.run [Samples.generate]) !! 1 = Some c
    ∧ status_code
        (Deploy.confirm_deployment Samples.refuse_other 200 true
           (Samples.run [Samples.generate]) 1 (Samples.confirm_request "0xabc")).1 = 200.
Proof.
  assert (H : ∃ c, rows (Samples.run [Samples.generate]) !! 1 = Some c)
    by (eexists; vm_compute; reflexivity).
  destruct H as [c Hc]. exists c. split; [exact Hc|].
  exact (proj1 (confirmation_records_deployment Samples.refuse_other 200
                  (Samples.run [Samples.generate]) 1 c
                  [("transaction_hash", JString "0xabc")] "0xabc" Hc eq_refl
                  ltac:(discriminate) eq_refl)).
Defined.

(** An identity that was never assigned, at which the hypothesis of
    [unknown_contract_is_not_written] holds. *)
Lemma unknown_contract_is_not_written_witness :
  rows (Samples.run [Samples.generate]) !! 7 = None
  ∧ (Deploy.confirm_deployment Samples.refuse_other 200 true
       (Samples.run [Samples.generate]) 7 (Samples.confirm_request "0xabc")).2
    = Samples.run [Samples.generate].
Proof.
  assert (H : rows (Samples.run [Samples.generate]) !! 7 = None) by (by vm_compute).
  split; [exact H|].
  exact (proj2 (proj2 (proj2 (unknown_contract_is_not_written Samples.refuse_other 200 true
                                (Samples.run [Samples.generate]) 7
                                (Samples.confirm_request "0xabc") H)))).
Defined.

(** ** Successive status updates *)

(** X19.  Of two successive successful status updates of a record, the
    second decides the status; the hash is the second one's if it
    supplied one, else the first one's if it supplied one, else the hash
    stored before, and likewise the address; the content is unchanged.
    The hashes and the addresses are texts or [None], as the service
    declares them. *)
Theorem later_update_wins (bind_other : json -> pyresult (option string))
    (now1 now2 : Z) (ok1 ok2 : bool) (db db1 db2 : Db) (k : Z)
    (s1 s2 : string) (h1 a1 h2 a2 : option string) :
  ContractService.update_contract_status bind_other now1 ok1 db k s1
    (JString <$> h1) (JString <$> a1) = (true, db1) →
  ContractService.update_contract_status bind_other now2 ok2 db1 k s2
    (JString <$> h2) (JString <$> a2) = (true, db2) →
  ∃ c c2,
    rows db !! k = Some c
    ∧ rows db2 !! k = Some c2
    ∧ status c2 = s2
    ∧ transaction_hash c2
      = (if truthy_text h2 then h2 else if truthy_text h1 then h1 else transaction_hash c)
    ∧ contract_address c2
      = (if truthy_text a2 then a2 else if truthy_text a1 then a1 else contract_address c)
    ∧ same_content c c2.
Proof.
  intros E1 E2.
  destruct (update_contract_status_success _ _ _ _ _ _ _ _ _ E1)
    as (c & c1 & Hc & -> & _ & Hh1 & Ha1 & Hs1).
  destruct (update_contract_status_success _ _ _ _ _ _ _ _ _ E2)
    as (c1' & c2 & Hc1 & -> & Hst & Hh2 & Ha2 & Hs2).
  simpl in Hc1. rewrite lookup_insert_eq in Hc1. injection Hc1 as <-.
  exists c, c2. split; [done|]. split; [simpl; by rewrite lookup_insert_eq|].
  split; [done|]. rewrite Hh2, Ha2, Hh1, Ha1.
  split; [done|]. split; [done|]. by eapply same_content_trans.
Qed.

(** A failure recorded with a hash and then a deployment recorded
    without: the hypotheses of [later_update_wins] hold, and the hash of
    the failure is what the deployed record holds. *)
Lemma later_update_wins_witness :
  let db0 := Samples.run [Samples.generate] in
  let db1 :=
    (ContractService.update_contract_status Samples.refuse_other 200 true db0 1 "failed"
       (JString <$> Some "0xdead") (JString <$> None)).2 in
  let db2 :=
    (ContractService.update_contract_status Samples.refuse_other 300 true db1 1 "deployed"
       (JString <$> None) (JString <$> None)).2 in
  ContractService.update_contract_status Samples.refuse_other 200 true db0 1 "failed"
    (JString <$> Some "0xdead") (JString <$> None) = (true, db1)
  ∧ ContractService.update_contract_status Samples.refuse_other 300 true db1 1 "deployed"
      (JString <$> None) (JString <$> None) = (true, db2)
  ∧ ∃ c2, rows db2 !! 1 = Some c2
          ∧ status c2 = "deployed" ∧ transaction_hash c2 = Some "0xdead".
Proof.
  intros db0 db1 db2.
  assert (E1 : ContractService.update_contract_status Samples.refuse_other 200 true db0 1
                 "failed" (JString <$> Some "0xdead") (JString <$> None) = (true, db1))
    by (by vm_compute).
  assert (E2 : ContractService.update_contract_status Samples.refuse_other 300 true db1 1
                 "deployed" (JString <$> None) (JString <$> None) = (true, db2))
    by (by vm_compute).
  split; [exact E1|]. split; [exact E2|].
  destruct (later_update_wins _ _ _ _ _ _ _ _ _ _ _ _ _ _ _ E1 E2)
    as (c & c2 & _ & Hc2 & Hs & Hh & _).
  exists c2. split; [exact Hc2|]. split; [exact Hs | exact Hh].
Defined.

(** ** A value that the store keeps as NULL *)

Section ErasureFacts.
Variable bind_other : json -> pyresult (option string).

(** X30.  The test [if transaction_hash:] is on the value of the
    request, and what is written is what the store keeps of it.  So a
    confirmation of a stored record whose transaction hash is true as a
    value but kept as NULL by the store is answered 200 and leaves the
    record ['deployed'] with no transaction hash, whatever hash it held
    before; its address and its content are kept and its update time is
    the time of the call. *)
Theorem value_kept_as_null_erases_hash (now : Z) (db : Db) (contract_id : Z)
    (c : Contract) (d : dict) (v : json) :
  rows db !! contract_id = Some c →
  dict_get "transaction_hash" d = Some v →
  truthy v = true →
  ContractService.text_column bind_other (Some v) = Returns None →
  truthy_opt (dict_get "contract_address" d) = false →
  let outcome :=
    Deploy.confirm_deployment bind_other now true db contract_id (JsonBody (JObject d)) in
  status_code outcome.1 = 200
  ∧ ∃ c',
      outcome.2 = mkDb (<[contract_id := c']> (rows db)) (next_id db)
      ∧ status c' = "deployed"
      ∧ transaction_hash c' = None
      ∧ contract_address c' = contract_address c
      ∧ updated_at c' = now
      ∧ same_content c c'.
Proof.
  intros Hc Hh Hv Hb Ha outcome. subst outcome.
  unfold Deploy.confirm_deployment. simpl get_json. cbn iota.
  cbn [mbind pyresult_bind payload_get]. rewrite Hh. cbn [truthy_opt]. rewrite Hv.
  cbn [negb].
  assert (Ho : ContractService.assigns_other (Some v) = true).
  { unfold ContractService.assigns_other. cbn [truthy_opt]. rewrite Hv.
    destruct v; try reflexivity. discriminate. }
  unfold ContractService.update_contract_status. rewrite Hc. cbn zeta.
  cbn [truthy_opt]. rewrite Hv, Hb, Ha, Ho. cbn [mbind pyresult_bind orb negb fst snd].
  split; [done|]. eexists. split; [reflexivity|]. by unfold same_content.
Qed.

End ErasureFacts.

(** A confirmed record confirmed again with the float NaN for a hash, on
    a store that keeps NaN as NULL: the hypotheses of
    [value_kept_as_null_erases_hash] hold, and the hash that was stored
    is gone. *)
Lemma value_kept_as_null_erases_hash_witness :
  let db :=
    Lifecycle.run Json.loads Samples.dumps_flat Samples.nan_as_null Samples.rules
      [Samples.generate;
       Lifecycle.ConfirmDeployment 1 (Samples.confirm_request "0xabc") 200 true]
      empty_db in
  let outcome :=
    Deploy.confirm_deployment Samples.nan_as_null 300 true db 1
      (JsonBody (JObject [("transaction_hash", JFloat FNaN)])) in
  ∃ c c',
    rows db !! 1 = Some c
    ∧ transaction_hash c = Some "0xabc"
    ∧ rows outcome.2 !! 1 = Some c'
    ∧ transaction_hash c' = None.
Proof.
  intros db outcome.
  assert (Hc : ∃ c, rows db !! 1 = Some c ∧ transaction_hash c = Some "0xabc")
    by (eexists; split; vm_compute; reflexivity).
  destruct Hc as (c & Hc & Hh).
  destruct (value_kept_as_null_erases_hash Samples.nan_as_null 300 db 1 c
              [("transaction_hash", JFloat FNaN)] (JFloat FNaN) Hc eq_refl eq_refl
              eq_refl eq_refl) as (_ & c' & Hdb & _ & Hn & _).
  exists c, c'. split; [exact Hc|]. split; [exact Hh|].
  subst outcome. rewrite Hdb. split; [apply lookup_insert_eq | exact Hn].
Defined.

(** ** Deployment data and the endpoints that serve it *)

Section DeploymentEndpointFacts.
Variable json_loads : string -> pyresult json.
Variable isoformat : Z -> string.

(** What the deployment data holds when there is some. *)
Lemma deployment_data_inv (db : Db) (contract_id : Z) (data : DeploymentData) :
  ContractService.get_deployment_data json_loads db contract_id = Some data →
  ∃ c d,
    rows db !! contract_id = Some c
    ∧ Models.metadata_of json_loads c = Returns (JObject d)
    ∧ data = mkDeploymentData (id c) (solidity_code c) (deploy_script c)
               (supplied (payee_address c) ++ supplied (payer_address c))
               (JObject d) 2000000
               (default (JString "GeneratedContract") (dict_get "contract_name" d)).
Proof.
  unfold ContractService.get_deployment_data, ContractService.deployment_body,
    ContractService.get_contract, Models.metadata_of.
  destruct (rows db !! contract_id) as [c|]; [|discriminate].
  destruct (if truthy_text (contract_metadata c)
            then json_loads (default "" (contract_metadata c))
            else Returns (JObject [])) as [m|e] eqn:Em; cbn [mbind pyresult_bind];
    [|discriminate].
  destruct m as [| | | | | |d]; cbn [ContractService.get_contract_name mbind pyresult_bind];
    try discriminate.
  intros [= <-]. exists c, d. split; [done|]. split; [exact Em | reflexivity].
Qed.

(** X20.  Deployment data, when there is some, belongs to the stored
    record of that identity: it carries its code and script, a metadata
    object, the flat estimate 2,000,000, and as constructor parameters
    the payee address then the payer address, each left out when unset
    or empty. *)
Theorem deployment_data_fields (db : Db) (contract_id : Z) (data : DeploymentData) :
  ContractService.get_deployment_data json_loads db contract_id = Some data →
  ∃ c,
    rows db !! contract_id = Some c
    ∧ dd_contract_id data = id c
    ∧ dd_solidity_code data = solidity_code c
    ∧ dd_deploy_script data = deploy_script c
    ∧ dd_constructor_params data
      = supplied (payee_address c) ++ supplied (payer_address c)
    ∧ (length (dd_constructor_params data) ≤ 2)%nat
    ∧ dd_estimated_gas data = 2000000
    ∧ is_dict (dd_metadata data) = true.
Proof.
  intros H. destruct (deployment_data_inv db contract_id data H) as (c & d & Hc & _ & ->).
  exists c. cbn. repeat (split; [done|]). split; [|done].
  rewrite length_app. unfold supplied. repeat case_match; simpl; lia.
Qed.

(** X21.  The two deployment endpoints answer alike, 200 when there is
    deployment data and 404 when there is none; the bytecode endpoint
    then returns the same placeholder bytecode and an empty ABI for
    every contract, with the constructor parameters of the record. *)
Theorem deployment_endpoints_agree (db : Db) (contract_id : Z) :
  status_code (Deploy.get_contract_bytecode json_loads db contract_id)
  = status_code (Deploy.prepare_deployment json_loads db contract_id)
  ∧ (status_code (Deploy.prepare_deployment json_loads db contract_id) = 404
     ↔ ContractService.get_deployment_data json_loads db contract_id = None)
  ∧ (status_code (Deploy.prepare_deployment json_loads db contract_id) = 200
     ↔ is_Some (ContractService.get_deployment_data json_loads db contract_id))
  ∧ (∀ data,
       ContractService.get_deployment_data json_loads db contract_id = Some data →
       let answer := body (Deploy.get_contract_bytecode json_loads db contract_id) in
       dict_get "bytecode" answer = Some (JString Deploy.placeholder_bytecode)
       ∧ dict_get "abi" answer = Some (JArray [])
       ∧ dict_get "constructor_params" answer
         = Some (JArray (JString <$> dd_constructor_params data))).
Proof.
  unfold Deploy.get_contract_bytecode, Deploy.prepare_deployment.
  destruct (ContractService.get_deployment_data json_loads db contract_id) as [data|];
    cbn [status_code error_response].
  - split; [done|]. split; [split; discriminate|]. split; [split; eauto|].
    by intros ? [= <-].
  - split; [done|]. split; [done|]. split; [|done].
    split; [discriminate | by intros [? ?]].
Qed.

(** X22.  [GET /contracts/<id>] answers 404 for an identity that is not
    stored and 500 for a record whose serialized metadata cannot be
    decoded, for which there is no deployment data either; whenever
    there is deployment data it answers 200 with a contract whose
    metadata is that of the deployment data. *)
Theorem contract_endpoint_and_metadata (db : Db) (contract_id : Z) :
  (rows db !! contract_id = None →
   status_code (Contracts.get_contract json_loads isoformat db contract_id) = 404)
  ∧ (∀ c e,
       rows db !! contract_id = Some c →
       Models.metadata_of json_loads c = Raises e →
       status_code (Contracts.get_contract json_loads isoformat db contract_id) = 500
       ∧ ContractService.get_deployment_data json_loads db contract_id = None)
  ∧ (∀ data,
       ContractService.get_deployment_data json_loads db contract_id = Some data →
       status_code (Contracts.get_contract json_loads isoformat db contract_id) = 200
       ∧ ∃ contract_dict,
           dict_get "contract"
             (body (Contracts.get_contract json_loads isoformat db contract_id))
           = Some (JObject contract_dict)
           ∧ dict_get "metadata" contract_dict = Some (dd_metadata data)).
Proof.
  unfold Contracts.get_contract, ContractService.get_contract.
  split; [by intros ->|]. split.
  - intros c e Hc He. rewrite Hc. unfold Models.to_dict. rewrite He.
    split; [done|].
    unfold ContractService.get_deployment_data, ContractService.deployment_body,
      ContractService.get_contract. rewrite Hc.
    unfold Models.metadata_of in He.
    destruct (truthy_text (contract_metadata c)); [|discriminate].
    by rewrite He.
  - intros data H.
    destruct (deployment_data_inv db contract_id data H) as (c & d & Hc & Hm & ->).
    rewrite Hc. unfold Models.to_dict. rewrite Hm. cbn [mbind pyresult_bind].
    split; [done|]. eexists. split; reflexivity.
Qed.

End DeploymentEndpointFacts.

(** The generated record, at which the hypothesis of
    [deployment_data_fields] holds: its only parameter is the payee. *)
Lemma deployment_data_fields_witness :
  ∃ data,
    ContractService.get_deployment_data Json.loads (Samples.run [Samples.generate]) 1
      = Some data
    ∧ dd_constructor_params data = [Samples.bad_address].
Proof.
  assert (H : ∃ data,
             ContractService.get_deployment_data Json.loads
               (Samples.run [Samples.generate]) 1 = Some data)
    by (eexists; vm_compute; reflexivity).
  destruct H as [data H]. exists data. split; [exact H|].
  destruct (deployment_data_fields Json.loads _ _ _ H) as (c & Hc & _ & _ & _ & Hp & _).
  rewrite Hp.
  assert (Hrow : rows (Samples.run [Samples.generate]) !! 1
                 = Some (mkContract 1 (Some "India") (Some "escrow") (Some "test") None
                           (Some Samples.bad_address) None (Some "contract C {}")
                           (Some "main()") (Some "it()")
                           (Some (Samples.dumps_flat (JObject [("contract_name", JString "C")])))
                           "draft" None None 100 101))
    by (vm_compute; reflexivity).
  rewrite Hrow in Hc. by injection Hc as <-.
Defined.

(** The record with broken metadata and the generated record, at which
    the hypotheses of [contract_endpoint_and_metadata] and of
    [deployment_endpoints_agree] hold. *)
Lemma contract_endpoint_and_metadata_witness :
  rows broken_metadata_db !! 1 = Some broken_metadata_record
  ∧ Models.metadata_of Json.loads broken_metadata_record = Raises JSONDecodeError
  ∧ status_code (Contracts.get_contract Json.loads Samples.iso broken_metadata_db 1) = 500.
Proof.
  assert (Hc : rows broken_metadata_db !! 1 = Some broken_metadata_record) by reflexivity.
  assert (Hm : Models.metadata_of Json.loads broken_metadata_record = Raises JSONDecodeError)
    by reflexivity.
  split; [exact Hc|]. split; [exact Hm|].
  exact (proj1 (proj1 (proj2 (contract_endpoint_and_metadata Json.loads Samples.iso
                                 broken_metadata_db 1)) _ _ Hc Hm)).
Defined.

Lemma deployment_endpoints_agree_witness :
  ∃ data,
    ContractService.get_deployment_data Json.loads (Samples.run [Samples.generate]) 1
      = Some data
    ∧ dict_get "abi"
        (body (Deploy.get_contract_bytecode Json.loads (Samples.run [Samples.generate]) 1))
      = Some (JArray []).
Proof.
  assert (H : ∃ data,
             ContractService.get_deployment_data Json.loads
               (Samples.run [Samples.generate]) 1 = Some data)
    by (eexists; vm_compute; reflexivity).
  destruct H as [data H]. exists data. split; [exact H|].
  exact (proj1 (proj2 (proj2 (proj2 (proj2 (deployment_endpoints_agree Json.loads
                                              (Samples.run [Samples.generate]) 1)))
                         data H))).
Defined.

(** ** Listing *)

#[local] Instance newer_first_total : Total ContractService.newer_first.
Proof. intros x y. unfold ContractService.newer_first. lia. Qed.

#[local] Instance newer_first_trans : Transitive ContractService.newer_first.
Proof. intros x y z. unfold ContractService.newer_first. lia. Qed.

(** The empty dict filters like any other: each of the three filters
    holds. *)
Lemma matches_filters_unfold (f : list (string * string)) (c : Contract) :
  ContractService.matches_filters (Some f) c
  = ContractService.filter_holds f "jurisdiction" (jurisdiction c)
    && ContractService.filter_holds f "contract_type" (contract_type c)
    && ContractService.filter_holds f "status" (Some (status c)).
Proof. by destruct f. Qed.

Lemma filter_holds_value (f : list (string * string)) (k v : string) (column : option string) :
  table_get k f = Some v → v ≠ "" →
  ContractService.filter_holds f k column = true → column = Some v.
Proof.
  unfold ContractService.filter_holds. intros -> Hv.
  rewrite (proj2 (is_empty_false v) Hv).
  destruct column as [t|]; [|discriminate]. by intros ->%String.eqb_eq.
Qed.

(** X23.  [list_contracts] returns exactly the stored records that pass
    the filters, each once, newest first.  A filter with a non-empty
    value is exact: every listed record holds that very string in the
    column, letter case included; an empty value and a [None] filter do
    not filter. *)
Theorem listing_is_exact_and_sorted (db : Db) (filters : option (list (string * string))) :
  let listed := ContractService.list_contracts db filters in
  StronglySorted ContractService.newer_first listed
  ∧ listed ≡ₚ filter (fun c => ContractService.matches_filters filters c = true)
                (map_to_list (rows db)).*2
  ∧ (∀ c, c ∈ listed
          ↔ (∃ k, rows db !! k = Some c)
            ∧ ContractService.matches_filters filters c = true)
  ∧ (∀ f v c,
       filters = Some f → c ∈ listed → v ≠ "" →
       (table_get "jurisdiction" f = Some v → jurisdiction c = Some v)
       ∧ (table_get "contract_type" f = Some v → contract_type c = Some v)
       ∧ (table_get "status" f = Some v → status c = v)).
Proof.
  intros listed. subst listed. unfold ContractService.list_contracts.
  assert (Hmem : ∀ c,
            c ∈ merge_sort ContractService.newer_first
                  (filter (fun c => ContractService.matches_filters filters c = true)
                     (map_to_list (rows db)).*2)
            ↔ (∃ k, rows db !! k = Some c)
              ∧ ContractService.matches_filters filters c = true).
  { intros c. rewrite merge_sort_Permutation, list_elem_of_filter, list_elem_of_fmap.
    split.
    - intros [Hm ([k c'] & -> & Hin)]. split; [|done].
      exists k. by apply elem_of_map_to_list.
    - intros [[k Hk] Hm]. split; [done|].
      exists (k, c). split; [done|]. by apply elem_of_map_to_list. }
  split; [apply Sorted_StronglySorted; [apply _ | apply Sorted_merge_sort; apply _]|].
  split; [apply merge_sort_Permutation|]. split; [exact Hmem|].
  intros f v c -> Hc Hv. apply Hmem in Hc as [_ Hm].
  rewrite matches_filters_unfold, !andb_true_iff in Hm. destruct Hm as [[H1 H2] H3].
  split; [|split]; intros Hg.
  - by eapply filter_holds_value.
  - by eapply filter_holds_value.
  - pose proof (filter_holds_value f "status" v _ Hg Hv H3) as E. by injection E.
Qed.

(** The generated sample record listed under the filter of its
    jurisdiction, at which the hypotheses of
    [listing_is_exact_and_sorted] hold. *)
Lemma listing_is_exact_and_sorted_witness :
  ∃ c,
    c ∈ ContractService.list_contracts (Samples.run [Samples.generate])
          (Some [("jurisdiction", "India")])
    ∧ jurisdiction c = Some "India".
Proof.
  pose (db := Samples.run [Samples.generate]).
  pose (f := [("jurisdiction", "India")] : list (string * string)).
  assert (Hrow : ∃ c, rows db !! 1 = Some c
                      ∧ ContractService.matches_filters (Some f) c = true)
    by (eexists; split; vm_compute; reflexivity).
  destruct Hrow as (c & Hc & Hm). exists c.
  destruct (listing_is_exact_and_sorted db (Some f)) as (_ & _ & Hmem & Hexact).
  assert (Hin : c ∈ ContractService.list_contracts db (Some f)).
  { apply Hmem. split; [by exists 1|exact Hm]. }
  split; [exact Hin|].
  exact (proj1 (Hexact f "India" c eq_refl Hin ltac:(discriminate)) eq_refl).
Defined.

Section ListEndpointFacts.
Variable isoformat : Z -> string.

Lemma table_get_app {V : Type} (k : string) (l1 l2 : list (string * V)) :
  table_get k (l1 ++ l2)
  = match table_get k l1 with Some v => Some v | None => table_get k l2 end.
Proof.
  induction l1 as [|[k' v] l1 IH]; simpl; [done|]. by destruct (String.eqb k k').
Qed.

(** The dict the endpoint builds filters like the query string
    itself. *)
Lemma endpoint_filters_equiv (args : list (string * string)) (c : Contract) :
  let keep (k : string) : list (string * string) :=
    match table_get k args with
    | Some v => if is_empty v then [] else [(k, v)]
    | None => []
    end in
  ContractService.matches_filters
    (Some (keep "jurisdiction" ++ keep "contract_type" ++ keep "status")) c
  = ContractService.matches_filters (Some args) c.
Proof.
  intros keep. subst keep. rewrite !matches_filters_unfold.
  unfold ContractService.filter_holds. rewrite !table_get_app.
  destruct (table_get "jurisdiction" args) as [[|? ?]|];
    destruct (table_get "contract_type" args) as [[|? ?]|];
    destruct (table_get "status" args) as [[|? ?]|]; reflexivity.
Qed.

(** X24.  [GET /contracts] always answers 200; what it lists is what the
    service lists for the query string taken as the filters, so empty
    values and parameters other than jurisdiction, contract_type and
    status do not matter, and the count it reports is the number of
    records it returns. *)
Theorem list_endpoint_lists_matches (db : Db) (args : list (string * string)) :
  Contracts.list_contracts isoformat db args
  = mkResponse 200
      [("success", JBool true);
       ("contracts",
        JArray (JObject <$> (Models.to_summary_dict isoformat
                               <$> ContractService.list_contracts db (Some args))));
       ("count",
        JInt (Z.of_nat (length (ContractService.list_contracts db (Some args)))))].
Proof.
  unfold Contracts.list_contracts, ContractService.list_contracts.
  rewrite length_fmap.
  rewrite (list_filter_iff _
             (fun c => ContractService.matches_filters (Some args) c = true)); [done|].
  intros c. by rewrite (endpoint_filters_equiv args c).
Qed.

End ListEndpointFacts.

(** ** What the parser returns *)

Section ParserResultFacts.
Variable json_loads : string -> pyresult json.

(** X25.  Whatever the decoder does, an artifact that [_parse_response]
    or the client's [generate_contract] returns is complete: a dict
    with code, deploy script, tests and a metadata dict.  An incomplete
    artifact is never handed to the caller. *)
Theorem returned_artifact_is_complete (response_text : string) (reply : pyresult string)
    (v : json) :
  (GeminiClient._parse_response json_loads response_text = Returns v →
   complete_artifact v = true)
  ∧ (GeminiClient.generate_contract json_loads reply = Returns v →
     complete_artifact v = true).
Proof.
  assert (H : ∀ text,
            GeminiClient._parse_response json_loads text = Returns v →
            complete_artifact v = true).
  { intros text. unfold GeminiClient._parse_response, GeminiClient.parse_body, try_except.
    destruct (json_loads (GeminiClient.json_text_of text)) as [a|e];
      cbn [mbind pyresult_bind].
    - change (x ← Returns a; _) with
        (_ ← GeminiClient.check_required GeminiClient.required_fields a;
         metadata ← getitem a "metadata";
         if negb (is_dict metadata) then Raises (ValueError "Metadata must be a dictionary")
         else Returns a).
      destruct (complete_artifact a) eqn:Ha.
      + rewrite (checks_accept a Ha). by intros [= <-].
      + destruct (checks_refuse a Ha) as (e & Hne & ->). by destruct e.
    - destruct e; try discriminate. by intros [= <-]. }
  split; [apply H|].
  unfold GeminiClient.generate_contract, try_except.
  destruct reply as [text|e]; cbn [mbind pyresult_bind]; [|discriminate].
  destruct (GeminiClient._parse_response json_loads text) as [a|e] eqn:E; [|discriminate].
  intros [= <-]. by apply (H text).
Qed.

End ParserResultFacts.

(** The fenced sample artifact, at which the hypothesis of
    [returned_artifact_is_complete] holds. *)
Lemma returned_artifact_is_complete_witness :
  ∃ v,
    GeminiClient._parse_response Json.loads (json_block Samples.artifact_text) = Returns v
    ∧ complete_artifact v = true.
Proof.
  assert (H : ∃ v, GeminiClient._parse_response Json.loads (json_block Samples.artifact_text)
                   = Returns v) by (eexists; vm_compute; reflexivity).
  destruct H as [v H]. exists v. split; [exact H|].
  exact (proj1 (returned_artifact_is_complete Json.loads (json_block Samples.artifact_text)
                  (Returns "") v) H).
Defined.

(** ** Fence stripping, in general *)

Lemma append_assoc (a b c : string) : (a +:+ b) +:+ c = a +:+ (b +:+ c).
Proof. induction a as [|x a IH]; [done|]. cbn [String.append]. by rewrite IH. Qed.

Lemma append_nil_r (a : string) : a +:+ "" = a.
Proof. induction a as [|x a IH]; [done|]. cbn [String.append]. by rewrite IH. Qed.

Lemma length_append (a b : string) :
  String.length (a +:+ b) = (String.length a + String.length b)%nat.
Proof. induction a as [|x a IH]; [done|]. cbn [String.append String.length]. by rewrite IH. Qed.

Lemma len_append (a b : string) : len (a +:+ b) = len a + len b.
Proof. unfold len. rewrite length_append. lia. Qed.

Lemma len_nonneg (a : string) : 0 ≤ len a.
Proof. unfold len. lia. Qed.

Lemma drop_append (p x : string) : drop (String.length p) (p +:+ x) = x.
Proof. induction p as [|c p IH]; [done|]. cbn [String.length String.append drop]. done. Qed.

Lemma take_append (m r : string) : take (String.length m) (m +:+ r) = m.
Proof.
  induction m as [|c m IH]; [done|]. cbn [String.length String.append take]. by rewrite IH.
Qed.

(** The slice that cuts the middle out of three parts. *)
Lemma slice_middle (p m r : string) :
  slice (p +:+ m +:+ r) (len p) (len p + len m) = m.
Proof.
  unfold slice. rewrite !len_append. unfold norm_index.
  pose proof (len_nonneg p). pose proof (len_nonneg m). pose proof (len_nonneg r).
  do 2 decide_ltb.
  rewrite Z.min_l, Z.min_l by lia.
  replace (len p + len m - len p) with (len m) by lia.
  unfold len. rewrite !Nat2Z.id. by rewrite drop_append, take_append.
Qed.

(** Searching from the end of a first part searches the rest. *)
Lemma find_from_append (sub p x : string) :
  find_from sub (p +:+ x) (len p)
  = match find_nat sub x with
    | Some i => len p + Z.of_nat i
    | None => -1
    end.
Proof.
  unfold find_from. rewrite len_append. unfold norm_index.
  pose proof (len_nonneg p). pose proof (len_nonneg x).
  do 2 decide_ltb. rewrite Z.min_l by lia.
  unfold len. by rewrite Nat2Z.id, drop_append.
Qed.

(** A text without backquote is skipped by the search for a fence. *)
Lemma find_after_plain (sub p x : string) :
  startswith "`" sub = true →
  find_nat "`" p = None →
  find_nat sub (p +:+ x) = (fun i => (String.length p + i)%nat) <$> find_nat sub x.
Proof.
  intros Hsub Hp. induction p as [|c p IH].
  - cbn [String.append String.length]. by rewrite fmap_add_0.
  - cbn [find_nat] in Hp.
    destruct (startswith "`" (String c p)) eqn:E; [discriminate|].
    destruct (find_nat "`" p) eqn:Ep; [discriminate|].
    cbn [String.append find_nat String.length].
    assert (Hs : startswith sub (String c (p +:+ x)) = false).
    { destruct sub as [|b sub]; [discriminate|].
      cbn [startswith] in *. rewrite andb_true_r in Hsub, E.
      apply Ascii.eqb_eq in Hsub as <-. by rewrite E. }
    rewrite Hs, IH by done. by destruct (find_nat sub x).
Qed.

Lemma lstrip_append (p x : string) :
  lstrip x = x → x ≠ "" → lstrip (p +:+ x) = lstrip p +:+ x.
Proof.
  intros Hx Hne. induction p as [|c p IH]; [done|].
  cbn [String.append lstrip]. by destruct (is_space c).
Qed.

(** Trimming on the right stops at a fence. *)
Lemma rstrip_before_fence (s post : string) :
  rstrip (s +:+ "```" +:+ post) = s +:+ "```" +:+ rstrip post.
Proof.
  induction s as [|c s IH].
  - cbn [String.append rstrip]. change (is_space "`") with false. reflexivity.
  - change (String c s +:+ "```" +:+ post) with (String c (s +:+ "```" +:+ post)).
    change (String c s +:+ "```" +:+ rstrip post)
      with (String c (s +:+ "```" +:+ rstrip post)).
    cbn [rstrip]. rewrite IH.
    rewrite (is_empty_app_r s ("```" +:+ rstrip post)) by done.
    by rewrite andb_false_r.
Qed.

Lemma in_prose_parts (pre J post : string) :
  in_prose pre J post
  = (pre +:+ "```json") +:+ (nl +:+ J +:+ nl) +:+ ("```" +:+ post).
Proof. unfold in_prose. by rewrite !append_assoc. Qed.

(** Trimming a block in prose trims the prose. *)
Lemma strip_in_prose (pre J post : string) :
  strip (in_prose pre J post) = in_prose (lstrip pre) J (rstrip post).
Proof.
  unfold strip, in_prose.
  rewrite (lstrip_append pre ("```json" +:+ nl +:+ J +:+ nl +:+ "```" +:+ post))
    by done.
  replace (lstrip pre +:+ "```json" +:+ nl +:+ J +:+ nl +:+ "```" +:+ post)
    with ((lstrip pre +:+ "```json" +:+ nl +:+ J +:+ nl) +:+ "```" +:+ post)
    by (by rewrite !append_assoc).
  rewrite rstrip_before_fence. by rewrite !append_assoc.
Qed.

(** The candidate of a trimmed block in prose. *)
Lemma json_text_of_in_prose (pre J post : string) :
  contains "`" pre = false →
  contains GeminiClient.fence J = false →
  GeminiClient.json_text_of (in_prose pre J post) = strip J.
Proof.
  intros Hpre HJ. apply contains_false in HJ.
  apply contains_false, (find_nat_none_lstrip "`" pre) in Hpre.
  unfold GeminiClient.json_text_of. rewrite strip_in_prose.
  set (p := lstrip pre) in *. set (r := rstrip post).
  assert (Hfind : find_nat GeminiClient.json_fence (in_prose p J r)
                  = Some (String.length p)).
  { unfold in_prose. rewrite (find_after_plain GeminiClient.json_fence p _ eq_refl Hpre).
    change (find_nat GeminiClient.json_fence ("```json" +:+ nl +:+ J +:+ nl +:+ "```" +:+ r))
      with (Some 0%nat).
    cbn [fmap option_fmap option_map]. f_equal. lia. }
  unfold contains, find. rewrite Hfind. cbn [index_or_minus1].
  replace (Z.of_nat (String.length p) + 7) with (len (p +:+ "```json"))
    by (rewrite len_append; reflexivity).
  rewrite in_prose_parts.
  rewrite (find_from_append GeminiClient.fence (p +:+ "```json")).
  assert (Hend : find_nat GeminiClient.fence ((nl +:+ J +:+ nl) +:+ "```" +:+ r)
                 = Some (String.length (nl +:+ J +:+ nl))).
  { rewrite !append_assoc. cbn [String.append nl find_nat String.length].
    change (startswith GeminiClient.fence
              (String newline (J +:+ String newline (String "`" (String "`" (String "`" r))))))
      with false. cbv iota.
    rewrite (find_fence_skip J (String newline (String "`" (String "`" (String "`" r))))
               HJ eq_refl).
    change (find_nat GeminiClient.fence
              (String newline (String "`" (String "`" (String "`" r)))))
      with (Some 1%nat).
    cbn [fmap option_fmap option_map]. f_equal.
    rewrite length_append. change (String.length nl) with 1%nat. lia. }
  rewrite Hend.
  change (Z.of_nat (String.length (nl +:+ J +:+ nl))) with (len (nl +:+ J +:+ nl)).
  rewrite slice_middle.
  unfold strip at 1. cbn [String.append nl lstrip].
  change (is_space newline) with true. cbv iota.
  apply strip_app_nl.
Qed.

Section ProseClaims.
Variable json_loads : string -> pyresult json.

(** X26.  Prose around the block is ignored: for a text [J] without a
    run of three backquotes, a response made of any text without
    backquote, then [J] inside a block opened with the JSON tag, then
    any text at all, is parsed to the same result as [J] alone. *)
Theorem prose_around_block_is_ignored (pre J post : string) :
  contains "`" pre = false →
  contains GeminiClient.fence J = false →
  GeminiClient._parse_response json_loads (in_prose pre J post)
  = GeminiClient._parse_response json_loads J.
Proof.
  intros Hpre HJ. unfold GeminiClient._parse_response, GeminiClient.parse_body.
  by rewrite (json_text_of_in_prose pre J post Hpre HJ), (json_text_of_bare J HJ).
Qed.

End ProseClaims.

(** The sample artifact announced and followed by prose and a second
    block, at which the hypotheses of [prose_around_block_is_ignored]
    hold. *)
Lemma prose_around_block_is_ignored_witness :
  GeminiClient._parse_response Json.loads
    (in_prose "Here is the contract:" Samples.artifact_text
       ("Deploy it with ```npx hardhat run```."))
  = GeminiClient._parse_response Json.loads Samples.artifact_text.
Proof.
  exact (prose_around_block_is_ignored Json.loads "Here is the contract:"
           Samples.artifact_text "Deploy it with ```npx hardhat run```." eq_refl eq_refl).
Defined.

(** ** Blocks that are not closed, and blocks without tag *)

Lemma take_without_last (x : string) : take (String.length x - 1) x = without_last x.
Proof.
  induction x as [|c x IH]; [done|].
  cbn [String.length without_last]. replace (S (String.length x) - 1)%nat
    with (String.length x) by lia.
  destruct x as [|c' x]; [done|].
  cbn [String.length take]. f_equal.
  rewrite <- IH. cbn [String.length]. f_equal. lia.
Qed.

Lemma without_last_snoc (x : string) :
  x ≠ "" → ∃ c, x = without_last x +:+ String c "".
Proof.
  induction x as [|c x IH]; [done|]. intros _.
  destruct x as [|c' x]; [by exists c|].
  destruct IH as [d Hd]; [done|]. exists d.
  change (without_last (String c (String c' x)))
    with (String c (without_last (String c' x))).
  cbn [String.append]. by rewrite <- Hd.
Qed.

(** The slice from the end of a first part up to index -1. *)
Lemma slice_to_minus1 (p x : string) :
  x ≠ "" → slice (p +:+ x) (len p) (-1) = without_last x.
Proof.
  intros Hx. unfold slice. rewrite len_append. unfold norm_index.
  pose proof (len_nonneg p).
  assert (1 ≤ len x) by (destruct x; [done|]; unfold len; cbn [String.length]; lia).
  decide_ltb. change (-1 <? 0) with true. cbv iota.
  rewrite Z.min_l, Z.max_r by lia.
  replace (Z.to_nat (-1 + (len p + len x) - len p)) with (String.length x - 1)%nat
    by (unfold len; lia).
  unfold len. rewrite Nat2Z.id, drop_append. apply take_without_last.
Qed.

Lemma is_empty_false_ne (x : string) : is_empty x = false → x ≠ "".
Proof. by destruct x. Qed.

(** The candidate of a block that is never closed. *)
Lemma json_text_of_unclosed (J : string) :
  is_empty (rstrip J) = false →
  contains GeminiClient.fence J = false →
  GeminiClient.json_text_of (unclosed_block J) = strip (without_last (rstrip J)).
Proof.
  intros Hne HJ. apply contains_false in HJ.
  assert (HJ' : find_nat GeminiClient.fence (rstrip J) = None).
  { destruct (rstrip_prefix J) as [t Ht]. rewrite Ht in HJ.
    by apply find_nat_none_prefix in HJ. }
  unfold GeminiClient.json_text_of.
  assert (Hs : strip (unclosed_block J) = "```json" +:+ nl +:+ rstrip J).
  { unfold strip, unclosed_block.
    change (lstrip ("```json" +:+ nl +:+ J)) with (("```json" +:+ nl) +:+ J).
    by rewrite (rstrip_app ("```json" +:+ nl) J Hne). }
  rewrite Hs. set (J' := rstrip J) in *.
  change (contains GeminiClient.json_fence ("```json" +:+ nl +:+ J')) with true.
  cbv iota.
  change (find GeminiClient.json_fence ("```json" +:+ nl +:+ J') + 7)
    with (len "```json").
  rewrite (find_from_append GeminiClient.fence "```json" (nl +:+ J')).
  assert (Hnone : find_nat GeminiClient.fence (nl +:+ J') = None).
  { cbn [String.append nl find_nat].
    change (startswith GeminiClient.fence (String newline J')) with false.
    by rewrite HJ'. }
  rewrite Hnone.
  rewrite (slice_to_minus1 "```json" (nl +:+ J')) by done.
  pose proof (is_empty_false_ne _ Hne) as Hx.
  destruct J' as [|c K]; [done|].
  change (without_last (nl +:+ String c K))
    with (String newline (without_last (String c K))).
  unfold strip. cbn [lstrip]. change (is_space newline) with true. done.
Qed.

Lemma find_json_fence_skip (J rest : string) :
  find_nat GeminiClient.fence J = None →
  startswith "`" rest = false →
  find_nat GeminiClient.json_fence rest = None →
  find_nat GeminiClient.json_fence (J +:+ rest) = None.
Proof.
  intros HJ Hr Hrest. induction J as [|c J IH]; [done|].
  cbn [find_nat] in HJ.
  destruct (startswith GeminiClient.fence (String c J)) eqn:E; [discriminate|].
  destruct (find_nat GeminiClient.fence J) eqn:EJ; [discriminate|].
  pose proof (startswith_fence_app (String c J) rest Hr E) as E'.
  cbn [String.append] in E'. cbn [String.append find_nat].
  destruct (startswith GeminiClient.json_fence (String c (J +:+ rest))) eqn:E2.
  { apply json_fence_starts_with_fence in E2. congruence. }
  by rewrite IH.
Qed.

Lemma find_json_fence_plain (J : string) :
  find_nat GeminiClient.fence J = None →
  find_nat GeminiClient.json_fence (plain_block J) = None.
Proof.
  intros HJ.
  pose proof (find_json_fence_skip J (nl +:+ "```") HJ eq_refl eq_refl) as H.
  unfold plain_block. cbn [String.append nl find_nat] in *.
  change (startswith GeminiClient.json_fence
            (String "`" (String "`" (String "`"
               (String newline (J +:+ String newline "```"))))))
    with false.
  change (startswith GeminiClient.json_fence
            (String "`" (String "`" (String newline (J +:+ String newline "```")))))
    with false.
  change (startswith GeminiClient.json_fence
            (String "`" (String newline (J +:+ String newline "```"))))
    with false.
  change (startswith GeminiClient.json_fence
            (String newline (J +:+ String newline "```")))
    with false.
  cbv iota. by rewrite H.
Qed.

(** The last occurrence in a text is the last occurrence in its end,
    if there is one. *)
Lemma rfind_nat_append (sub p y : string) (i : nat) :
  rfind_nat sub y = Some i →
  rfind_nat sub (p +:+ y) = Some (String.length p + i)%nat.
Proof.
  intros Hy. induction p as [|c p IH]; [done|].
  cbn [String.append rfind_nat String.length]. by rewrite IH.
Qed.

(** The candidate of a block without tag, after prose. *)
Lemma json_text_of_plain (pre J : string) :
  contains "`" pre = false →
  contains GeminiClient.fence J = false →
  GeminiClient.json_text_of (pre +:+ plain_block J) = strip J.
Proof.
  intros Hpre HJ. apply contains_false in HJ.
  apply contains_false, (find_nat_none_lstrip "`" pre) in Hpre.
  unfold GeminiClient.json_text_of.
  assert (Hs : strip (pre +:+ plain_block J) = lstrip pre +:+ plain_block J).
  { unfold strip. rewrite (lstrip_append pre (plain_block J)) by done.
    unfold plain_block.
    replace (lstrip pre +:+ "```" +:+ nl +:+ J +:+ nl +:+ "```")
      with ((lstrip pre +:+ "```" +:+ nl +:+ J +:+ nl) +:+ "```" +:+ "")
      by (by rewrite !append_assoc).
    by rewrite rstrip_before_fence. }
  rewrite Hs. set (p := lstrip pre) in *.
  assert (H1 : find_nat GeminiClient.json_fence (p +:+ plain_block J) = None).
  { rewrite (find_after_plain GeminiClient.json_fence p _ eq_refl Hpre).
    by rewrite (find_json_fence_plain J HJ). }
  assert (H2 : find_nat GeminiClient.fence (p +:+ plain_block J)
               = Some (String.length p)).
  { rewrite (find_after_plain GeminiClient.fence p _ eq_refl Hpre).
    change (find_nat GeminiClient.fence (plain_block J)) with (Some 0%nat).
    cbn [fmap option_fmap option_map]. f_equal. lia. }
  assert (Hparts : p +:+ plain_block J
                   = (p +:+ "```") +:+ (nl +:+ J +:+ nl) +:+ "```").
  { unfold plain_block. by rewrite !append_assoc. }
  assert (H3 : rfind_nat GeminiClient.fence (p +:+ plain_block J)
               = Some (String.length ((p +:+ "```") +:+ (nl +:+ J +:+ nl)) + 0)%nat).
  { rewrite Hparts, <- append_assoc.
    by apply rfind_nat_append. }
  unfold contains, find, rfind. rewrite H1, H2, H3. cbn [index_or_minus1].
  replace (Z.of_nat (String.length p) + 3) with (len (p +:+ "```"))
    by (rewrite len_append; reflexivity).
  replace (Z.of_nat (String.length ((p +:+ "```") +:+ nl +:+ J +:+ nl) + 0))
    with (len (p +:+ "```") + len (nl +:+ J +:+ nl))
    by (rewrite <- len_append; unfold len; lia).
  rewrite Hparts, slice_middle.
  unfold strip at 1. cbn [String.append nl lstrip].
  change (is_space newline) with true. cbv iota.
  apply strip_app_nl.
Qed.

Section BlockClaims.
Variable json_loads : string -> pyresult json.

(** X27.  A block opened with the JSON tag and never closed loses its
    last character: when the text [J] after the tag has no run of three
    backquotes and is not blank, the response is parsed to the same
    result as [J], trimmed on the right, without its last character. *)
Theorem unclosed_block_loses_last_character (J : string) :
  is_empty (rstrip J) = false →
  contains GeminiClient.fence J = false →
  GeminiClient._parse_response json_loads (unclosed_block J)
  = GeminiClient._parse_response json_loads (without_last (rstrip J)).
Proof.
  intros Hne HJ. unfold GeminiClient._parse_response, GeminiClient.parse_body.
  rewrite (json_text_of_unclosed J Hne HJ).
  rewrite json_text_of_bare; [done|].
  apply contains_false. apply contains_false in HJ.
  destruct (rstrip_prefix J) as [t Ht]. rewrite Ht in HJ.
  apply find_nat_none_prefix in HJ.
  destruct (without_last_snoc (rstrip J) (is_empty_false_ne _ Hne)) as [c Hc].
  rewrite Hc in HJ. by apply find_nat_none_prefix in HJ.
Qed.

(** X28.  A block without language tag is unwrapped too: for a text [J]
    without a run of three backquotes, a response made of any text
    without backquote followed by [J] on lines of its own between two
    plain fences is parsed to the same result as [J] alone. *)
Theorem plain_block_parses_like_bare (pre J : string) :
  contains "`" pre = false →
  contains GeminiClient.fence J = false →
  GeminiClient._parse_response json_loads (pre +:+ plain_block J)
  = GeminiClient._parse_response json_loads J.
Proof.
  intros Hpre HJ. unfold GeminiClient._parse_response, GeminiClient.parse_body.
  by rewrite (json_text_of_plain pre J Hpre HJ), (json_text_of_bare J HJ).
Qed.

End BlockClaims.

(** The sample artifact in a block that is never closed: the hypotheses
    of [unclosed_block_loses_last_character] hold, and the text that is
    decoded lacks its closing brace, so that the fallback artifact is
    returned. *)
Lemma unclosed_block_loses_last_character_witness :
  GeminiClient._parse_response Json.loads (unclosed_block Samples.artifact_text)
  = GeminiClient._parse_response Json.loads (without_last (rstrip Samples.artifact_text))
  ∧ GeminiClient._parse_response Json.loads (unclosed_block Samples.artifact_text)
    = Returns GeminiClient._create_fallback_response.
Proof.
  split.
  - exact (unclosed_block_loses_last_character Json.loads Samples.artifact_text
             eq_refl eq_refl).
  - by vm_compute.
Defined.

(** The sample artifact in a block without tag, announced by a
    sentence, at which the hypotheses of [plain_block_parses_like_bare]
    hold. *)
Lemma plain_block_parses_like_bare_witness :
  GeminiClient._parse_response Json.loads
    ("Here is the contract:" +:+ nl +:+ plain_block Samples.artifact_text)
  = GeminiClient._parse_response Json.loads Samples.artifact_text.
Proof.
  exact (plain_block_parses_like_bare Json.loads ("Here is the contract:" +:+ nl)
           Samples.artifact_text eq_refl eq_refl).
Defined.
